(** * Terminal agent: plan parsing, command filter, fuzzy search and file tools

    A shallow embedding of [core/planner.py], [core/executor.py],
    [core/tools.py], [models/plan.py], [models/action.py] and
    [agent_cli.py].

    Conventions of the embedding.
    - A Python [str] is a [string]; every character stands for the code
      point of the same number (U+0000 .. U+00FF).
    - A Python [int] is a [Z]; a Python [float] is an exact rational [Q].
    - A Python [dict] is an association list in insertion order, read with
      [dict_get] (first binding of the key).
    - A function that raises returns in the [Outcome] type of module [Py];
      a function of the standard library whose algorithm is not part of the
      repository ([json.loads], [str()], the UTF-8 codec) is a field of the
      class [PyLib].
    - The file system is a finite map from resolved paths to files and
      directories; a path is resolved by walking it as the operating system
      does, [..] included. *)

From Stdlib Require Import ZArith QArith List Ascii String Lia Bool.
From Stdlib.Strings Require Import Byte.
From stdpp Require Import base option list strings gmap.

Local Set Warnings "-register-all".

Local Open Scope string_scope.

(** ** Python string primitives *)

Module PyStr.

(** [str.isspace] on the code points below 256. *)
Definition is_space (c : ascii) : bool :=
  let n := nat_of_ascii c in
  (((9 <=? n) && (n <=? 13)) || ((28 <=? n) && (n <=? 32))
   || (n =? 133) || (n =? 160))%nat.

(** [str.lower] on the code points below 256: A-Z and the Latin-1 capitals
    (U+00C0 .. U+00DE without the multiplication sign U+00D7). *)
Definition lower_char (c : ascii) : ascii :=
  let n := nat_of_ascii c in
  if (((65 <=? n) && (n <=? 90))
      || ((192 <=? n) && (n <=? 222) && negb (n =? 215)))%nat
  then ascii_of_nat (n + 32) else c.

Fixpoint lower (s : string) : string :=
  match s with
  | EmptyString => EmptyString
  | String c t => String (lower_char c) (lower t)
  end.

Fixpoint lstrip (s : string) : string :=
  match s with
  | EmptyString => EmptyString
  | String c t => if is_space c then lstrip t else s
  end.

(** [rstrip] keeps a character when something that is not white space
    follows it. *)
Fixpoint rstrip (s : string) : string :=
  match s with
  | EmptyString => EmptyString
  | String c t =>
      match rstrip t with
      | EmptyString => if is_space c then EmptyString else String c EmptyString
      | r => String c r
      end
  end.

Definition strip (s : string) : string := rstrip (lstrip s).

(** [s.startswith(p)] *)
Fixpoint startswith (p s : string) : bool :=
  match p, s with
  | EmptyString, _ => true
  | String a p', String b s' => if ascii_dec a b then startswith p' s' else false
  | String _ _, EmptyString => false
  end.

(** [s.endswith(p)] *)
Definition endswith (p s : string) : bool :=
  (String.length p <=? String.length s)%nat
  && String.eqb (String.substring (String.length s - String.length p) (String.length p) s) p.

(** [p in s] *)
Fixpoint contains (p s : string) : bool :=
  startswith p s ||
  match s with
  | EmptyString => false
  | String _ t => contains p t
  end.

(** [s.find(p)]: index of the first occurrence, [None] for Python's -1. *)
Fixpoint find (p s : string) : option nat :=
  if startswith p s then Some 0%nat
  else match s with
       | EmptyString => None
       | String _ t => option_map S (find p t)
       end.

Fixpoint drop (n : nat) (s : string) : string :=
  match n, s with
  | O, _ => s
  | S n', String _ t => drop n' t
  | S _, EmptyString => EmptyString
  end.

Fixpoint take (n : nat) (s : string) : string :=
  match n, s with
  | O, _ => EmptyString
  | S n', String c t => String c (take n' t)
  | S _, EmptyString => EmptyString
  end.

(** [s.find(p, start)] for [0 <= start]. *)
Definition find_from (p s : string) (start : nat) : option nat :=
  if (String.length s <? start)%nat then None
  else option_map (fun i => (start + i)%nat) (find p (drop start s)).

(** [s[i:j]] for [0 <= i] and [0 <= j]. *)
Definition slice (s : string) (i j : nat) : string := take (j - i) (drop i s).

(** The line boundaries of [str.splitlines] below U+0100, the two-character
    boundary CR LF apart. *)
Definition is_linebreak (c : ascii) : bool :=
  let n := nat_of_ascii c in
  (((10 <=? n) && (n <=? 13)) || ((28 <=? n) && (n <=? 30)) || (n =? 133))%nat.

(** [splitlines_aux cur s]: [cur] is the line read so far. *)
Fixpoint splitlines_aux (cur : string) (s : string) : list string :=
  match s with
  | EmptyString => match cur with EmptyString => [] | _ => [cur] end
  | String c t =>
      if is_linebreak c then
        match t with
        | String d t' =>
            if (nat_of_ascii c =? 13)%nat && (nat_of_ascii d =? 10)%nat
            then cur :: splitlines_aux EmptyString t'
            else cur :: splitlines_aux EmptyString t
        | EmptyString => [cur]
        end
      else splitlines_aux (cur ++ String c EmptyString) t
  end.

Definition splitlines (s : string) : list string := splitlines_aux EmptyString s.

(** [sep.join(l)] *)
Fixpoint join (sep : string) (l : list string) : string :=
  match l with
  | [] => EmptyString
  | [x] => x
  | x :: rest => x ++ sep ++ join sep rest
  end.

End PyStr.

(** ** Exceptions and the state-and-exception monad *)

Module Py.

(** The exception classes that the modelled calls raise; all of them derive
    from [Exception]. *)
Inductive exn_class : Type :=
| FileNotFoundError | IsADirectoryError | NotADirectoryError | FileExistsError
| OSError | RuntimeError | ValueError | TypeError | EOFError | RecursionError
| OtherException.

Record exn : Type := mkExn { exn_cls : exn_class; exn_msg : string }.

(** [isinstance(e, OSError)] *)
Definition is_OSError (e : exn) : bool :=
  match exn_cls e with
  | FileNotFoundError | IsADirectoryError | NotADirectoryError
  | FileExistsError | OSError => true
  | _ => false
  end.

Definition is_FileNotFoundError (e : exn) : bool :=
  match exn_cls e with FileNotFoundError => true | _ => false end.

Inductive Outcome (S A : Type) : Type :=
| Ret (a : A) (s : S)
| Raise (e : exn) (s : S).
Arguments Ret {S A} a s.
Arguments Raise {S A} e s.

Definition M (S A : Type) : Type := S -> Outcome S A.

Definition ret {S A} (a : A) : M S A := fun s => Ret a s.
Definition bind {S A B} (m : M S A) (k : A -> M S B) : M S B :=
  fun s => match m s with
           | Ret a s' => k a s'
           | Raise e s' => Raise e s'
           end.
Definition raise {S A} (e : exn) : M S A := fun s => Raise e s.
Definition get {S} : M S S := fun s => Ret s s.

(** [try: body / except <filter> as e: handler e]; an exception that the
    filter rejects goes on to the caller. *)
Definition try_except {S A} (body : M S A) (catches : exn -> bool)
    (handler : exn -> M S A) : M S A :=
  fun s => match body s with
           | Ret a s' => Ret a s'
           | Raise e s' => if catches e then handler e s' else Raise e s'
           end.

(** [except Exception] catches every modelled exception. *)
Definition any_Exception (e : exn) : bool := true.

Definition returns {S A} (o : Outcome S A) : bool :=
  match o with Ret _ _ => true | Raise _ _ => false end.

Definition final_state {S A} (o : Outcome S A) : S :=
  match o with Ret _ s => s | Raise _ s => s end.

End Py.

Notation "'let*' x := m 'in' k" := (Py.bind m (fun x => k))
  (at level 10, x pattern, m at level 100, k at level 200).
Notation "'do' m 'in' k" := (Py.bind m (fun _ => k))
  (at level 10, m at level 100, k at level 200).

(** [l[:n]] for a Python [int] [n]: a negative [n] counts from the end. *)
Definition py_slice_to {A} (n : Z) (l : list A) : list A :=
  if (0 <=? n)%Z then firstn (Z.to_nat n) l
  else firstn (length l - Z.to_nat (- n)) l.

(** ** Python values

    The values that [json.loads] builds and that travel in argument maps and
    tool results.  [VNone] is Python's [None] (JSON [null]). *)

Inductive value : Type :=
| VNone
| VBool (b : bool)
| VInt (z : Z)
| VFloat (q : Q)
| VStr (s : string)
| VList (l : list value)
| VDict (d : list (string * value)).

Abbreviation dict := (list (string * value)).

(** [d.get(k)]: the binding of [k], [None] when the key is absent. *)
Fixpoint dict_get (k : string) (d : dict) : option value :=
  match d with
  | [] => None
  | (k', v) :: rest => if String.eqb k k' then Some v else dict_get k rest
  end.

(** [d.get(k, default)] *)
Definition dict_get_default (k : string) (default : value) (d : dict) : value :=
  match dict_get k d with
  | Some v => v
  | None => default
  end.

(** [k in d] *)
Definition dict_has (k : string) (d : dict) : bool :=
  match dict_get k d with Some _ => true | None => false end.

(** The functions of Python's standard library that the program calls and
    whose algorithms are not part of it. *)
(** What [json.loads] does with a text: it returns the value, or raises
    [json.JSONDecodeError] (the text is not JSON), or raises something else
    ([RecursionError] for a text nested too deeply, [ValueError] for an
    integer of more digits than [int] converts). *)
Inductive loads_result : Type :=
| Loaded (v : value)
| JSONDecodeError
| LoadsRaises (e : Py.exn).

Class PyLib : Type := {
  (** [json.loads] *)
  json_loads : string -> loads_result;
  (** [repr] of a value that is not a [str]. *)
  py_repr : value -> string;
  (** [int(s)] of a [str]; [None] when it raises [ValueError]. *)
  int_of_str : string -> option Z;
  (** [bytes.decode("utf-8", errors="replace")] *)
  utf8_decode : list byte -> string;
  (** [str.encode("utf-8")] *)
  utf8_encode : string -> list byte
}.

(** [str(v)] *)
Definition py_str `{PyLib} (v : value) : string :=
  match v with
  | VStr s => s
  | _ => py_repr v
  end.

(** [bool(v)] *)
Definition py_bool (v : value) : bool :=
  match v with
  | VNone => false
  | VBool b => b
  | VInt z => negb (z =? 0)%Z
  | VFloat q => negb (Qeq_bool q 0)
  | VStr s => negb (String.eqb s "")
  | VList l => match l with [] => false | _ => true end
  | VDict d => match d with [] => false | _ => true end
  end.

(** ** models/action.py, models/plan.py *)

Module Models.

Record Action : Type := mkAction {
  tool : string;
  args : dict
}.

Record Plan : Type := mkPlan {
  plan : string;
  actions : list Action
}.

(** Default of the field [plan]. *)
Definition default_plan : string := "No high-level plan provided.".

(** [Action.model_validate]: the input is a mapping, [tool] is required and
    is a [str], [args] is a mapping when given and the empty map when not;
    other keys are ignored.  [None] stands for [ValidationError]. *)
Definition Action_model_validate (v : value) : option Action :=
  match v with
  | VDict d =>
      match dict_get "tool" d with
      | Some (VStr t) =>
          match dict_get "args" d with
          | None => Some (mkAction t [])
          | Some (VDict a) => Some (mkAction t a)
          | Some _ => None
          end
      | _ => None
      end
  | _ => None
  end.

(** Validation of a [List[Action]]: every item validates, in order. *)
Fixpoint validate_actions (l : list value) : option (list Action) :=
  match l with
  | [] => Some []
  | v :: rest =>
      match Action_model_validate v, validate_actions rest with
      | Some a, Some r => Some (a :: r)
      | _, _ => None
      end
  end.

(** [Plan.model_validate] *)
Definition Plan_model_validate (v : value) : option Plan :=
  match v with
  | VDict d =>
      match (match dict_get "plan" d with
             | None => Some default_plan
             | Some (VStr s) => Some s
             | Some _ => None
             end),
            (match dict_get "actions" d with
             | None => Some []
             | Some (VList l) => validate_actions l
             | Some _ => None
             end) with
      | Some p, Some acts => Some (mkPlan p acts)
      | _, _ => None
      end
  | _ => None
  end.

End Models.

(** ** core/planner.py *)

Module Planner.
Import Models.

Definition fence : string := "```".
Definition newline : string := String (ascii_of_nat 10) EmptyString.

(** The loop of the line-by-line fallback: [in_fence] is the flag, [inner]
    the lines collected so far; a second fence line ends the loop. *)
Fixpoint fence_lines (in_fence : bool) (inner : list string) (lines : list string)
  : list string :=
  match lines with
  | [] => inner
  | line :: rest =>
      if PyStr.startswith fence (PyStr.strip line) then
        if negb in_fence then fence_lines true inner rest
        else inner
      else if in_fence then fence_lines in_fence (inner ++ [line])%list rest
      else fence_lines in_fence inner rest
  end.

(** What a function that may raise gives to its caller. *)
Inductive result (A : Type) : Type :=
| Returns (a : A)
| Raises (e : Py.exn).
Arguments Returns {A} a.
Arguments Raises {A} e.

(** The fallback of [_extract_json], from [lines = raw.splitlines()] on. *)
Definition extract_fallback `{PyLib} (raw : string) : result value :=
  let joined := PyStr.strip (PyStr.join newline (fence_lines false [] (PyStr.splitlines raw))) in
  if String.eqb joined "" then Returns VNone
  else match json_loads joined with
       | Loaded v => Returns v
       | JSONDecodeError => Returns VNone
       | LoadsRaises e => Raises e
       end.

(** [_extract_json]; the result [VNone] is Python's [None].  Only
    [json.JSONDecodeError] is caught: any other exception of [json.loads]
    goes on to the caller. *)
Definition _extract_json `{PyLib} (raw0 : string) : result value :=
  let raw := PyStr.strip raw0 in
  if String.eqb raw "" then Returns VNone
  else
    match json_loads raw with
    | Loaded v => Returns v
    | LoadsRaises e => Raises e
    | JSONDecodeError =>
        if PyStr.contains fence raw then
          match PyStr.find fence raw with
          | Some start_idx =>
              match PyStr.find_from newline raw start_idx with
              | None => Returns VNone
              | Some start_line_end =>
                  match PyStr.find_from fence raw start_line_end with
                  | Some end_idx =>
                      match json_loads
                              (PyStr.strip (PyStr.slice raw (start_line_end + 1) end_idx))
                      with
                      | Loaded v => Returns v
                      | LoadsRaises e => Raises e
                      | JSONDecodeError => extract_fallback raw
                      end
                  | None => extract_fallback raw
                  end
              end
          | None => extract_fallback raw
          end
        else Returns VNone
    end.

(** The client of the language model: [chat(user_query, mode, tools_summary)]
    returns the text of the model's answer. *)
Record LLMClient : Type := {
  chat : string -> string -> string -> string
}.

(** [get_action_plan]: no [try] is around [_extract_json], so what that
    raises leaves [get_action_plan] too. *)
Definition get_action_plan `{PyLib} (llm : LLMClient) (user_query tools : string)
  : result (option Plan) :=
  let raw := chat llm user_query "action" tools in
  match _extract_json raw with
  | Raises e => Raises e
  | Returns VNone => Returns None
  | Returns data => Returns (Plan_model_validate data)
  end.

End Planner.

(** ** The file system and the host *)

Module Host.
Import Py.

(** An absolute path is the list of its components, the root is [].  A
    component [..] stays in the list where the program leaves it in the
    path; the system follows it when the path is used.

    The file system holds directories and regular files; symbolic links,
    permissions and other processes are outside the model. *)
Abbreviation path := (list string).

Inductive node : Type :=
| File (data : list byte)
| Dir.

(** The state of the machine: the files, the working directory of the
    process ([None] when it has been removed, so that [os.getcwd] raises)
    and the home directory of the user ([None] when [Path.home] cannot
    determine it). *)
Record World : Type := mkWorld {
  fs : gmap path node;
  cwd : option path;
  home : option path
}.

(** What the operating system answers where the program does not decide. *)
Class OS : Type := {
  (** [subprocess.run(command, shell=True, capture_output=True, text=True)]:
      return code, stdout and stderr; the command may change the world. *)
  subprocess_run : string -> M World (Z * string * string);
  (** home directory of another user, for [~user]; [None] when unknown. *)
  user_home : string -> option path;
  (** [st_size] of a directory. *)
  dir_st_size : Z;
  (** [root.rglob("*")]: the paths it yields, and the exception that ends
      the walk early, if any. *)
  rglob : World -> path -> list path * option exn
}.

Definition set_fs (w : World) (f : gmap path node) : World :=
  mkWorld f (cwd w) (home w).

(** The node stored under a resolved path (one without [..]); the root is
    always a directory. *)
Definition stored (w : World) (k : path) : option node :=
  match k with
  | [] => Some Dir
  | _ => fs w !! k
  end.

(** One step of a walk: [..] leads to the parent, the root is its own. *)
Definition step (cur : path) (c : string) : path :=
  if String.eqb c ".." then removelast cur else (cur ++ [c])%list.

(** The walk of the operating system along the components of a path, from
    the directory [cur]: every component, [..] too, is looked up in a
    directory that exists.  The result is the resolved path, or the error of
    the step that failed. *)
Fixpoint os_walk (w : World) (cur : path) (comps : list string) : path + exn_class :=
  match comps with
  | [] => inl cur
  | c :: rest =>
      match stored w cur with
      | Some Dir => os_walk w (step cur c) rest
      | Some (File _) => inr NotADirectoryError
      | None => inr FileNotFoundError
      end
  end.

Definition key_of (w : World) (p : path) : path + exn_class := os_walk w [] p.

(** The node that the system finds at a path. *)
Definition node_at (w : World) (p : path) : option node :=
  match key_of w p with
  | inl k => stored w k
  | inr _ => None
  end.

(** [Path.name], [Path.parent], [p / part], [str(p)]: these work on the
    text of the path and resolve nothing. *)
Definition name (p : path) : string := List.last p "".
Definition parent (p : path) : path := removelast p.
Definition joinpath (p : path) (part : string) : path := (p ++ [part])%list.
Definition path_str (p : path) : string :=
  match p with
  | [] => "/"
  | _ => String.concat "" (map (fun c => "/" ++ c) p)
  end.

(** [p.exists()], [p.is_dir()], [p.is_file()] *)
Definition exists_ (w : World) (p : path) : bool :=
  match node_at w p with Some _ => true | None => false end.
Definition is_dir (w : World) (p : path) : bool :=
  match node_at w p with Some Dir => true | _ => false end.
Definition is_file (w : World) (p : path) : bool :=
  match node_at w p with Some (File _) => true | _ => false end.

Definition path_exists (p : path) : M World bool := fun w => Ret (exists_ w p) w.
Definition path_is_dir (p : path) : M World bool := fun w => Ret (is_dir w p) w.
Definition path_is_file (p : path) : M World bool := fun w => Ret (is_file w p) w.

Definition errno (c : exn_class) (what : string) (p : path) : exn :=
  mkExn c (what ++ ": '" ++ path_str p ++ "'").

(** The error of a lookup that finds nothing: [ENOTDIR] below a regular
    file, [ENOENT] else. *)
Definition lookup_error (w : World) (p : path) : exn :=
  match key_of w p with
  | inr NotADirectoryError => errno NotADirectoryError "[Errno 20] Not a directory" p
  | _ => errno FileNotFoundError "[Errno 2] No such file or directory" p
  end.

(** [p.read_bytes()] *)
Definition read_bytes (p : path) : M World (list byte) :=
  fun w => match node_at w p with
           | Some (File d) => Ret d w
           | Some Dir => Raise (errno IsADirectoryError "[Errno 21] Is a directory" p) w
           | None => Raise (lookup_error w p) w
           end.

(** [p.stat().st_size] *)
Definition stat_size `{OS} (p : path) : M World Z :=
  fun w => match node_at w p with
           | Some (File d) => Ret (Z.of_nat (length d)) w
           | Some Dir => Ret dir_st_size w
           | None => Raise (lookup_error w p) w
           end.

(** [os.mkdir(p)]: the directory above must be there, and nothing at the
    path itself. *)
Definition os_mkdir (p : path) : M World unit :=
  fun w => match key_of w p with
           | inr NotADirectoryError =>
               Raise (errno NotADirectoryError "[Errno 20] Not a directory" p) w
           | inr _ => Raise (errno FileNotFoundError "[Errno 2] No such file or directory" p) w
           | inl k =>
               match stored w k with
               | Some _ => Raise (errno FileExistsError "[Errno 17] File exists" p) w
               | None => Ret tt (set_fs w (<[k := Dir]> (fs w)))
               end
           end.

(** [p.mkdir(parents=True, exist_ok=True)] as pathlib does it: [os.mkdir];
    when that finds no directory above, the parent is made in the same way
    and [os.mkdir] is tried again; any other error is passed over when the
    path is a directory by then.  [n] bounds the steps to the parent, and
    is used up at the root, which is its own parent. *)
Fixpoint mkdir_fuel (n : nat) (p : path) (w : World) : Outcome World unit :=
  match os_mkdir p w with
  | Ret _ w' => Ret tt w'
  | Raise e w' =>
      if is_FileNotFoundError e then
        match n with
        | O => Raise e w'
        | S n' =>
            match mkdir_fuel n' (parent p) w' with
            | Raise e2 w2 => Raise e2 w2
            | Ret _ w2 =>
                match os_mkdir p w2 with
                | Ret _ w3 => Ret tt w3
                | Raise e3 w3 =>
                    if is_FileNotFoundError e3 then Raise e3 w3
                    else if is_dir w3 p then Ret tt w3 else Raise e3 w3
                end
            end
        end
      else if is_dir w' p then Ret tt w' else Raise e w'
  end.

Definition mkdir_parents (p : path) : M World unit := mkdir_fuel (length p) p.

(** Opening [p] for writing needs the directories along the path and no
    directory at [p] itself. *)
Definition check_writable (p : path) (w : World) : option exn :=
  match key_of w p with
  | inr NotADirectoryError => Some (errno NotADirectoryError "[Errno 20] Not a directory" p)
  | inr _ => Some (errno FileNotFoundError "[Errno 2] No such file or directory" p)
  | inl k =>
      match stored w k with
      | Some Dir => Some (errno IsADirectoryError "[Errno 21] Is a directory" p)
      | _ => None
      end
  end.

(** [with p.open("w") as f: f.write(text)] and the same with ["a"]: the
    file is written where the path resolves. *)
Definition write_bytes (append : bool) (p : path) (data : list byte) : M World unit :=
  fun w =>
    match check_writable p w with
    | Some e => Raise e w
    | None =>
        match key_of w p with
        | inl k =>
            let old := match stored w k with
                       | Some (File d) => if append then d else []
                       | _ => []
                       end in
            Ret tt (set_fs w (<[k := File (old ++ data)%list]> (fs w)))
        | inr _ => Ret tt w
        end
    end.

(** [os.path.samefile(a, b)], false when one of them does not exist. *)
Definition samefile (w : World) (a b : path) : bool :=
  match key_of w a, key_of w b with
  | inl ka, inl kb =>
      bool_decide (ka = kb)
      && match stored w ka with Some _ => true | None => false end
  | _, _ => false
  end.

(** [shutil.copy2(src, dst)] of two [Path] objects: a directory [dst]
    receives a file named as the source; a file cannot be copied onto
    itself ([SameFileError], an [OSError]); an existing target file is
    replaced. *)
Definition copy2 (src dst : path) : M World unit :=
  fun w =>
    let target := if is_dir w dst then joinpath dst (name src) else dst in
    if samefile w src target then
      Raise (mkExn OSError
               ("PosixPath('" ++ path_str src ++ "') and "
                ++ (if is_dir w dst then "'" ++ path_str target ++ "'"
                    else "PosixPath('" ++ path_str target ++ "')")
                ++ " are the same file")) w
    else
      match read_bytes src w with
      | Raise e w' => Raise e w'
      | Ret d _ => write_bytes false target d w
      end.

Definition get_cwd : M World path :=
  fun w => match cwd w with
           | Some p => Ret p w
           | None => Raise (mkExn FileNotFoundError "[Errno 2] No such file or directory") w
           end.

Definition get_home : M World path :=
  fun w => match home w with
           | Some p => Ret p w
           | None => Raise (mkExn RuntimeError "Could not determine home directory.") w
           end.

End Host.

(** ** difflib.SequenceMatcher(None, a, b).ratio()

    The matching blocks of the standard library's algorithm: the longest
    common block that starts earliest in [a], then earliest in [b], found
    over the elements of [b] that the automatic junk heuristic keeps,
    extended on both sides, and the same again to the left and to the right
    of it. *)

Module Difflib.

Definition count_char (c : ascii) (b : list ascii) : nat :=
  length (filter (fun d => Ascii.eqb c d) b).

(** The elements that [__chain_b] removes from its index: with 200 elements
    or more, those that occur more than [1 + len(b) // 100] times. *)
Definition popular (b : list ascii) (c : ascii) : bool :=
  ((200 <=? length b) && (length b / 100 + 1 <? count_char c b))%nat.

(** One row of [j2len]: [diag] is the entry of the previous row at [j - 1]. *)
Fixpoint next_row (pop : ascii -> bool) (ai : ascii) (b : list ascii)
    (prev : list nat) (diag : nat) : list nat :=
  match b, prev with
  | bj :: b', pj :: prev' =>
      (if Ascii.eqb ai bj && negb (pop bj) then S diag else O)
        :: next_row pop ai b' prev' pj
  | _, _ => []
  end.

(** [if k > bestsize: besti, bestj, bestsize = i-k+1, j-k+1, k], for the
    entries of row [i] from column [j] on. *)
Fixpoint scan_row (i : nat) (row : list nat) (j : nat) (best : nat * nat * nat)
  : nat * nat * nat :=
  match row with
  | [] => best
  | k :: row' =>
      let best' := if (snd best <? k)%nat then (i + 1 - k, j + 1 - k, k)%nat else best in
      scan_row i row' (S j) best'
  end.

Fixpoint longest_rows (pop : ascii -> bool) (a : list ascii) (i : nat)
    (b : list ascii) (prev : list nat) (best : nat * nat * nat) : nat * nat * nat :=
  match a with
  | [] => best
  | ai :: a' =>
      let row := next_row pop ai b prev O in
      longest_rows pop a' (S i) b row (scan_row i row O best)
  end.

Definition char_at (l : list ascii) (i : nat) : ascii := nth i l Ascii.zero.

(** The two loops that extend the best block; nothing is junk. *)
Fixpoint extend_left (fuel : nat) (a b : list ascii) (m : nat * nat * nat)
  : nat * nat * nat :=
  match fuel with
  | O => m
  | S fuel' =>
      let '(i, j, k) := m in
      if ((0 <? i) && (0 <? j))%nat && Ascii.eqb (char_at a (i - 1)) (char_at b (j - 1))
      then extend_left fuel' a b (i - 1, j - 1, k + 1)%nat
      else m
  end.

Fixpoint extend_right (fuel : nat) (a b : list ascii) (m : nat * nat * nat)
  : nat * nat * nat :=
  match fuel with
  | O => m
  | S fuel' =>
      let '(i, j, k) := m in
      if ((i + k <? length a) && (j + k <? length b))%nat
         && Ascii.eqb (char_at a (i + k)) (char_at b (j + k))
      then extend_right fuel' a b (i, j, k + 1)%nat
      else m
  end.

(** [find_longest_match] on the whole of [a] and [b]. *)
Definition find_longest_match (pop : ascii -> bool) (a b : list ascii)
  : nat * nat * nat :=
  let best := longest_rows pop a O b (repeat O (length b)) (O, O, O) in
  extend_right (length a) a b (extend_left (length a) a b best).

(** Sum of the sizes of the matching blocks. *)
Fixpoint matches (fuel : nat) (pop : ascii -> bool) (a b : list ascii) : nat :=
  match fuel with
  | O => O
  | S fuel' =>
      let '(i, j, k) := find_longest_match pop a b in
      if (k =? 0)%nat then O
      else
        (k
         + (if ((0 <? i) && (0 <? j))%nat
            then matches fuel' pop (firstn i a) (firstn j b) else O)
         + (if ((i + k <? length a) && (j + k <? length b))%nat
            then matches fuel' pop (skipn (i + k) a) (skipn (j + k) b) else O))%nat
  end.

(** [ratio()]: [2.0 * matches / length], and 1.0 for two empty sequences. *)
Definition ratio (sa sb : string) : Q :=
  let a := list_ascii_of_string sa in
  let b := list_ascii_of_string sb in
  let total := (length a + length b)%nat in
  if (total =? 0)%nat then 1%Q
  else (2 * Z.of_nat (matches (S (length a)) (popular b) a b)
        # Pos.of_nat total)%Q.

End Difflib.

(** ** pathlib on file names *)

Module PyPath.

(** [s.split(sep)] for a one-character separator. *)
Fixpoint split_aux (sep : ascii) (cur : string) (s : string) : list string :=
  match s with
  | EmptyString => [cur]
  | String c t =>
      if Ascii.eqb c sep then cur :: split_aux sep EmptyString t
      else split_aux sep (cur ++ String c EmptyString) t
  end.
Definition split (sep : ascii) (s : string) : list string :=
  split_aux sep EmptyString s.

(** The components of [PurePosixPath(s)] below its root: empty components
    and single dots are dropped. *)
Definition components (s : string) : list string :=
  filter (fun c => negb (String.eqb c "") && negb (String.eqb c ".")) (split "/"%char s).

(** [PurePosixPath(s).name] *)
Definition path_name (s : string) : string := List.last (components s) "".

(** [s.rfind(".")] *)
Fixpoint rfind_dot (s : string) : option nat :=
  match s with
  | EmptyString => None
  | String c t =>
      match rfind_dot t with
      | Some i => Some (S i)
      | None => if Ascii.eqb c "."%char then Some O else None
      end
  end.

(** [name.stem]: the name without its last suffix; a leading or a trailing
    dot starts no suffix. *)
Definition stem_of_name (n : string) : string :=
  match rfind_dot n with
  | Some i => if ((0 <? i) && (i <? String.length n - 1))%nat
              then PyStr.take i n else n
  | None => n
  end.

(** [name.suffix] *)
Definition suffix_of_name (n : string) : string :=
  match rfind_dot n with
  | Some i => if ((0 <? i) && (i <? String.length n - 1))%nat
              then PyStr.drop i n else ""
  | None => ""
  end.

(** [Path(s).stem] *)
Definition path_stem (s : string) : string := stem_of_name (path_name s).

End PyPath.

(** ** core/tools.py: the similarity score *)

Module Fuzzy.

(** [max(a, b)]: [b] when it is greater than [a], else [a]. *)
Definition py_max (a b : Q) : Q := if Qle_bool b a then a else b.

(** [_fuzzy_match_score] *)
Definition _fuzzy_match_score (query target : string) : Q :=
  let query_lower := PyStr.lower query in
  let target_lower := PyStr.lower target in
  if String.eqb query_lower target_lower then 1%Q
  else if PyStr.contains query_lower target_lower then
    if PyStr.startswith query_lower target_lower then (95 # 100)%Q else (85 # 100)%Q
  else
    let query_has_ext := PyStr.contains "." query && negb (PyStr.endswith "." query) in
    let target_stem := PyStr.lower (PyPath.path_stem target) in
    let by_stem :=
      if negb query_has_ext then
        if String.eqb query_lower target_stem then Some (9 # 10)%Q
        else if PyStr.contains query_lower target_stem then
          if PyStr.startswith query_lower target_stem then Some (8 # 10)%Q
          else Some (7 # 10)%Q
        else None
      else None in
    match by_stem with
    | Some score => score
    | None =>
        let full_ratio := Difflib.ratio query_lower target_lower in
        let stem_ratio := Difflib.ratio query_lower target_stem in
        py_max full_ratio (stem_ratio * (105 # 100))%Q
    end.

End Fuzzy.

(** ** core/tools.py: the tools *)

Module Tools.
Import Py Host.

Definition replace_backslash (s : string) : string :=
  string_of_list_ascii
    (map (fun c => if Ascii.eqb c "\"%char then "/"%char else c) (list_ascii_of_string s)).

(** [p / part]: pathlib drops a single dot. *)
Definition join_part (p : path) (part : string) : path :=
  if String.eqb part "." then p else joinpath p part.

(** [folder_mapping.get(key)] *)
Definition folder_mapping (home : path) (key : string) : option path :=
  if String.eqb key "downloads" || String.eqb key "download" then Some (joinpath home "Downloads")
  else if String.eqb key "documents" || String.eqb key "document" then Some (joinpath home "Documents")
  else if String.eqb key "desktop" then Some (joinpath home "Desktop")
  else if String.eqb key "home" then Some home
  else None.

(** The loop over [enumerate(parts)] from the second part on. *)
Fixpoint find_mapped (home : path) (parts : list string) : option path :=
  match parts with
  | [] => None
  | part :: rest =>
      match folder_mapping home (PyStr.lower part) with
      | Some base => Some (fold_left join_part rest base)
      | None => find_mapped home rest
      end
  end.

(** [os.path.realpath] without symbolic links: [..] steps to the parent and
    stays at the root. *)
Definition normalize_dots (base : path) (comps : list string) : path :=
  fold_left (fun acc c => if String.eqb c ".." then removelast acc else (acc ++ [c])%list)
            comps base.

(** [Path(p).expanduser().resolve()] *)
Definition resolve `{OS} (p : string) : M World path :=
  let comps := PyPath.components p in
  if PyStr.startswith "/" p then ret (normalize_dots [] comps)
  else
    match comps with
    | first :: rest =>
        if PyStr.startswith "~" first then
          if String.eqb first "~" then
            let* h := get_home in ret (normalize_dots h rest)
          else
            match user_home (PyStr.drop 1 first) with
            | Some h => ret (normalize_dots h rest)
            | None => raise (mkExn RuntimeError "Could not determine home directory.")
            end
        else let* c := get_cwd in ret (normalize_dots c comps)
    | [] => let* c := get_cwd in ret c
    end.

(** [_normalize_path] *)
Definition _normalize_path `{OS} (path0 : string) : M World path :=
  let p := replace_backslash (PyStr.strip path0) in
  let* home := get_home in
  let parts := filter (fun part => negb (String.eqb part "")) (PyPath.split "/"%char p) in
  match
    match parts with
    | first :: rest =>
        match folder_mapping home (PyStr.lower first) with
        | Some actual_path => Some (fold_left join_part rest actual_path)
        | None => find_mapped home rest
        end
    | [] => None
    end
  with
  | Some mapped => ret mapped
  | None => resolve p
  end.

Definition error_dict (msg : string) : dict :=
  [("ok", VBool false); ("error", VStr msg)].

(** [run_shell] *)
Definition run_shell `{OS} (command : string) : M World dict :=
  try_except
    (let* completed := subprocess_run command in
     let '(returncode, stdout, stderr) := completed in
     ret [("ok", VBool true); ("returncode", VInt returncode);
          ("stdout", VStr stdout); ("stderr", VStr stderr)])
    any_Exception
    (fun e => ret (error_dict (exn_msg e))).

(** [read_file] *)
Definition read_file `{PyLib} `{OS} (path : string) (max_bytes : Z) : M World dict :=
  try_except
    (try_except
       (let* p := _normalize_path path in
        let* data := read_bytes p in
        let snippet := py_slice_to max_bytes data in
        let text := utf8_decode snippet in
        let truncated := (max_bytes <? Z.of_nat (length data))%Z in
        ret [("ok", VBool true); ("path", VStr (path_str p));
             ("content", VStr text); ("truncated", VBool truncated)])
       is_FileNotFoundError
       (fun _ => ret (error_dict ("file not found: " ++ path))))
    any_Exception
    (fun e => ret (error_dict (exn_msg e))).

(** [write_file] *)
Definition write_file `{PyLib} `{OS} (path content mode0 : string) : M World dict :=
  try_except
    (let* p := _normalize_path path in
     let append := String.eqb mode0 "append" in
     let mode := if append then mode0 else "overwrite" in
     let* parent_exists := path_exists (parent p) in
     (* the message of the early [return] of the inner [except], if taken *)
     let* failed :=
       (if negb parent_exists then
          try_except
            (do mkdir_parents (parent p) in ret None)
            any_Exception
            (fun e => ret (Some ("could not create parent directory "
                                 ++ path_str (parent p) ++ ": " ++ exn_msg e)))
        else ret None) in
     match failed with
     | Some msg => ret (error_dict msg)
     | None =>
         let text := content in
         let* before_exists := path_exists p in
         let* before_size := (if before_exists then stat_size p else ret 0%Z) in
         do write_bytes append p (utf8_encode text) in
         let* after_size := stat_size p in
         ret [("ok", VBool true); ("path", VStr (path_str p)); ("mode", VStr mode);
              ("existed_before", VBool before_exists);
              ("bytes_before", VInt before_size); ("bytes_after", VInt after_size)]
     end)
    any_Exception
    (fun e => ret (error_dict (exn_msg e))).

(** An entry of [candidates] in [find_item]. *)
Record Candidate : Type := mkCandidate {
  c_path : string;
  c_root : string;
  c_is_dir : bool;
  c_size : option Z;
  match_score : Q
}.

Definition candidate_dict (c : Candidate) : value :=
  VDict [("path", VStr (c_path c)); ("root", VStr (c_root c));
         ("is_dir", VBool (c_is_dir c));
         ("size", match c_size c with Some z => VInt z | None => VNone end);
         ("match_score", VFloat (match_score c))].

(** [candidates.sort(key=lambda x: x["match_score"], reverse=True)]: a stable
    sort, best score first. *)
Fixpoint insert_desc (c : Candidate) (l : list Candidate) : list Candidate :=
  match l with
  | [] => [c]
  | d :: rest =>
      if Qle_bool (match_score d) (match_score c) then c :: d :: rest
      else d :: insert_desc c rest
  end.

Definition sort_desc (l : list Candidate) : list Candidate :=
  fold_right insert_desc [] l.

(** The roots without repetition, first occurrences kept. *)
Fixpoint unique_roots (seen : list path) (roots : list path) : list path :=
  match roots with
  | [] => []
  | r :: rest =>
      if bool_decide (r ∈ seen) then unique_roots seen rest
      else r :: unique_roots (r :: seen) rest
  end.

(** The body of the loop over [root.rglob("*")]. *)
Fixpoint scan_paths `{OS} (query : string) (fuzzy_threshold : Q) (root : path)
    (paths : list path) (candidates : list Candidate) : M World (list Candidate) :=
  match paths with
  | [] => ret candidates
  | p :: rest =>
      let score := Fuzzy._fuzzy_match_score query (name p) in
      if Qle_bool fuzzy_threshold score then
        let* info :=
          try_except
            (let* d := path_is_dir p in
             let* f := path_is_file p in
             let* size := (if f then (let* z := stat_size p in ret (Some z)) else ret None) in
             ret (d, size))
            is_OSError
            (fun _ => let* d := path_is_dir p in ret (d, None)) in
        scan_paths query fuzzy_threshold root rest
          (candidates ++ [mkCandidate (path_str p) (path_str root) (fst info) (snd info) score])%list
      else scan_paths query fuzzy_threshold root rest candidates
  end.

(** The loop over the roots; what ends a walk early is caught and the next
    root is searched. *)
Fixpoint scan_roots `{OS} (query : string) (fuzzy_threshold : Q)
    (roots : list path) (candidates : list Candidate) : M World (list Candidate) :=
  match roots with
  | [] => ret candidates
  | root :: rest =>
      let* w := get in
      let* candidates' := scan_paths query fuzzy_threshold root (fst (rglob w root)) candidates in
      scan_roots query fuzzy_threshold rest candidates'
  end.

(** The roots that exist among [home / sub]. *)
Fixpoint home_roots (home : path) (subs : list string) : M World (list path) :=
  match subs with
  | [] => ret []
  | sub :: rest =>
      let candidate := joinpath home sub in
      let* e := path_exists candidate in
      let* more := home_roots home rest in
      ret (if e then candidate :: more else more)
  end.

(** [find_item] *)
Definition find_item `{OS} (name : string) (max_results : Z) (fuzzy_threshold : Q)
  : M World dict :=
  let query := PyStr.strip name in
  if String.eqb query "" then ret (error_dict "empty name for find_item")
  else
    let* cwd := get_cwd in
    let* home := get_home in
    let* subs := home_roots home ["Downloads"; "Documents"; "Desktop"] in
    let roots := unique_roots [] (cwd :: subs) in
    let* candidates := scan_roots query fuzzy_threshold roots [] in
    let results := py_slice_to max_results (sort_desc candidates) in
    ret [("ok", VBool true); ("query", VStr query);
         ("roots", VList (map (fun r => VStr (path_str r)) roots));
         ("results", VList (map candidate_dict results));
         ("fuzzy_threshold", VFloat fuzzy_threshold)].

(** [copy_file] *)
Definition copy_file `{OS} (source destination : string) : M World dict :=
  try_except
    (let* src := _normalize_path source in
     let* dst := _normalize_path destination in
     let* src_exists := path_exists src in
     if negb src_exists then ret (error_dict ("Source file not found: " ++ source))
     else
       let* src_is_dir := path_is_dir src in
       if src_is_dir then
         ret (error_dict ("Source is a directory, not a file: " ++ source))
       else
         let* dst_exists := path_exists dst in
         let* dst_is_dir := path_is_dir dst in
         let dst := if dst_exists && dst_is_dir then join_part dst (Host.name src) else dst in
         let* taken := path_exists dst in
         if taken then
           ret (error_dict ("Destination already exists: " ++ path_str dst
                            ++ ". Use move_file to overwrite."))
         else
           do mkdir_parents (parent dst) in
           do copy2 src dst in
           let* size := stat_size dst in
           ret [("ok", VBool true); ("source", VStr (path_str src));
                ("destination", VStr (path_str dst)); ("size", VInt size);
                ("message", VStr "File copied successfully")])
    any_Exception
    (fun e => ret (error_dict ("Error copying file: " ++ exn_msg e))).

(** The statements inside the [try] blocks of the tools whose results no
    property below looks into: they read archives, diffs, PDF files and
    directory listings through library calls. *)
Class ToolBodies : Type := {
  summarize_body : string -> list value -> Z -> M World dict;
  list_directory_body : string -> bool -> value -> M World dict;
  search_content_body : string -> string -> value -> Z -> bool -> M World dict;
  get_file_info_body : string -> M World dict;
  move_file_body : string -> string -> M World dict;
  compare_files_body : string -> string -> Z -> M World dict;
  extract_archive_body : string -> value -> M World dict
}.

(** [summarize_file]: the search comes first, outside every [try]; what
    follows from [files = ...] on is [summarize_body]. *)
Definition summarize_file `{OS} `{ToolBodies} (name : string) (max_bytes : Z)
  : M World dict :=
  let* find_result := find_item name 5 (6 # 10)%Q in
  if negb (py_bool (dict_get_default "ok" VNone find_result)) then
    ret (error_dict (match dict_get "error" find_result with
                     | Some (VStr msg) => msg
                     | _ => "find failed"
                     end))
  else
    match dict_get_default "results" (VList []) find_result with
    | VList [] =>
        ret (error_dict ("No files found matching '" ++ name
                         ++ "'. Try a different search term."))
    | VList results => summarize_body name results max_bytes
    | _ => ret (error_dict "find failed")
    end.

Definition list_directory `{ToolBodies} (path : string) (show_hidden : bool)
    (pattern : value) : M World dict :=
  try_except (list_directory_body path show_hidden pattern) any_Exception
    (fun e => ret (error_dict ("Error listing directory: " ++ exn_msg e))).

Definition search_content `{ToolBodies} (query path : string) (file_pattern : value)
    (max_results : Z) (case_sensitive : bool) : M World dict :=
  try_except (search_content_body query path file_pattern max_results case_sensitive)
    any_Exception
    (fun e => ret (error_dict ("Error searching content: " ++ exn_msg e))).

Definition get_file_info `{ToolBodies} (path : string) : M World dict :=
  try_except (get_file_info_body path) any_Exception
    (fun e => ret (error_dict ("Error getting file info: " ++ exn_msg e))).

Definition move_file `{ToolBodies} (source destination : string) : M World dict :=
  try_except (move_file_body source destination) any_Exception
    (fun e => ret (error_dict ("Error moving file: " ++ exn_msg e))).

Definition compare_files `{ToolBodies} (file1 file2 : string) (context_lines : Z)
  : M World dict :=
  try_except (compare_files_body file1 file2 context_lines) any_Exception
    (fun e => ret (error_dict ("Error comparing files: " ++ exn_msg e))).

Definition extract_archive `{ToolBodies} (archive_path : string) (destination : value)
  : M World dict :=
  try_except (extract_archive_body archive_path destination) any_Exception
    (fun e => ret (error_dict ("Error extracting archive: " ++ exn_msg e))).

End Tools.

(** ** core/executor.py *)

Module Executor.
Import Py Host Models.

Definition DANGEROUS_SUBSTRINGS : list string :=
  ["rm -rf /"; "mkfs"; ":(){ :|:& };:"].

(** The loop of [_is_command_safe] over the patterns. *)
Fixpoint no_pattern_in (patterns : list string) (cmd_lower : string) : bool :=
  match patterns with
  | [] => true
  | pattern :: rest =>
      if PyStr.contains pattern cmd_lower then false
      else no_pattern_in rest cmd_lower
  end.

(** [_is_command_safe] *)
Definition _is_command_safe (command : string) : bool :=
  let cmd_lower := PyStr.lower command in
  no_pattern_in DANGEROUS_SUBSTRINGS cmd_lower.

(** What the program does that can be seen from outside, in order: console
    output, questions to the user with the reply, calls of the tools and of
    the language model. *)
Inductive event : Type :=
| EShowPlan (p : Plan) (dry_run : bool)
| EPrint (text : string)
| ERule (i : nat) (tool : string)
| EPanel (title body : string)
| EResult (result : dict)
| ETable (title : string) (result : dict)
| EAsk (prompt : string) (default reply : bool)
| ECall (tool : string) (args : list value)
| EChat (prompt mode : string).

(** The world, the replies that the user will give to [Confirm.ask], and
    the events so far. *)
Record State : Type := mkState {
  world : World;
  replies : list bool;
  trace : list event
}.

Definition emit (e : event) : M State unit :=
  fun st => Ret tt (mkState (world st) (replies st) (trace st ++ [e])%list).

(** A computation on the world, run inside the executor. *)
Definition lift {A} (m : M World A) : M State A :=
  fun st => match m (world st) with
            | Ret a w => Ret a (mkState w (replies st) (trace st))
            | Raise e w => Raise e (mkState w (replies st) (trace st))
            end.

(** [tool_mod.<tool>(args)] *)
Definition call {A} (tool : string) (args : list value) (m : M World A) : M State A :=
  do emit (ECall tool args) in lift m.

(** [Confirm.ask(prompt, default=default)]; the end of the input raises. *)
Definition ask (prompt : string) (default : bool) : M State bool :=
  fun st => match replies st with
            | [] => Raise (mkExn EOFError "EOF when reading a line") st
            | r :: rest =>
                Ret r (mkState (world st) rest (trace st ++ [EAsk prompt default r])%list)
            end.

(** [int(v)] *)
Definition py_int `{PyLib} {S} (v : value) : M S Z :=
  match v with
  | VInt z => ret z
  | VBool b => ret (Z.b2z b)
  | VFloat q => ret (Z.quot (Qnum q) (Z.pos (Qden q)))
  | VStr s => match int_of_str s with
              | Some z => ret z
              | None => raise (mkExn ValueError "invalid literal for int() with base 10")
              end
  | _ => raise (mkExn TypeError "int() argument must be a string, a bytes-like object or a real number")
  end.

Definition is_empty (s : string) : bool := String.eqb s "".

Definition proceed_prompt : string := "[bold white]Proceed with these actions?[/bold white]".

Section WithHost.
Context `{PyLib} `{OS} `{Tools.ToolBodies}.
(** [LLMClient()] *)
Context (default_llm : Planner.LLMClient).

(** [_print_result] *)
Definition _print_result (result : dict) : M State unit := emit (EResult result).

(** [show_plan] *)
Definition show_plan (p : Plan) (dry_run : bool) : M State unit :=
  emit (EShowPlan p dry_run).

Definition _exec_run_shell (action : Action) : M State unit :=
  let command := py_str (dict_get_default "command" (VStr "") (args action)) in
  if is_empty command then
    emit (EPrint "[yellow]Missing 'command' argument. Skipping.[/yellow]")
  else if negb (_is_command_safe command) then
    emit (EPrint ("[bold red]Blocked dangerous command:[/bold red] [italic]"
                  ++ py_repr (VStr command) ++ "[/italic]"))
  else
    let* result := call "run_shell" [VStr command] (Tools.run_shell command) in
    _print_result result.

Definition _exec_read_file (action : Action) : M State unit :=
  let path := py_str (dict_get_default "path" (VStr "") (args action)) in
  let* max_bytes := py_int (dict_get_default "max_bytes" (VInt 5000) (args action)) in
  if is_empty path then
    emit (EPrint "[yellow]Missing 'path' argument. Skipping.[/yellow]")
  else
    let* result := call "read_file" [VStr path; VInt max_bytes]
                        (Tools.read_file path max_bytes) in
    _print_result result.

Definition _exec_write_file (action : Action) : M State unit :=
  let path := PyStr.strip (py_str (dict_get_default "path" (VStr "") (args action))) in
  let content := dict_get_default "content" (VStr "") (args action) in
  let mode := py_str (dict_get_default "mode" (VStr "overwrite") (args action)) in
  if is_empty path then
    emit (EPrint "[yellow]Missing 'path' argument for write_file. Skipping.[/yellow]")
  else
    let* p := lift (Tools._normalize_path path) in
    (* the existing text is read for the preview only; a failure to read it
       is caught *)
    let* before_text :=
      lift (let* before_exists := path_exists p in
            if before_exists then
              try_except (let* d := read_bytes p in ret (utf8_decode d)) any_Exception
                (fun _ => ret "<could not read existing file as utf-8>")
            else ret "") in
    do emit (EPanel "File Write Preview"
               (path_str p ++ PyStr.join Planner.newline [mode; before_text; py_str content])) in
    let* confirm := ask ("[bold white]Write to file[/bold white] [italic]"
                         ++ path_str p ++ "[/italic]?") false in
    if negb confirm then emit (EPrint "[bold yellow]Skipped write_file.[/bold yellow]")
    else
      let* result := call "write_file" [VStr (path_str p); VStr (py_str content); VStr mode]
                          (Tools.write_file (path_str p) (py_str content) mode) in
      _print_result result.

(** [r.get("is_dir", False)] and [r.get("match_score", 0)] of a result. *)
Definition result_is_dir (r : value) : bool :=
  match r with
  | VDict d => py_bool (dict_get_default "is_dir" (VBool false) d)
  | _ => false
  end.
Definition result_score (r : value) : Q :=
  match r with
  | VDict d => match dict_get_default "match_score" (VInt 0) d with
               | VFloat q => q
               | VInt z => inject_Z z
               | _ => 0
               end
  | _ => 0
  end.
Definition result_path (r : value) : string :=
  match r with
  | VDict d => py_str (dict_get_default "path" VNone d)
  | _ => ""
  end.

(** The file that [_exec_find_item] offers to read, if any. *)
Definition best_file_of (result : dict) : option value :=
  if py_bool (dict_get_default "ok" VNone result)
     && py_bool (dict_get_default "results" VNone result) then
    match dict_get_default "results" VNone result with
    | VList results =>
        let files := filter (fun r => negb (result_is_dir r)) results in
        let high_confidence_files :=
          filter (fun f => Qle_bool (85 # 100) (result_score f)) files in
        match high_confidence_files with
        | [f] => Some f
        | _ =>
            match files with
            | [f] => if Qle_bool (7 # 10) (result_score f) then Some f else None
            | _ => None
            end
        end
    | _ => None
    end
  else None.

Definition _exec_find_item (action : Action) : M State unit :=
  let name := PyStr.strip (py_str (dict_get_default "name" (VStr "") (args action))) in
  let* max_results := py_int (dict_get_default "max_results" (VInt 20) (args action)) in
  if is_empty name then
    emit (EPrint "[yellow]Missing 'name' argument for find_item. Skipping.[/yellow]")
  else
    let* result := call "find_item" [VStr name; VInt max_results]
                        (Tools.find_item name max_results (6 # 10)) in
    do _print_result result in
    match best_file_of result with
    | Some best_file =>
        let file_path := result_path best_file in
        let default_read := Qle_bool (9 # 10) (result_score best_file) in
        do emit (EPrint "") in
        let* read_file := ask "[bold white]Would you like to read this file?[/bold white]"
                              default_read in
        if read_file then
          do emit (EPrint "") in
          do emit (EPrint ("Reading file: " ++ file_path)) in
          let* read_result := call "read_file" [VStr file_path; VInt 5000]
                                   (Tools.read_file file_path 5000) in
          _print_result read_result
        else ret tt
    | None => ret tt
    end.

Definition _exec_summarize_file (action : Action) : M State unit :=
  let name := PyStr.strip (py_str (dict_get_default "name" (VStr "") (args action))) in
  let* max_bytes := py_int (dict_get_default "max_bytes" (VInt 10000) (args action)) in
  if is_empty name then
    emit (EPrint "[yellow]Missing 'name' argument for summarize_file. Skipping.[/yellow]")
  else
    let* result := call "summarize_file" [VStr name; VInt max_bytes]
                        (Tools.summarize_file name max_bytes) in
    do _print_result result in
    if py_bool (dict_get_default "ok" VNone result)
       && py_bool (dict_get_default "content_preview" VNone result) then
      let content := py_str (dict_get_default "content_preview" VNone result) in
      let file_path := py_str (dict_get_default "file_path" (VStr "unknown file") result) in
      let file_type := py_str (dict_get_default "file_type" (VStr "text") result) in
      let prompt :=
        (if String.eqb file_type "pdf"
         then "Please provide a concise summary of this PDF document ("
         else "Please provide a concise summary of this file (")
        ++ file_path ++ "):" ++ Planner.newline ++ Planner.newline ++ content in
      do emit (EPrint "") in
      do emit (EPrint "[bold cyan]Generating summary...[/bold cyan]") in
      do emit (EPrint "") in
      do emit (EChat prompt "chat") in
      emit (EPanel "Summary" (Planner.chat default_llm prompt "chat" ""))
    else ret tt.

Definition _exec_list_directory (action : Action) : M State unit :=
  let path := py_str (dict_get_default "path" (VStr ".") (args action)) in
  let show_hidden := py_bool (dict_get_default "show_hidden" (VBool false) (args action)) in
  let pattern := dict_get_default "pattern" VNone (args action) in
  let* result := call "list_directory" [VStr path; VBool show_hidden; pattern]
                      (Tools.list_directory path show_hidden pattern) in
  if negb (py_bool (dict_get_default "ok" VNone result)) then _print_result result
  else emit (ETable "Directory Listing" result).

Definition _exec_search_content (action : Action) : M State unit :=
  let query := py_str (dict_get_default "query" (VStr "") (args action)) in
  let path := py_str (dict_get_default "path" (VStr ".") (args action)) in
  let file_pattern := dict_get_default "file_pattern" VNone (args action) in
  let* max_results := py_int (dict_get_default "max_results" (VInt 20) (args action)) in
  let case_sensitive := py_bool (dict_get_default "case_sensitive" (VBool false) (args action)) in
  if is_empty query then
    emit (EPrint "[yellow]Missing 'query' argument for search_content.[/yellow]")
  else
    let* result :=
      call "search_content"
           [VStr query; VStr path; file_pattern; VInt max_results; VBool case_sensitive]
           (Tools.search_content query path file_pattern max_results case_sensitive) in
    if negb (py_bool (dict_get_default "ok" VNone result)) then _print_result result
    else emit (ETable "Content Search" result).

Definition _exec_get_file_info (action : Action) : M State unit :=
  let path := py_str (dict_get_default "path" (VStr "") (args action)) in
  if is_empty path then
    emit (EPrint "[yellow]Missing 'path' argument for get_file_info.[/yellow]")
  else
    let* result := call "get_file_info" [VStr path] (Tools.get_file_info path) in
    _print_result result.

Definition _exec_copy_file (action : Action) : M State unit :=
  let source := py_str (dict_get_default "source" (VStr "") (args action)) in
  let destination := py_str (dict_get_default "destination" (VStr "") (args action)) in
  if is_empty source || is_empty destination then
    emit (EPrint "[yellow]Missing source or destination for copy_file.[/yellow]")
  else
    let* result := call "copy_file" [VStr source; VStr destination]
                        (Tools.copy_file source destination) in
    _print_result result.

Definition _exec_move_file (action : Action) : M State unit :=
  let source := py_str (dict_get_default "source" (VStr "") (args action)) in
  let destination := py_str (dict_get_default "destination" (VStr "") (args action)) in
  if is_empty source || is_empty destination then
    emit (EPrint "[yellow]Missing source or destination for move_file.[/yellow]")
  else
    let* result := call "move_file" [VStr source; VStr destination]
                        (Tools.move_file source destination) in
    _print_result result.

Definition _exec_compare_files (action : Action) : M State unit :=
  let file1 := py_str (dict_get_default "file1" (VStr "") (args action)) in
  let file2 := py_str (dict_get_default "file2" (VStr "") (args action)) in
  let* context_lines := py_int (dict_get_default "context_lines" (VInt 3) (args action)) in
  if is_empty file1 || is_empty file2 then
    emit (EPrint "[yellow]Missing file1 or file2 for compare_files.[/yellow]")
  else
    let* result := call "compare_files" [VStr file1; VStr file2; VInt context_lines]
                        (Tools.compare_files file1 file2 context_lines) in
    _print_result result.

Definition _exec_extract_archive (action : Action) : M State unit :=
  let archive_path := py_str (dict_get_default "archive_path" (VStr "") (args action)) in
  let destination := dict_get_default "destination" VNone (args action) in
  if is_empty archive_path then
    emit (EPrint "[yellow]Missing archive_path for extract_archive.[/yellow]")
  else
    let destination := if py_bool destination then destination else VNone in
    let* result := call "extract_archive" [VStr archive_path; destination]
                        (Tools.extract_archive archive_path destination) in
    _print_result result.

(** The chain of [if action.tool == ...] in the loop of [execute_plan]. *)
Definition dispatch (action : Action) : M State unit :=
  let t := tool action in
  if String.eqb t "run_shell" then _exec_run_shell action
  else if String.eqb t "read_file" then _exec_read_file action
  else if String.eqb t "write_file" then _exec_write_file action
  else if String.eqb t "find_item" then _exec_find_item action
  else if String.eqb t "summarize_file" then _exec_summarize_file action
  else if String.eqb t "list_directory" then _exec_list_directory action
  else if String.eqb t "search_content" then _exec_search_content action
  else if String.eqb t "get_file_info" then _exec_get_file_info action
  else if String.eqb t "copy_file" then _exec_copy_file action
  else if String.eqb t "move_file" then _exec_move_file action
  else if String.eqb t "compare_files" then _exec_compare_files action
  else if String.eqb t "extract_archive" then _exec_extract_archive action
  else emit (EPrint ("[yellow]Unknown tool:[/yellow] " ++ py_repr (VStr t) ++ ", skipping.")).

(** [for i, action in enumerate(plan.actions, start=i): ...] *)
Fixpoint run_actions (i : nat) (acts : list Action) : M State unit :=
  match acts with
  | [] => ret tt
  | action :: rest =>
      do emit (EPrint "") in
      do emit (ERule i (tool action)) in
      do dispatch action in
      run_actions (S i) rest
  end.

(** [execute_plan] *)
Definition execute_plan (p : Plan) : M State unit :=
  do show_plan p false in
  do emit (EPrint "") in
  let* proceed := ask proceed_prompt false in
  if negb proceed then emit (EPrint "[bold red]X..Cancelled.[/bold red]")
  else
    match actions p with
    | [] => emit (EPrint "[bold yellow]Nothing to do.[/bold yellow]")
    | acts => run_actions 1 acts
    end.

End WithHost.

End Executor.

(** ** core/executor.py: which panel [_print_result] draws *)

Module Render.

(** The panels of [_print_result], in the order of its tests. *)
Inductive panel : Type :=
| PError (message : string)
| PCommand
| PFileContent
| PFileWritten
| PSearchResults
| PSummary
| PFileInfo
| PCopiedOrMoved (operation : string)
| PComparison
| PArchive
| PSuccess.

(** The chain of tests of [_print_result]: the first key found decides. *)
Definition _print_result_panel `{PyLib} (result : dict) : panel :=
  if negb (py_bool (dict_get_default "ok" (VBool false) result)) then
    PError (py_str (dict_get_default "error" (VStr "Unknown error") result))
  else if dict_has "returncode" result then PCommand
  else if dict_has "content" result then PFileContent
  else if dict_has "path" result && dict_has "bytes_after" result then PFileWritten
  else if dict_has "results" result then PSearchResults
  else if dict_has "content_preview" result then PSummary
  else if dict_has "file_info" result then PFileInfo
  else if dict_has "source" result && dict_has "destination" result then
    PCopiedOrMoved
      (if PyStr.contains "copied"
            (PyStr.lower (py_str (dict_get_default "message" (VStr "") result)))
       then "Copied" else "Moved")
  else if dict_has "diff" result then PComparison
  else if dict_has "extracted_files" result then PArchive
  else PSuccess.

End Render.

(** ** agent_cli.py *)

Module Cli.
Import Py Host Models Executor.

(** The namespace that [parse_args] returns: the subcommand ([ask] or [do],
    the only ones that the parser knows, and one is required) with the
    words of the query (at least one, [nargs="+"]) and, for [do], the flag
    [--dry-run]. *)
Inductive Args : Type :=
| Ask (first : string) (more : list string)
| Do (first : string) (more : list string) (dry_run : bool).

(** [" ".join(args.query)] *)
Definition query_of (a : Args) : string :=
  match a with
  | Ask first more | Do first more _ => PyStr.join " " (first :: more)
  end.

Section WithHost.
Context `{PyLib} `{OS} `{Tools.ToolBodies}.
(** [LLMClient()], and the text that [tools.get_tool_specs()] returns. *)
Context (llm : Planner.LLMClient) (tool_specs : string).
(** [parser.parse_args()] of argparse on the command line of the process:
    the namespace, or the status with which argparse ends the process
    before it returns (2 for a command line that it rejects, an unknown
    command among them, with the usage on the standard error; 0 after
    [--help]). *)
Context (parse_args : list string -> Args + Z).

(** [main], [argv] being the arguments of the command line.  The result is
    the exit status: 0 for a normal return, the status of a [sys.exit]; an
    exception that nothing catches leaves [main].  The last [else] of
    [main] (the "Unknown command." line) is never reached, [args.command]
    being [ask] or [do]. *)
Definition main (argv : list string) : M State Z :=
  match parse_args argv with
  | inr status => ret status
  | inl args =>
      let query := query_of args in
      match args with
      | Ask _ _ =>
          do emit (EChat query "chat") in
          do emit (EPanel "Answer" (Planner.chat llm query "chat" "")) in
          ret 0%Z
      | Do _ _ dry_run =>
          do emit (EChat query "action") in
          match Planner.get_action_plan llm query tool_specs with
          | Planner.Raises e => raise e
          | Planner.Returns None =>
              do emit (EPanel "Plan Error"
                         "Could not generate a valid action plan. Try rephrasing.") in
              ret 1%Z
          | Planner.Returns (Some plan) =>
              if dry_run then
                do show_plan plan true in ret 0%Z
              else
                do execute_plan llm plan in ret 0%Z
          end
      end
  end.

End WithHost.

End Cli.

(** ** core/tools.py: the body of [move_file] on the file system *)

Module MoveFile.
Import Py Host Tools.

(** [shutil.move(str(src), str(dst))] of a regular file on one file system
    ([move_file] calls it for nothing else): into [dst] under the name of
    the source when [dst] is a directory, unless that name is taken there;
    else [os.rename], which replaces an existing file. *)
Definition shutil_move (src dst : path) : M World unit :=
  fun w =>
    let real_dst := if is_dir w dst then joinpath dst (name src) else dst in
    if is_dir w dst && exists_ w real_dst then
      Raise (mkExn OSError
               ("Destination path '" ++ path_str real_dst ++ "' already exists")) w
    else
      match read_bytes src w with
      | Raise e w' => Raise e w'
      | Ret d _ =>
          match check_writable real_dst w with
          | Some e => Raise e w
          | None =>
              match key_of w src, key_of w real_dst with
              | inl ks, inl kd =>
                  if bool_decide (ks = kd) then Ret tt w
                  else Ret tt (set_fs w (<[kd := File d]> (delete ks (fs w))))
              | _, _ => Ret tt w
              end
          end
      end.

(** The statements inside the [try] of [move_file]. *)
Definition move_file_body `{OS} (source destination : string) : M World dict :=
  let* src := _normalize_path source in
  let* dst := _normalize_path destination in
  let* src_exists := path_exists src in
  if negb src_exists then ret (error_dict ("Source file not found: " ++ source))
  else
    let* src_is_dir := path_is_dir src in
    if src_is_dir then
      ret (error_dict ("Source is a directory, not a file: " ++ source))
    else
      let* dst_exists := path_exists dst in
      let* dst_is_dir := path_is_dir dst in
      let dst := if dst_exists && dst_is_dir then join_part dst (Host.name src) else dst in
      do mkdir_parents (parent dst) in
      do shutil_move src dst in
      ret [("ok", VBool true); ("source", VStr (path_str src));
           ("destination", VStr (path_str dst));
           ("operation",
            VStr (if bool_decide (parent src = parent dst) then "renamed" else "moved"));
           ("message", VStr "File moved successfully")].

End MoveFile.

(** ** A small host for examples

    A library and an operating system on which the definitions above can be
    run: [json.loads] that reads the three texts used in the examples, a codec
    that is the identity (right for ASCII text), a shell that does nothing,
    and a directory walk that yields every path of the file system below the
    root. *)

Module Demo.
Import Py Host.

(** [int] refuses a text of more than 4300 digits. *)
Fixpoint all_digits (s : string) : bool :=
  match s with
  | EmptyString => true
  | String c t => (48 <=? nat_of_ascii c)%nat && (nat_of_ascii c <=? 57)%nat && all_digits t
  end.

Definition too_many_digits : exn :=
  mkExn ValueError "Exceeds the limit (4300 digits) for integer string conversion".

Definition demo_loads (s : string) : loads_result :=
  if String.eqb s "{}" then Loaded (VDict [])
  else if String.eqb s "null" then Loaded VNone
  else if String.eqb s "[1]" then Loaded (VList [VInt 1])
  else if all_digits s && (4300 <? String.length s)%nat then LoadsRaises too_many_digits
  else JSONDecodeError.

(** A number of [n] digits. *)
Fixpoint ones (n : nat) : string :=
  match n with
  | O => EmptyString
  | S k => String "1" (ones k)
  end.

#[export] Instance demo_lib : PyLib := {|
  json_loads := demo_loads;
  py_repr := fun _ => "<repr>";
  int_of_str := fun _ => None;
  utf8_decode := string_of_list_byte;
  utf8_encode := list_byte_of_string
|}.

Fixpoint is_strict_prefix (root p : path) : bool :=
  match root, p with
  | [], [] => false
  | [], _ :: _ => true
  | r :: root', c :: p' => String.eqb r c && is_strict_prefix root' p'
  | _ :: _, [] => false
  end.

#[export] Instance demo_os : OS := {|
  subprocess_run := fun _ => ret (0%Z, "", "");
  user_home := fun _ => None;
  dir_st_size := 4096%Z;
  rglob := fun w root =>
    (filter (fun p => is_strict_prefix root p) (map fst (map_to_list (fs w))), None)
|}.

Definition bytes (s : string) : list byte := list_byte_of_string s.

(** A working directory [/work] with two files, and a home [/home/u]. *)
Definition demo_world : World :=
  mkWorld (<[ ["work"] := Dir ]>
           (<[ ["work"; "a.txt"] := File (bytes "abc") ]>
           (<[ ["work"; "ab.txt"] := File (bytes "hello") ]>
           (<[ ["home"] := Dir ]>
           (<[ ["home"; "u"] := Dir ]> ∅)))))
          (Some ["work"]) (Some ["home"; "u"]).

(** The same machine after the working directory was removed. *)
Definition lost_cwd_world : World :=
  mkWorld (<[ ["home"] := Dir ]> (<[ ["home"; "u"] := Dir ]> ∅))
          None (Some ["home"; "u"]).

(** A machine on which the process runs in the home directory [/home/u],
    with one file there. *)
Definition home_world : World :=
  mkWorld (<[ ["home"] := Dir ]>
           (<[ ["home"; "u"] := Dir ]>
           (<[ ["home"; "u"; "n.txt"] := File (bytes "old") ]> ∅)))
          (Some ["home"; "u"]) (Some ["home"; "u"]).

(** A process in [/work] and a home with a file in its Downloads folder. *)
Definition downloads_world : World :=
  mkWorld (<[ ["work"] := Dir ]>
           (<[ ["work"; "a.txt"] := File (bytes "abc") ]>
           (<[ ["home"] := Dir ]>
           (<[ ["home"; "u"] := Dir ]>
           (<[ ["home"; "u"; "Downloads"] := Dir ]>
           (<[ ["home"; "u"; "Downloads"; "n.txt"] := File (bytes "old") ]> ∅))))))
          (Some ["work"]) (Some ["home"; "u"]).

(** Tool bodies and a language model for the examples: the unmodelled
    tools answer with an error, the model with an empty object. *)
Definition demo_bodies : Tools.ToolBodies := {|
  Tools.summarize_body := fun _ _ _ => ret (Tools.error_dict "unavailable");
  Tools.list_directory_body := fun _ _ _ => ret (Tools.error_dict "unavailable");
  Tools.search_content_body := fun _ _ _ _ _ => ret (Tools.error_dict "unavailable");
  Tools.get_file_info_body := fun _ => ret (Tools.error_dict "unavailable");
  Tools.move_file_body := fun _ _ => ret (Tools.error_dict "unavailable");
  Tools.compare_files_body := fun _ _ _ => ret (Tools.error_dict "unavailable");
  Tools.extract_archive_body := fun _ _ => ret (Tools.error_dict "unavailable")
|}.

(** The same, with [move_file] working on the file system. *)
Definition fs_bodies : Tools.ToolBodies := {|
  Tools.summarize_body := fun _ _ _ => ret (Tools.error_dict "unavailable");
  Tools.list_directory_body := fun _ _ _ => ret (Tools.error_dict "unavailable");
  Tools.search_content_body := fun _ _ _ _ _ => ret (Tools.error_dict "unavailable");
  Tools.get_file_info_body := fun _ => ret (Tools.error_dict "unavailable");
  Tools.move_file_body := MoveFile.move_file_body;
  Tools.compare_files_body := fun _ _ _ => ret (Tools.error_dict "unavailable");
  Tools.extract_archive_body := fun _ _ => ret (Tools.error_dict "unavailable")
|}.

Definition demo_llm : Planner.LLMClient := {| Planner.chat := fun _ _ _ => "{}" |}.

(** The command lines [ask WORD...], [do WORD...] and [do --dry-run WORD...]
    as argparse reads them; every other one is rejected here. *)
Definition demo_parse_args (argv : list string) : Cli.Args + Z :=
  match argv with
  | "ask" :: first :: more => inl (Cli.Ask first more)
  | "do" :: "--dry-run" :: first :: more => inl (Cli.Do first more true)
  | "do" :: first :: more => inl (Cli.Do first more false)
  | _ => inr 2%Z
  end.

End Demo.

(** * Properties *)

(** ** The monad *)

Module PyFacts.
Import Py.

Lemma bind_Ret {S A B} (m : M S A) (k : A -> M S B) (s s' : S) (a : A) :
  m s = Ret a s' -> bind m k s = k a s'.
Proof. intros Hm. unfold bind. now rewrite Hm. Qed.

Lemma bind_Raise {S A B} (m : M S A) (k : A -> M S B) (s s' : S) (e : exn) :
  m s = Raise e s' -> bind m k s = Raise e s'.
Proof. intros Hm. unfold bind. now rewrite Hm. Qed.

Lemma try_Ret {S A} (body : M S A) catches handler (s s' : S) (a : A) :
  body s = Ret a s' -> try_except body catches handler s = Ret a s'.
Proof. intros Hb. unfold try_except. now rewrite Hb. Qed.

Lemma try_Raise {S A} (body : M S A) catches handler (s s' : S) (e : exn) :
  body s = Raise e s' ->
  try_except body catches handler s = if catches e then handler e s' else Raise e s'.
Proof. intros Hb. unfold try_except. now rewrite Hb. Qed.

End PyFacts.

(** ** Strings *)

Module PyStrFacts.
Import PyStr.

Lemma lower_app (a b : string) : lower (a ++ b) = lower a ++ lower b.
Proof. induction a as [|c a IH]; simpl; [reflexivity | now rewrite IH]. Qed.

Lemma startswith_app (p t : string) : startswith p (p ++ t) = true.
Proof.
  induction p as [|c p IH]; simpl; [reflexivity|].
  destruct (ascii_dec c c); [exact IH | congruence].
Qed.

Lemma startswith_inv (p s : string) :
  startswith p s = true -> exists t, s = p ++ t.
Proof.
  revert s. induction p as [|c p IH]; intros s Hs; simpl in *.
  - now exists s.
  - destruct s as [|d s]; [discriminate|].
    destruct (ascii_dec c d) as [->|]; [|discriminate].
    destruct (IH _ Hs) as [t ->]. now exists t.
Qed.

Lemma contains_startswith (p s : string) :
  startswith p s = true -> contains p s = true.
Proof. intros Hs. destruct s; simpl; rewrite Hs; reflexivity. Qed.

Lemma contains_app (p a b : string) : contains p (a ++ p ++ b) = true.
Proof.
  induction a as [|c a IH].
  - change ("" ++ p ++ b) with (p ++ b).
    apply contains_startswith, startswith_app.
  - simpl. rewrite IH. apply orb_true_r.
Qed.

Lemma contains_inv (p s : string) :
  contains p s = true -> exists a b, s = a ++ p ++ b.
Proof.
  induction s as [|c s IH]; simpl; intros Hc.
  - rewrite orb_false_r in Hc. destruct (startswith_inv _ _ Hc) as [t Ht].
    now exists "", t.
  - apply orb_true_iff in Hc as [Hc|Hc].
    + destruct (startswith_inv _ _ Hc) as [t Ht]. now exists "", t.
    + destruct (IH Hc) as (a & b & ->). now exists (String c a), b.
Qed.

Lemma contains_iff (p s : string) :
  contains p s = true <-> exists a b, s = a ++ p ++ b.
Proof.
  split; [apply contains_inv|]. intros (a & b & ->). apply contains_app.
Qed.

(** [find] gives the first place where the pattern occurs. *)
Lemma find_first_occurrence (p s : string) (i : nat) :
  find p s = Some i ->
  startswith p (drop i s) = true
  /\ forall k, (k < i)%nat -> startswith p (drop k s) = false.
Proof.
  revert i. induction s as [|c s IH]; intros i; simpl.
  - destruct (startswith p "") eqn:E; [|discriminate].
    intros [= <-]. split; [exact E | intros k Hk; lia].
  - destruct (startswith p (String c s)) eqn:E.
    + intros [= <-]. split; [exact E | intros k Hk; lia].
    + destruct (find p s) as [j|]; [|discriminate]. simpl. intros [= <-].
      destruct (IH j eq_refl) as [Hj Hlt]. split; [exact Hj|].
      intros [|k] Hk; [exact E | apply Hlt; lia].
Qed.

Lemma find_none_nowhere (p s : string) (k : nat) :
  find p s = None -> startswith p (drop k s) = false.
Proof.
  revert k. induction s as [|c s IH]; intros k; simpl.
  - destruct (startswith p "") eqn:E; [discriminate|]. now destruct k.
  - destruct (startswith p (String c s)) eqn:E; [discriminate|].
    destruct (find p s) eqn:F; [discriminate|]. intros _.
    destruct k; [exact E | now apply IH].
Qed.

End PyStrFacts.

(** ** The executor: what a run adds to the trace *)

Module ExecutorFacts.
Import Py Host Models Executor.

(** [appends P m]: whatever the state, [m] only adds events to the trace,
    and all of them satisfy [P]. *)
Definition appends {A} (P : event -> Prop) (m : M State A) : Prop :=
  forall st, exists evs,
    trace (final_state (m st)) = (trace st ++ evs)%list /\ Forall P evs.

Lemma appends_ret {A} P (a : A) : appends P (ret a).
Proof. intros st. exists []. simpl. now rewrite app_nil_r. Qed.

Lemma appends_raise {A} P e : appends P (raise (A := A) e).
Proof. intros st. exists []. simpl. now rewrite app_nil_r. Qed.

Lemma appends_bind {A B} P (m : M State A) (k : A -> M State B) :
  appends P m -> (forall a, appends P (k a)) -> appends P (bind m k).
Proof.
  intros Hm Hk st. unfold bind. destruct (Hm st) as (e1 & E1 & F1).
  destruct (m st) as [a st'|e st']; simpl in *.
  - destruct (Hk a st') as (e2 & E2 & F2). exists (e1 ++ e2)%list.
    rewrite E2, E1, app_assoc. split; [reflexivity | now apply Forall_app].
  - now exists e1.
Qed.

Lemma appends_emit P e : P e -> appends P (emit e).
Proof. intros He st. exists [e]. simpl. auto. Qed.

Lemma appends_lift {A} P (m : M World A) : appends P (lift m).
Proof.
  intros st. exists []. unfold lift. rewrite app_nil_r.
  destruct (m (world st)); simpl; auto.
Qed.

Lemma appends_call {A} P t args (m : M World A) :
  P (ECall t args) -> appends P (call t args m).
Proof.
  intros He. unfold call. apply appends_bind; [now apply appends_emit|].
  intros _. apply appends_lift.
Qed.

Lemma appends_ask P prompt default :
  (forall r, P (EAsk prompt default r)) -> appends P (ask prompt default).
Proof.
  intros He st. unfold ask. destruct (replies st) as [|r rest]; simpl.
  - exists []. now rewrite app_nil_r.
  - exists [EAsk prompt default r]. auto.
Qed.

Lemma appends_py_int `{PyLib} P v : appends P (py_int (S := State) v).
Proof.
  destruct v; simpl; try apply appends_ret; try apply appends_raise.
  destruct (int_of_str s); [apply appends_ret | apply appends_raise].
Qed.

(** The events that the dispatch of [action] may add: no rule line, and a
    tool call only of the action's own tool (or the reading that
    [_exec_find_item] offers), a shell call only of a command that passed
    [_is_command_safe]. *)
Definition ok_event (action : Action) (e : event) : Prop :=
  match e with
  | ERule _ _ => False
  | ECall t call_args =>
      (t = tool action \/ (tool action = "find_item" /\ t = "read_file"))
      /\ (t = "run_shell" ->
          exists command, call_args = [VStr command] /\ _is_command_safe command = true)
  | _ => True
  end.

Ltac appends_step :=
  first
    [ apply appends_ret
    | apply appends_py_int
    | apply appends_lift
    | apply appends_ask; intros; exact I
    | apply appends_emit; exact I
    | apply appends_bind; [|intros]
    | match goal with
      | |- appends _ (if ?b then _ else _) => destruct b eqn:?
      | |- appends _ (match ?x with _ => _ end) => destruct x eqn:?
      | |- appends _ (let _ := _ in _) => cbv zeta
      end ].

Section WithHost.
Context `{PyLib} `{OS} `{Tools.ToolBodies}.
Context (default_llm : Planner.LLMClient).

(** A call of the action's own tool, other than the shell. *)
Lemma own_call P (action : Action) t call_args {A} (m : M World A) :
  tool action = t -> t <> "run_shell" ->
  (forall e, ok_event action e -> P e) ->
  appends P (call t call_args m).
Proof.
  intros Ht Hne HP. apply appends_call, HP. simpl. split; [now left | congruence].
Qed.

Lemma dispatch_appends (action : Action) :
  appends (ok_event action) (dispatch default_llm action).
Proof.
  unfold dispatch.
  repeat match goal with
         | |- appends _ (if String.eqb ?a ?b then _ else _) =>
             destruct (String.eqb_spec a b)
         end.
  - (* run_shell *)
    unfold _exec_run_shell, _print_result. cbv zeta.
    destruct (is_empty _); [apply appends_emit; exact I|].
    destruct (_is_command_safe _) eqn:Hsafe; simpl; [|apply appends_emit; exact I].
    apply appends_bind; [|intros; apply appends_emit; exact I].
    apply appends_call. simpl. split; [now left|]. intros _. eauto.
  - unfold _exec_read_file, _print_result. cbv zeta.
    repeat first [eapply own_call; [eassumption|congruence|auto] | appends_step].
  - unfold _exec_write_file, _print_result. cbv zeta.
    repeat first [eapply own_call; [eassumption|congruence|auto] | appends_step].
  - unfold _exec_find_item, _print_result. cbv zeta.
    repeat first
      [ eapply own_call; [eassumption|congruence|auto]
      | apply appends_call; simpl; split; [now right | congruence]
      | appends_step ].
  - unfold _exec_summarize_file, _print_result. cbv zeta.
    repeat first [eapply own_call; [eassumption|congruence|auto] | appends_step].
  - unfold _exec_list_directory, _print_result. cbv zeta.
    repeat first [eapply own_call; [eassumption|congruence|auto] | appends_step].
  - unfold _exec_search_content, _print_result. cbv zeta.
    repeat first [eapply own_call; [eassumption|congruence|auto] | appends_step].
  - unfold _exec_get_file_info, _print_result. cbv zeta.
    repeat first [eapply own_call; [eassumption|congruence|auto] | appends_step].
  - unfold _exec_copy_file, _print_result. cbv zeta.
    repeat first [eapply own_call; [eassumption|congruence|auto] | appends_step].
  - unfold _exec_move_file, _print_result. cbv zeta.
    repeat first [eapply own_call; [eassumption|congruence|auto] | appends_step].
  - unfold _exec_compare_files, _print_result. cbv zeta.
    repeat first [eapply own_call; [eassumption|congruence|auto] | appends_step].
  - unfold _exec_extract_archive, _print_result. cbv zeta.
    repeat first [eapply own_call; [eassumption|congruence|auto] | appends_step].
  - apply appends_emit. exact I.
Qed.

Lemma appends_weaken {A} (P Q : event -> Prop) (m : M State A) :
  (forall e, P e -> Q e) -> appends P m -> appends Q m.
Proof.
  intros HPQ Hm st. destruct (Hm st) as (evs & E & F).
  exists evs. split; [exact E|]. eapply Forall_impl; [exact F | exact HPQ].
Qed.

(** A shell call carries one command, and the command passed the filter. *)
Definition shell_call_safe (e : event) : Prop :=
  forall call_args, e = ECall "run_shell" call_args ->
    exists command, call_args = [VStr command] /\ _is_command_safe command = true.

Lemma ok_event_shell_safe action e : ok_event action e -> shell_call_safe e.
Proof.
  intros Hok call_args ->. simpl in Hok. destruct Hok as [_ Hs]. now apply Hs.
Qed.

Lemma run_actions_appends (acts : list Action) (i : nat) :
  appends shell_call_safe (run_actions default_llm i acts).
Proof.
  revert i. induction acts as [|a rest IH]; intros i; simpl.
  - apply appends_ret.
  - apply appends_bind; [apply appends_emit; intros ? [=]|intros _].
    apply appends_bind; [apply appends_emit; intros ? [=]|intros _].
    apply appends_bind; [|intros _; apply IH].
    eapply appends_weaken; [|apply dispatch_appends]. apply ok_event_shell_safe.
Qed.

Lemma execute_plan_appends (p : Plan) :
  appends shell_call_safe (execute_plan default_llm p).
Proof.
  unfold execute_plan, show_plan.
  apply appends_bind; [apply appends_emit; intros ? [=]|intros _].
  apply appends_bind; [apply appends_emit; intros ? [=]|intros _].
  apply appends_bind; [apply appends_ask; intros ? ? [=]|intros proceed].
  destruct proceed; cbn [negb].
  - destruct (actions p) as [|a acts] eqn:E; [apply appends_emit; intros ? [=]|].
    apply (run_actions_appends (a :: acts) 1).
  - apply appends_emit; intros ? [=].
Qed.


Lemma run_actions_cons (i : nat) (a : Action) (rest : list Action) (st : State) :
  run_actions default_llm i (a :: rest) st
  = match dispatch default_llm a
            (mkState (world st) (replies st)
               (trace st ++ [EPrint ""; ERule i (tool a)])%list) with
    | Ret _ st' => run_actions default_llm (S i) rest st'
    | Raise e st' => Raise e st'
    end.
Proof.
  cbn [run_actions]. unfold bind, emit. cbn [trace world replies].
  now rewrite <- app_assoc.
Qed.







































Import PyStr PyStrFacts.

Lemma no_pattern_in_Forall (patterns : list string) (s : string) :
  no_pattern_in patterns s = true
  <-> Forall (fun pattern => contains pattern s = false) patterns.
Proof.
  induction patterns as [|pat rest IH]; simpl.
  - split; auto.
  - destruct (contains pat s) eqn:E.
    + split; [discriminate|]. intros F. inversion F; congruence.
    + rewrite IH. split; [now constructor | intros F; now inversion F].
Qed.

(** C2.  [_is_command_safe] accepts a command exactly when its lower-cased
    text contains none of the three deny-list substrings; a command that
    contains one of them in any letter case is rejected; [_exec_run_shell]
    answers a rejected command with the "Blocked" line alone (no tool call,
    the world untouched) and hands an accepted, non-empty command to
    [run_shell]; and in a whole run of [execute_plan] every call of
    [run_shell] carries a command that the filter accepted. *)
Theorem run_shell_only_for_safe_commands (command : string) :
  (_is_command_safe command = true
   <-> Forall (fun pattern => contains pattern (lower command) = false)
         ["rm -rf /"; "mkfs"; ":(){ :|:& };:"])
  /\ (forall pre x post pattern,
        command = pre ++ x ++ post -> lower x = pattern ->
        In pattern DANGEROUS_SUBSTRINGS -> _is_command_safe command = false)
  /\ (forall action st,
        py_str (dict_get_default "command" (VStr "") (args action)) = command ->
        _is_command_safe command = false -> command <> "" ->
        _exec_run_shell action st
        = Ret tt (mkState (world st) (replies st)
                    (trace st ++ [EPrint ("[bold red]Blocked dangerous command:[/bold red] [italic]"
                                          ++ py_repr (VStr command) ++ "[/italic]")])))
  /\ (forall action st,
        py_str (dict_get_default "command" (VStr "") (args action)) = command ->
        _is_command_safe command = true -> command <> "" ->
        exists evs,
          trace (final_state (_exec_run_shell action st))
          = (trace st ++ ECall "run_shell" [VStr command] :: evs)%list)
  /\ (forall p st evs call_args,
        trace (final_state (execute_plan default_llm p st)) = (trace st ++ evs)%list ->
        In (ECall "run_shell" call_args) evs ->
        exists c, call_args = [VStr c]
                  /\ Forall (fun pattern => contains pattern (lower c) = false)
                       DANGEROUS_SUBSTRINGS).
Proof.
  split; [|split; [|split; [|split]]].
  - unfold _is_command_safe. apply no_pattern_in_Forall.
  - intros pre x post pattern -> Hx Hin.
    destruct (_is_command_safe (pre ++ x ++ post)) eqn:Hsafe; [|reflexivity].
    unfold _is_command_safe in Hsafe. apply no_pattern_in_Forall in Hsafe.
    rewrite List.Forall_forall in Hsafe. specialize (Hsafe _ Hin).
    rewrite !lower_app, Hx, contains_app in Hsafe. discriminate.
  - intros action st Hc Hsafe Hne. unfold _exec_run_shell. cbv zeta. rewrite Hc.
    unfold is_empty. destruct (String.eqb_spec command ""); [contradiction|].
    rewrite Hsafe. reflexivity.
  - intros action st Hc Hsafe Hne. unfold _exec_run_shell. cbv zeta. rewrite Hc.
    unfold is_empty. destruct (String.eqb_spec command ""); [contradiction|].
    rewrite Hsafe. cbn [negb]. unfold bind, call, emit, lift, _print_result, bind, emit.
    cbn [world trace replies].
    destruct (Tools.run_shell command (world st)) as [r w|e w]; cbn [final_state trace].
    + eexists. rewrite <- app_assoc. reflexivity.
    + now exists [].
  - intros p st evs call_args E Hin.
    destruct (execute_plan_appends p st) as (evs' & E' & F).
    rewrite E in E'. apply app_inv_head in E'. subst evs'.
    rewrite List.Forall_forall in F.
    destruct (F _ Hin _ eq_refl) as (c & -> & Hsafe).
    exists c. split; [reflexivity|]. now apply no_pattern_in_Forall.
Qed.

End WithHost.

Import Demo.

(** A plan of two actions, run in both orders in the example world: the
    file read is the copy that the action before it made, or is not there
    yet. *)
Example actions_run_in_the_order_of_the_plan :
  let copy := mkAction "copy_file" [("source", VStr "a.txt"); ("destination", VStr "b.txt")] in
  let read := mkAction "read_file" [("path", VStr "b.txt")] in
  let confirmed := mkState Demo.demo_world [true] [] in
  let copied := [ECall "copy_file" [VStr "a.txt"; VStr "b.txt"];
                 EResult [("ok", VBool true); ("source", VStr "/work/a.txt");
                          ("destination", VStr "/work/b.txt"); ("size", VInt 3);
                          ("message", VStr "File copied successfully")]] in
  trace (final_state (execute_plan (H1 := Demo.demo_bodies) Demo.demo_llm
                        (mkPlan "p" [copy; read]) confirmed))
  = ([EShowPlan (mkPlan "p" [copy; read]) false; EPrint "";
      EAsk proceed_prompt false true; EPrint ""; ERule 1 "copy_file"]
     ++ copied
     ++ [EPrint ""; ERule 2 "read_file"; ECall "read_file" [VStr "b.txt"; VInt 5000];
         EResult [("ok", VBool true); ("path", VStr "/work/b.txt");
                  ("content", VStr "abc"); ("truncated", VBool false)]])%list
  /\ trace (final_state (execute_plan (H1 := Demo.demo_bodies) Demo.demo_llm
                           (mkPlan "p" [read; copy]) confirmed))
     = ([EShowPlan (mkPlan "p" [read; copy]) false; EPrint "";
         EAsk proceed_prompt false true; EPrint ""; ERule 1 "read_file";
         ECall "read_file" [VStr "b.txt"; VInt 5000];
         EResult [("ok", VBool false); ("error", VStr "file not found: b.txt")];
         EPrint ""; ERule 2 "copy_file"]
        ++ copied)%list.
Proof. split; vm_compute; reflexivity. Qed.

End ExecutorFacts.

(** ** The plan model and the planner *)

Module PlannerFacts.
Import Models Planner.

(** The shape that the claim asks of an action: a mapping whose [tool] is a
    string and whose [args], when given, is a mapping. *)
Definition action_shape (v : value) : Prop :=
  exists d t, v = VDict d /\ dict_get "tool" d = Some (VStr t)
    /\ (dict_get "args" d = None \/ exists a, dict_get "args" d = Some (VDict a)).

(** The shape that the claim asks of a plan. *)
Definition plan_shape (d : dict) : Prop :=
  (dict_get "plan" d = None \/ exists s, dict_get "plan" d = Some (VStr s))
  /\ (dict_get "actions" d = None
      \/ exists l, dict_get "actions" d = Some (VList l) /\ Forall action_shape l).

(** The fields that validation gives to an action and to a plan of the
    right shape. *)
Definition action_of (v : value) : Action :=
  match v with
  | VDict d =>
      mkAction (match dict_get "tool" d with Some (VStr t) => t | _ => "" end)
               (match dict_get "args" d with Some (VDict a) => a | _ => [] end)
  | _ => mkAction "" []
  end.

Definition plan_of (d : dict) : Plan :=
  mkPlan (match dict_get "plan" d with Some (VStr s) => s | _ => "No high-level plan provided." end)
         (match dict_get "actions" d with Some (VList l) => map action_of l | _ => [] end).

Lemma Action_model_validate_shape (v : value) :
  action_shape v <-> Action_model_validate v = Some (action_of v).
Proof.
  split.
  - intros (d & t & -> & Ht & Ha). simpl. rewrite Ht.
    destruct Ha as [Ha|[a Ha]]; rewrite Ha; reflexivity.
  - destruct v; simpl; try discriminate.
    destruct (dict_get "tool" d) as [[]|] eqn:Ht; try discriminate.
    destruct (dict_get "args" d) as [[]|] eqn:Ha; try discriminate; intros _;
      exists d, s; eauto.
Qed.

Lemma Action_model_validate_some (v : value) (a : Action) :
  Action_model_validate v = Some a -> a = action_of v.
Proof.
  destruct v; simpl; try discriminate.
  destruct (dict_get "tool" d) as [[]|]; try discriminate.
  destruct (dict_get "args" d) as [[]|]; try discriminate; congruence.
Qed.

Lemma validate_actions_shape (l : list value) :
  Forall action_shape l <-> validate_actions l = Some (map action_of l).
Proof.
  induction l as [|v l IH]; simpl.
  - split; auto.
  - split.
    + intros F. inversion F as [|? ? Hv Hl]; subst.
      apply Action_model_validate_shape in Hv. apply IH in Hl.
      now rewrite Hv, Hl.
    + destruct (Action_model_validate v) eqn:Ev; [|discriminate].
      destruct (validate_actions l) eqn:El; [|discriminate].
      intros [= E1 E2]. constructor.
      * apply Action_model_validate_shape. now rewrite Ev, E1.
      * apply IH. now rewrite E2.
Qed.

Lemma validate_actions_some (l : list value) (acts : list Action) :
  validate_actions l = Some acts -> acts = map action_of l.
Proof.
  revert acts. induction l as [|v l IH]; simpl; intros acts.
  - congruence.
  - destruct (Action_model_validate v) eqn:Ev; [|discriminate].
    destruct (validate_actions l) eqn:El; [|discriminate].
    intros [= <-]. f_equal; [now apply Action_model_validate_some | now apply IH].
Qed.

(** C5.  Validation looks at the shape only.  A JSON object validates as a
    [Plan] exactly when ["plan"], if present, is a string and ["actions"],
    if present, is a list of objects that each have a string ["tool"] and,
    if present, an object ["args"]; a value that is not an object does not
    validate.  The validated plan takes ["plan"] or the default text
    "No high-level plan provided.", the actions in their order or the empty
    list, each with its ["args"] or the empty map; and an action validates
    whatever the name of its tool. *)
Theorem Plan_model_validate_shape_only (d : dict) :
  (plan_shape d <-> exists p, Plan_model_validate (VDict d) = Some p)
  /\ (forall p, Plan_model_validate (VDict d) = Some p ->
        plan p = match dict_get "plan" d with
                 | Some (VStr s) => s
                 | _ => "No high-level plan provided."
                 end
        /\ actions p = match dict_get "actions" d with
                       | Some (VList l) => map action_of l
                       | _ => []
                       end)
  /\ (dict_get "plan" d = None -> dict_get "actions" d = None ->
      Plan_model_validate (VDict d) = Some (mkPlan "No high-level plan provided." []))
  /\ (forall t extra,
        dict_get "tool" extra = None -> dict_get "args" extra = None ->
        Action_model_validate (VDict (("tool", VStr t) :: extra)) = Some (mkAction t []))
  /\ (forall t a,
        Action_model_validate (VDict [("tool", VStr t); ("args", VDict a)])
        = Some (mkAction t a))
  /\ (forall v, (forall d', v <> VDict d') -> Plan_model_validate v = None).
Proof.
  assert (Hsome : forall p, Plan_model_validate (VDict d) = Some p -> p = plan_of d).
  { intros p. unfold plan_of. simpl.
    destruct (dict_get "plan" d) as [[]|]; try discriminate;
      destruct (dict_get "actions" d) as [[]|] eqn:Ea; try discriminate;
      try (intros [= <-]; reflexivity);
      (destruct (validate_actions l) eqn:El; [|discriminate]);
      intros [= <-]; now rewrite (validate_actions_some _ _ El). }
  split; [|split; [|split; [|split; [|split]]]].
  - split.
    + intros [[Hp|[s Hp]] [Ha|(l & Ha & F)]]; simpl; rewrite Hp, Ha;
        try (apply validate_actions_shape in F; rewrite F); eauto.
    + intros [p Hp]. simpl in Hp. unfold plan_shape.
      destruct (dict_get "plan" d) as [[]|]; try discriminate;
        destruct (dict_get "actions" d) as [[]|] eqn:Ea; try discriminate;
        (split; [eauto|]); auto;
        right; exists l; (split; [reflexivity|]);
        (destruct (validate_actions l) eqn:El; [|discriminate]);
        apply validate_actions_shape;
        now rewrite El, (validate_actions_some _ _ El).
  - intros p Hp. rewrite (Hsome p Hp). unfold plan_of. simpl. split; reflexivity.
  - intros Hp Ha. simpl. now rewrite Hp, Ha.
  - intros t extra Ht Ha. simpl.
    change (String.eqb "args" "tool") with false. cbv iota. now rewrite Ha.
  - intros t a. reflexivity.
  - intros v Hv. destruct v; try reflexivity. now destruct (Hv d0).
Qed.

Lemma value_eq_VNone (v : value) : v = VNone \/ v <> VNone.
Proof. destruct v; [now left | right; discriminate ..]. Qed.

Section Extraction.
Context `{PyLib}.

(** The text between the fences, first reading: from the end of the line
    that holds the first fence to the next fence, white space stripped. *)
Definition fence_span (s : string) : option string :=
  match PyStr.find fence s with
  | Some start_idx =>
      match PyStr.find_from newline s start_idx with
      | Some start_line_end =>
          match PyStr.find_from fence s start_line_end with
          | Some end_idx => Some (PyStr.strip (PyStr.slice s (start_line_end + 1) end_idx))
          | None => None
          end
      | None => None
      end
  | None => None
  end.

(** The text between the fences, second reading: the lines after the first
    line that begins with a fence, up to the next such line. *)
Definition fence_body (s : string) : string :=
  PyStr.strip (PyStr.join newline (fence_lines false [] (PyStr.splitlines s))).

(** A line break follows the first fence. *)
Definition opening_line_ends (s : string) : Prop :=
  exists start_idx start_line_end,
    PyStr.find fence s = Some start_idx
    /\ PyStr.find_from newline s start_idx = Some start_line_end.

(** What [_extract_json] makes of the answer of [json.loads] that settles
    the matter. *)
Definition outcome_of (r : loads_result) : result value :=
  match r with
  | Loaded v => Returns v
  | LoadsRaises e => Raises e
  | JSONDecodeError => Returns VNone
  end.

(** [settled raw r]: [r] is the first answer of [json.loads] that is no
    [JSONDecodeError], the texts being tried in the order of the code: the
    stripped output [raw]; when that is no JSON, the text between the
    fences by the first reading; and when that is no JSON either (or there
    is none) and a line break follows the first fence, the text between the
    fences by the second reading, unless it is empty. *)
Inductive settled (raw : string) (r : loads_result) : Prop :=
| settled_direct :
    PyStr.strip raw <> "" ->
    json_loads (PyStr.strip raw) = r ->
    r <> JSONDecodeError ->
    settled raw r
| settled_fence_span text :
    PyStr.strip raw <> "" ->
    json_loads (PyStr.strip raw) = JSONDecodeError ->
    fence_span (PyStr.strip raw) = Some text ->
    json_loads text = r ->
    r <> JSONDecodeError ->
    settled raw r
| settled_fence_body :
    PyStr.strip raw <> "" ->
    json_loads (PyStr.strip raw) = JSONDecodeError ->
    opening_line_ends (PyStr.strip raw) ->
    (forall text, fence_span (PyStr.strip raw) = Some text ->
                  json_loads text = JSONDecodeError) ->
    fence_body (PyStr.strip raw) <> "" ->
    json_loads (fence_body (PyStr.strip raw)) = r ->
    r <> JSONDecodeError ->
    settled raw r.

(** [parsed raw v]: the model output [raw] parses as the JSON value [v],
    either directly or, when it does not, after its fence is stripped (by
    the first reading, and by the second when the first yields no JSON). *)
Definition parsed (raw : string) (v : value) : Prop := settled raw (Loaded v).

(** [raised raw e]: the reading of [raw] ends with [json.loads] raising
    [e], which is no [JSONDecodeError]. *)
Definition raised (raw : string) (e : Py.exn) : Prop := settled raw (LoadsRaises e).

Lemma settled_functional (raw : string) (r r' : loads_result) :
  settled raw r -> settled raw r' -> r = r'.
Proof.
  intros P P'.
  destruct P as [_ Hd Hr|text _ Hd Hs Hl Hr|_ Hd _ Hn _ Hl Hr];
    destruct P' as [_ Hd' Hr'|text' _ Hd' Hs' Hl' Hr'|_ Hd' _ Hn' _ Hl' Hr'];
    try congruence.
  - rewrite (Hn' _ Hs) in Hl. congruence.
  - rewrite (Hn _ Hs') in Hl'. congruence.
Qed.

Lemma outcome_of_inj (r r' : loads_result) :
  r <> JSONDecodeError -> r' <> JSONDecodeError ->
  outcome_of r = outcome_of r' -> r = r'.
Proof. destruct r, r'; simpl; congruence. Qed.

Lemma find_contains (p s : string) : PyStr.contains p s = false -> PyStr.find p s = None.
Proof.
  induction s as [|c s IH]; simpl.
  - now destruct (PyStr.startswith p "").
  - destruct (PyStr.startswith p (String c s)); [discriminate|]. simpl.
    intros Hc. now rewrite (IH Hc).
Qed.

Lemma contains_find (p s : string) :
  PyStr.contains p s = true -> exists i, PyStr.find p s = Some i.
Proof.
  induction s as [|c s IH]; simpl.
  - destruct (PyStr.startswith p ""); [eauto | discriminate].
  - destruct (PyStr.startswith p (String c s)); [eauto|]. simpl.
    intros Hc. destruct (IH Hc) as [i ->]. simpl. eauto.
Qed.

Lemma loads_cases (r : loads_result) : r = JSONDecodeError \/ r <> JSONDecodeError.
Proof. destruct r; [right; discriminate | now left | right; discriminate]. Qed.

(** [_extract_json] gives exactly what [settled] describes: the value
    loaded or the exception raised; and Python's [None] when every reading
    ends in a [JSONDecodeError] (or when the JSON text is [null]). *)
Lemma _extract_json_settled (raw : string) (r : loads_result) :
  r <> JSONDecodeError -> r <> Loaded VNone ->
  (_extract_json raw = outcome_of r <-> settled raw r).
Proof.
  intros Hr Hv.
  (* a reading that settles with [r0] *)
  assert (Hstop : forall r0, r0 <> JSONDecodeError -> settled raw r0 ->
            (outcome_of r0 = outcome_of r <-> settled raw r)).
  { intros r0 Hr0 S0. split.
    - intros E. now rewrite <- (outcome_of_inj r0 r Hr0 Hr E).
    - intros S. now rewrite (settled_functional raw r r0 S S0). }
  (* no reading settles *)
  assert (Hnone : ~ settled raw r -> (Returns VNone = outcome_of r <-> settled raw r)).
  { intros Hno. split; [|contradiction].
    destruct r; simpl; congruence. }
  unfold _extract_json. cbv zeta.
  destruct (String.eqb_spec (PyStr.strip raw) "") as [He|He].
  { apply Hnone. intros S. destruct S; contradiction. }
  destruct (loads_cases (json_loads (PyStr.strip raw))) as [Hd|Hd].
  2:{ assert (Heq : match json_loads (PyStr.strip raw) with
                    | Loaded v => Returns v
                    | JSONDecodeError =>
                        if PyStr.contains fence (PyStr.strip raw) then
                          match PyStr.find fence (PyStr.strip raw) with
                          | Some start_idx =>
                              match PyStr.find_from newline (PyStr.strip raw) start_idx with
                              | None => Returns VNone
                              | Some start_line_end =>
                                  match PyStr.find_from fence (PyStr.strip raw) start_line_end
                                  with
                                  | Some end_idx =>
                                      match json_loads
                                              (PyStr.strip
                                                 (PyStr.slice (PyStr.strip raw)
                                                    (start_line_end + 1) end_idx))
                                      with
                                      | Loaded v => Returns v
                                      | LoadsRaises e => Raises e
                                      | JSONDecodeError => extract_fallback (PyStr.strip raw)
                                      end
                                  | None => extract_fallback (PyStr.strip raw)
                                  end
                              end
                          | None => extract_fallback (PyStr.strip raw)
                          end
                        else Returns VNone
                    | LoadsRaises e => Raises e
                    end = outcome_of (json_loads (PyStr.strip raw))).
      { destruct (json_loads (PyStr.strip raw)); [reflexivity | congruence | reflexivity]. }
      rewrite Heq. apply Hstop; [exact Hd|]. now apply settled_direct. }
  rewrite Hd.
  destruct (PyStr.contains fence (PyStr.strip raw)) eqn:Hc.
  2:{ apply Hnone. apply find_contains in Hc.
      intros S. destruct S as [_ Hd' Hr'|text _ _ Hs _ _|_ _ (i & j & Hf & _) _ _ _ _].
      - congruence.
      - unfold fence_span in Hs. now rewrite Hc in Hs.
      - congruence. }
  destruct (contains_find _ _ Hc) as [start_idx Hf]. rewrite Hf.
  destruct (PyStr.find_from newline (PyStr.strip raw) start_idx) as [nl|] eqn:Hn.
  2:{ apply Hnone.
      intros S. destruct S as [_ Hd' Hr'|text _ _ Hs _ _|_ _ (i & j & Hf' & Hn') _ _ _ _].
      - congruence.
      - unfold fence_span in Hs. now rewrite Hf, Hn in Hs.
      - congruence. }
  assert (Hspan : fence_span (PyStr.strip raw)
                  = match PyStr.find_from fence (PyStr.strip raw) nl with
                    | Some end_idx =>
                        Some (PyStr.strip (PyStr.slice (PyStr.strip raw) (nl + 1) end_idx))
                    | None => None
                    end).
  { unfold fence_span. now rewrite Hf, Hn. }
  assert (Hfall :
            (forall text, fence_span (PyStr.strip raw) = Some text ->
                          json_loads text = JSONDecodeError) ->
            (extract_fallback (PyStr.strip raw) = outcome_of r <-> settled raw r)).
  { intros Hspan_none. unfold extract_fallback. cbv zeta.
    fold (fence_body (PyStr.strip raw)).
    assert (Hbody : forall S : settled raw r,
              fence_body (PyStr.strip raw) <> ""
              /\ json_loads (fence_body (PyStr.strip raw)) = r).
    { intros S. destruct S as [_ Hd' Hr'|text _ _ Hs Hl Hr'|_ _ _ _ Hb Hl _].
      - congruence.
      - rewrite (Hspan_none _ Hs) in Hl. congruence.
      - auto. }
    destruct (String.eqb_spec (fence_body (PyStr.strip raw)) "") as [Hb|Hb].
    - apply Hnone. intros S. now destruct (Hbody S).
    - destruct (loads_cases (json_loads (fence_body (PyStr.strip raw)))) as [Hl|Hl].
      + rewrite Hl. apply Hnone. intros S. destruct (Hbody S) as [_ E]. congruence.
      + assert (Heq : match json_loads (fence_body (PyStr.strip raw)) with
                      | Loaded v => Returns v
                      | JSONDecodeError => Returns VNone
                      | LoadsRaises e => Raises e
                      end = outcome_of (json_loads (fence_body (PyStr.strip raw))))
          by (now destruct (json_loads (fence_body (PyStr.strip raw)))).
        rewrite Heq. apply Hstop; [exact Hl|].
        apply settled_fence_body; auto. now exists start_idx, nl. }
  destruct (PyStr.find_from fence (PyStr.strip raw) nl) as [end_idx|] eqn:Hend.
  - destruct (loads_cases (json_loads (PyStr.strip (PyStr.slice (PyStr.strip raw)
                                                      (nl + 1) end_idx)))) as [Hl|Hl].
    + rewrite Hl. apply Hfall. intros text Ht. congruence.
    + assert (Heq : match json_loads (PyStr.strip (PyStr.slice (PyStr.strip raw)
                                                     (nl + 1) end_idx)) with
                    | Loaded v => Returns v
                    | JSONDecodeError => extract_fallback (PyStr.strip raw)
                    | LoadsRaises e => Raises e
                    end
                    = outcome_of (json_loads (PyStr.strip (PyStr.slice (PyStr.strip raw)
                                                             (nl + 1) end_idx)))).
      { destruct (json_loads (PyStr.strip (PyStr.slice (PyStr.strip raw)
                                             (nl + 1) end_idx)));
          [reflexivity | congruence | reflexivity]. }
      rewrite Heq. apply Hstop; [exact Hl|]. eapply settled_fence_span; eauto.
  - apply Hfall. intros text Ht. congruence.
Qed.

(** C1, as amended.  [get_action_plan] returns a plan exactly when the
    model output is not blank and parses as JSON ([parsed]): directly; or,
    when it does not, by the text between the end of the line that holds
    its first fence and the next fence; or, when that yields no JSON and a
    line break follows the first fence, by the lines after the first line
    that begins with a fence, up to the next such line or to the end; and
    that JSON validates as a [Plan], which is the plan returned.  It raises
    exactly when [json.loads] raises something other than
    [JSONDecodeError] on the first of these texts that is no plain parse
    failure ([raised]), and then that exception.  In every other case it
    returns [None]: for an empty or white-space-only output, when every
    reading ends in a [JSONDecodeError], and when the JSON found does not
    validate. *)
Theorem get_action_plan_iff_parsed_and_valid
    (llm : LLMClient) (user_query tools : string) (p : Plan) :
  let raw := chat llm user_query "action" tools in
  (get_action_plan llm user_query tools = Returns (Some p)
   <-> exists v, parsed raw v /\ Plan_model_validate v = Some p)
  /\ (forall e, get_action_plan llm user_query tools = Raises e <-> raised raw e)
  /\ (PyStr.strip raw = "" -> get_action_plan llm user_query tools = Returns None)
  /\ ((forall v, ~ parsed raw v) -> (forall e, ~ raised raw e) ->
      get_action_plan llm user_query tools = Returns None)
  /\ (forall v, parsed raw v -> Plan_model_validate v = None ->
        get_action_plan llm user_query tools = Returns None).
Proof.
  intros raw.
  (* what [get_action_plan] is, by what settles the reading *)
  assert (Hloaded : forall v, v <> VNone -> parsed raw v ->
            get_action_plan llm user_query tools = Returns (Plan_model_validate v)).
  { intros v Hv P. unfold get_action_plan. fold raw.
    apply (_extract_json_settled raw (Loaded v)) in P; [|discriminate|congruence].
    rewrite P. simpl. now destruct v. }
  assert (Hnull : parsed raw VNone -> get_action_plan llm user_query tools = Returns None).
  { intros P. unfold get_action_plan. fold raw.
    destruct (_extract_json raw) as [v|e] eqn:E.
    - destruct v; try reflexivity; exfalso;
        match type of E with
        | _ = Returns ?v =>
            assert (S : settled raw (Loaded v))
              by (apply _extract_json_settled; [discriminate | discriminate | exact E])
        end;
        pose proof (settled_functional raw _ _ P S); discriminate.
    - exfalso.
      assert (S : settled raw (LoadsRaises e))
        by (apply _extract_json_settled; [discriminate | discriminate | exact E]).
      pose proof (settled_functional raw _ _ P S). discriminate. }
  assert (Hraised : forall e, raised raw e ->
            get_action_plan llm user_query tools = Raises e).
  { intros e P. unfold get_action_plan. fold raw.
    apply (_extract_json_settled raw (LoadsRaises e)) in P; [|discriminate..].
    now rewrite P. }
  assert (Hinv : forall q, get_action_plan llm user_query tools = Returns (Some q) ->
            exists v, parsed raw v /\ Plan_model_validate v = Some q).
  { intros q. unfold get_action_plan. fold raw.
    destruct (_extract_json raw) as [v|e] eqn:E; [|discriminate].
    destruct v; try discriminate; intros [= Hp];
      eexists; (split; [apply _extract_json_settled; [| |exact E]; discriminate | exact Hp]). }
  assert (Hinv_raise : forall e, get_action_plan llm user_query tools = Raises e ->
            raised raw e).
  { intros e. unfold get_action_plan. fold raw.
    destruct (_extract_json raw) as [v|e'] eqn:E; [destruct v; discriminate|].
    intros [= <-]. apply _extract_json_settled; [discriminate | discriminate | exact E]. }
  split; [|split; [|split; [|split]]].
  - split; [apply Hinv|].
    intros (v & P & Hp).
    assert (Hv : v <> VNone) by (intros ->; discriminate).
    now rewrite (Hloaded v Hv P), Hp.
  - intros e. split; [apply Hinv_raise | apply Hraised].
  - intros He. unfold get_action_plan. fold raw. unfold _extract_json. cbv zeta.
    now rewrite He.
  - intros Hno Hnor.
    destruct (get_action_plan llm user_query tools) as [[q|]|e] eqn:E; [| reflexivity |].
    + destruct (Hinv q eq_refl) as (v & P & _). now destruct (Hno v).
    + now destruct (Hnor e (Hinv_raise e eq_refl)).
  - intros v P Hval.
    destruct (value_eq_VNone v) as [->|Hv]; [now apply Hnull|].
    now rewrite (Hloaded v Hv P), Hval.
Qed.

End Extraction.

Import Demo.

(** A model answer whose first fence stands in the middle of a line: prose,
    a fenced block that holds no JSON, and an object after the block. *)
Definition answer_with_trailing_object : string :=
  "x ```" ++ newline ++ "foo" ++ newline ++ "```" ++ newline ++ "{}".

(** C1 as stated fails on that answer.  It is not JSON, and the text
    between its fences, "foo", is not JSON either, so the claim has [None];
    but the line-by-line fallback takes the closing fence line for the
    opening one, collects the object that follows the block, and
    [get_action_plan] returns the default plan. *)
Lemma get_action_plan_reads_past_the_fence :
  json_loads (PyStr.strip answer_with_trailing_object) = JSONDecodeError
  /\ fence_span (PyStr.strip answer_with_trailing_object) = Some "foo"
  /\ json_loads "foo" = JSONDecodeError
  /\ fence_body (PyStr.strip answer_with_trailing_object) = "{}"
  /\ get_action_plan {| chat := fun _ _ _ => answer_with_trailing_object |} "query" "tools"
     = Returns (Some (mkPlan "No high-level plan provided." [])).
Proof. repeat split; vm_compute; reflexivity. Qed.

(** The usual answers: a bare object, a fenced object, an unclosed fence;
    and the answers that give no plan. *)
Lemma get_action_plan_examples :
  get_action_plan {| chat := fun _ _ _ => "{}" |} "query" "tools"
  = Returns (Some (mkPlan "No high-level plan provided." []))
  /\ get_action_plan
       {| chat := fun _ _ _ => "```json" ++ newline ++ "{}" ++ newline ++ "```" |}
       "query" "tools"
     = Returns (Some (mkPlan "No high-level plan provided." []))
  /\ get_action_plan {| chat := fun _ _ _ => "```" ++ newline ++ "{}" |} "query" "tools"
     = Returns (Some (mkPlan "No high-level plan provided." []))
  /\ get_action_plan {| chat := fun _ _ _ => "```{}```" |} "query" "tools" = Returns None
  /\ get_action_plan {| chat := fun _ _ _ => "null" |} "query" "tools" = Returns None
  /\ get_action_plan {| chat := fun _ _ _ => "[1]" |} "query" "tools" = Returns None
  /\ get_action_plan {| chat := fun _ _ _ => "   " |} "query" "tools" = Returns None.
Proof. repeat split; vm_compute; reflexivity. Qed.

(** An answer that is a number of 4301 digits: [json.loads] raises
    [ValueError], which is no [JSONDecodeError], and [get_action_plan]
    raises it, directly and from inside a fence. *)
Lemma get_action_plan_raises :
  get_action_plan {| chat := fun _ _ _ => ones 4301 |} "query" "tools"
  = Raises too_many_digits
  /\ get_action_plan
       {| chat := fun _ _ _ => "```json" ++ newline ++ ones 4301 ++ newline ++ "```" |}
       "query" "tools"
     = Raises too_many_digits.
Proof. split; vm_compute; reflexivity. Qed.

End PlannerFacts.

(** ** The file system *)

Module HostFacts.
Import Py Host.

Lemma stored_insert_eq (w : World) (k : path) (n : node) :
  k <> [] -> stored (set_fs w (<[k := n]> (fs w))) k = Some n.
Proof. destruct k; [congruence|]. intros _. simpl. apply lookup_insert_eq. Qed.

Lemma stored_insert_ne (w : World) (k k' : path) (n : node) :
  k <> k' -> stored (set_fs w (<[k := n]> (fs w))) k' = stored w k'.
Proof. intros Hne. destruct k'; [reflexivity|]. simpl. now apply lookup_insert_ne. Qed.

Lemma exists_root (w : World) : exists_ w [] = true.
Proof. reflexivity. Qed.

(** ** Walks *)

Lemma os_walk_app (w : World) (l1 l2 : list string) (cur : path) :
  os_walk w cur (l1 ++ l2)
  = match os_walk w cur l1 with
    | inl k => os_walk w k l2
    | inr e => inr e
    end.
Proof.
  revert cur. induction l1 as [|c l1 IH]; intros cur; simpl; [reflexivity|].
  destruct (stored w cur) as [[d|]|]; auto.
Qed.

Lemma key_of_snoc (w : World) (p : path) (c : string) :
  key_of w (p ++ [c])
  = match key_of w p with
    | inl k =>
        match stored w k with
        | Some Dir => inl (step k c)
        | Some (File _) => inr NotADirectoryError
        | None => inr FileNotFoundError
        end
    | inr e => inr e
    end.
Proof.
  unfold key_of. rewrite os_walk_app. destruct (os_walk w [] p) as [k|e]; [|reflexivity].
  simpl. now destruct (stored w k) as [[d|]|].
Qed.

Lemma parent_name (p : path) : p <> [] -> p = (parent p ++ [name p])%list.
Proof. intros Hp. unfold parent, name. now apply app_removelast_last. Qed.

Lemma length_parent (p : path) : p <> [] -> length p = S (length (parent p)).
Proof.
  intros Hp. unfold parent. destruct (exists_last Hp) as (l & a & ->).
  rewrite removelast_last, length_app. simpl. lia.
Qed.

Lemma exists_last_or_nil (l : path) : l = [] \/ exists l' a, l = (l' ++ [a])%list.
Proof.
  destruct l as [|c l]; [now left|right].
  destruct (@exists_last _ (c :: l)) as (l' & a & E); [discriminate|].
  now exists l', a.
Qed.

(** A path without [..] resolves to itself when the directories along it
    exist. *)
Lemma os_walk_plain (w : World) (comps : list string) (cur k : path) :
  Forall (fun c => c <> "..") comps ->
  os_walk w cur comps = inl k -> k = (cur ++ comps)%list.
Proof.
  intros F. revert cur. induction F as [|c rest Hc Hrest IH]; intros cur; simpl.
  - intros [= <-]. now rewrite app_nil_r.
  - destruct (stored w cur) as [[d|]|]; try discriminate.
    unfold step. destruct (String.eqb_spec c ".."); [contradiction|].
    intros E. rewrite (IH _ E), <- app_assoc. reflexivity.
Qed.

Lemma key_of_plain (w : World) (p k : path) :
  Forall (fun c => c <> "..") p -> key_of w p = inl k -> k = p.
Proof. intros F E. now apply (os_walk_plain w p [] k F). Qed.

(** What exists at a path has a directory above it. *)
Lemma node_at_parent (w : World) (p : path) (n : node) :
  p <> [] -> node_at w p = Some n -> node_at w (parent p) = Some Dir.
Proof.
  intros Hp. rewrite (parent_name p Hp) at 1. unfold node_at.
  rewrite key_of_snoc. destruct (key_of w (parent p)) as [k|e]; [|discriminate].
  now destruct (stored w k) as [[d|]|].
Qed.


(** ** Worlds with the same directories, or more *)

Definition dirs_le (w w' : World) : Prop :=
  forall k, stored w k = Some Dir -> stored w' k = Some Dir.

Definition stored_le (w w' : World) : Prop :=
  forall k n, stored w k = Some n -> stored w' k = Some n.

Lemma stored_le_dirs (w w' : World) : stored_le w w' -> dirs_le w w'.
Proof. intros Hle k. apply Hle. Qed.

Lemma stored_le_refl (w : World) : stored_le w w.
Proof. intros k n Hk. exact Hk. Qed.

Lemma stored_le_trans (w1 w2 w3 : World) :
  stored_le w1 w2 -> stored_le w2 w3 -> stored_le w1 w3.
Proof. intros H12 H23 k n Hk. auto. Qed.

Lemma os_walk_dirs_le (w w' : World) (comps : list string) (cur k : path) :
  dirs_le w w' -> os_walk w cur comps = inl k -> os_walk w' cur comps = inl k.
Proof.
  intros Hle. revert cur. induction comps as [|c rest IH]; intros cur; simpl; [auto|].
  destruct (stored w cur) as [[d|]|] eqn:E; try discriminate.
  rewrite (Hle _ E). apply IH.
Qed.

Lemma key_of_dirs_le (w w' : World) (p k : path) :
  dirs_le w w' -> key_of w p = inl k -> key_of w' p = inl k.
Proof. apply os_walk_dirs_le. Qed.

Lemma node_at_le (w w' : World) (p : path) (n : node) :
  stored_le w w' -> node_at w p = Some n -> node_at w' p = Some n.
Proof.
  intros Hle. unfold node_at. destruct (key_of w p) as [k|e] eqn:E; [|discriminate].
  rewrite (key_of_dirs_le w w' p k (stored_le_dirs _ _ Hle) E). apply Hle.
Qed.

(** Writing a file where no directory is leaves every walk as it was. *)
Lemma dirs_written (w : World) (k : path) (d : list byte) :
  stored w k <> Some Dir ->
  dirs_le w (set_fs w (<[k := File d]> (fs w)))
  /\ dirs_le (set_fs w (<[k := File d]> (fs w))) w.
Proof.
  intros Hk. split; intros k' Hd; destruct (decide (k = k')) as [<-|Hne].
  - contradiction.
  - now rewrite stored_insert_ne.
  - destruct k as [|c k]; [now destruct Hk|].
    rewrite stored_insert_eq in Hd by discriminate. discriminate.
  - now rewrite stored_insert_ne in Hd.
Qed.

Lemma key_of_written (w : World) (k : path) (d : list byte) (p : path) (kp : path) :
  stored w k <> Some Dir ->
  (key_of (set_fs w (<[k := File d]> (fs w))) p = inl kp <-> key_of w p = inl kp).
Proof.
  intros Hk. destruct (dirs_written w k d Hk) as [H1 H2].
  split; now apply key_of_dirs_le.
Qed.

(** The nodes after a file was written at the resolved path [k]. *)
Lemma node_at_written (w : World) (k : path) (d : list byte) (p : path) :
  stored w k <> Some Dir ->
  node_at (set_fs w (<[k := File d]> (fs w))) p
  = match key_of w p with
    | inl kp => if decide (kp = k) then Some (File d) else stored w kp
    | inr _ => None
    end.
Proof.
  intros Hk. assert (Hk0 : k <> []) by (intros ->; now destruct Hk).
  unfold node_at.
  destruct (key_of w p) as [kp|e] eqn:E.
  - rewrite (proj2 (key_of_written w k d p kp Hk) E).
    destruct (decide (kp = k)) as [->|Hne].
    + now apply stored_insert_eq.
    + apply stored_insert_ne. congruence.
  - destruct (key_of (set_fs w (<[k := File d]> (fs w))) p) as [kp|e'] eqn:E'; [|reflexivity].
    apply (key_of_written w k d p kp Hk) in E'. congruence.
Qed.

(** ** [mkdir] *)

Lemma os_mkdir_cases (p : path) (w : World) :
  (exists e, os_mkdir p w = Raise e w)
  \/ (exists k, key_of w p = inl k /\ stored w k = None /\ k <> []
                /\ os_mkdir p w = Ret tt (set_fs w (<[k := Dir]> (fs w)))).
Proof.
  unfold os_mkdir. destruct (key_of w p) as [k|e] eqn:E.
  - destruct (stored w k) as [n|] eqn:Ek; [left; eauto|].
    right. exists k. split; [reflexivity|]. split; [exact Ek|].
    split; [|reflexivity]. intros ->. discriminate.
  - left. destruct e; eauto.
Qed.

(** A property of two worlds that holds of every [os.mkdir] and along
    chains holds of [mkdir]. *)
Lemma mkdir_fuel_invariant (R : World -> World -> Prop) :
  (forall w, R w w) ->
  (forall w1 w2 w3, R w1 w2 -> R w2 w3 -> R w1 w3) ->
  (forall p w, R w (final_state (os_mkdir p w))) ->
  forall n p w, R w (final_state (mkdir_fuel n p w)).
Proof.
  intros Hrefl Htrans Hos. induction n as [|n IH]; intros p w; cbn [mkdir_fuel].
  - pose proof (Hos p w) as H1.
    destruct (os_mkdir p w) as [[] w'|e w']; cbn [final_state] in *; [exact H1|].
    destruct (is_FileNotFoundError e); [exact H1|]. now destruct (is_dir w' p).
  - pose proof (Hos p w) as H1.
    destruct (os_mkdir p w) as [[] w'|e w']; cbn [final_state] in *; [exact H1|].
    destruct (is_FileNotFoundError e); [|now destruct (is_dir w' p)].
    pose proof (IH (parent p) w') as H2.
    destruct (mkdir_fuel n (parent p) w') as [[] w2|e2 w2]; cbn [final_state] in *;
      [|now apply (Htrans _ w')].
    pose proof (Hos p w2) as H3.
    assert (H13 : R w (final_state (os_mkdir p w2)))
      by (apply (Htrans _ w'); [exact H1|]; now apply (Htrans _ w2)).
    destruct (os_mkdir p w2) as [[] w3|e3 w3]; cbn [final_state] in *; [exact H13|].
    destruct (is_FileNotFoundError e3); [exact H13|]. now destruct (is_dir w3 p).
Qed.

(** [mkdir] only makes directories where nothing was: what is stored
    stays, also when it fails half way. *)
Lemma mkdir_parents_stored_le (p : path) (w : World) :
  stored_le w (final_state (mkdir_parents p w)).
Proof.
  unfold mkdir_parents. apply (mkdir_fuel_invariant stored_le).
  - apply stored_le_refl.
  - apply stored_le_trans.
  - intros q w0. destruct (os_mkdir_cases q w0) as [[e ->]|(k & _ & Hk & _ & ->)];
      cbn [final_state]; [apply stored_le_refl|].
    intros k' n Hk'. rewrite stored_insert_ne; [exact Hk'|]. congruence.
Qed.

Lemma mkdir_parents_preserves (p : path) (w : World) (q : path) (n : node) :
  node_at w q = Some n -> node_at (final_state (mkdir_parents p w)) q = Some n.
Proof. apply node_at_le, mkdir_parents_stored_le. Qed.


Lemma mkdir_parents_env (p : path) (w : World) :
  cwd (final_state (mkdir_parents p w)) = cwd w
  /\ home (final_state (mkdir_parents p w)) = home w.
Proof.
  unfold mkdir_parents.
  apply (mkdir_fuel_invariant (fun w1 w2 => cwd w2 = cwd w1 /\ home w2 = home w1)).
  - auto.
  - intros w1 w2 w3 [H1 H2] [H3 H4]. split; congruence.
  - intros q w0. destruct (os_mkdir_cases q w0) as [[e ->]|(k0 & _ & _ & _ & ->)];
      cbn [final_state]; auto.
Qed.

(** After [os.mkdir] has succeeded, the path leads to a directory. *)
Lemma os_mkdir_dir (p : path) (w w1 : World) :
  os_mkdir p w = Ret tt w1 -> node_at w1 p = Some Dir.
Proof.
  destruct (os_mkdir_cases p w) as [[e ->]|(k & Hk & Hn & Hk0 & ->)]; [discriminate|].
  intros [= <-]. unfold node_at.
  rewrite (key_of_dirs_le w _ p k); [now apply stored_insert_eq | | exact Hk].
  intros k' Hk'. rewrite stored_insert_ne; [exact Hk'|]. congruence.
Qed.

(** After [mkdir] has succeeded, the path leads to a directory. *)
Lemma mkdir_parents_dir (q : path) (w w1 : World) :
  mkdir_parents q w = Ret tt w1 -> node_at w1 q = Some Dir.
Proof.
  unfold mkdir_parents.
  assert (Hdir : forall w0, is_dir w0 q = true -> node_at w0 q = Some Dir).
  { intros w0. unfold is_dir. now destruct (node_at w0 q) as [[]|]. }
  destruct (length q) as [|n]; cbn [mkdir_fuel].
  - destruct (os_mkdir q w) as [[] w'|e w'] eqn:E.
    + intros [= <-]. exact (os_mkdir_dir q w w' E).
    + destruct (is_FileNotFoundError e); [discriminate|].
      destruct (is_dir w' q) eqn:Ed; [|discriminate]. intros [= <-]. now apply Hdir.
  - destruct (os_mkdir q w) as [[] w'|e w'] eqn:E.
    + intros [= <-]. exact (os_mkdir_dir q w w' E).
    + destruct (is_FileNotFoundError e).
      * destruct (mkdir_fuel n (parent q) w') as [[] w2|e2 w2]; [|discriminate].
        destruct (os_mkdir q w2) as [[] w3|e3 w3] eqn:E3.
        -- intros [= <-]. exact (os_mkdir_dir q w2 w3 E3).
        -- destruct (is_FileNotFoundError e3); [discriminate|].
           destruct (is_dir w3 q) eqn:Ed; [|discriminate]. intros [= <-]. now apply Hdir.
      * destruct (is_dir w' q) eqn:Ed; [|discriminate]. intros [= <-]. now apply Hdir.
Qed.

(** Making a directory that exists changes nothing. *)
Lemma mkdir_parents_noop (q : path) (w : World) :
  node_at w q = Some Dir -> mkdir_parents q w = Ret tt w.
Proof.
  intros Hq.
  assert (Hos : os_mkdir q w = Raise (errno FileExistsError "[Errno 17] File exists" q) w).
  { unfold os_mkdir. unfold node_at in Hq.
    destruct (key_of w q) as [k|e]; [|discriminate]. now rewrite Hq. }
  assert (Hd : is_dir w q = true) by (unfold is_dir; now rewrite Hq).
  unfold mkdir_parents. destruct (length q); cbn [mkdir_fuel]; rewrite Hos;
    cbn [is_FileNotFoundError errno exn_cls]; now rewrite Hd.
Qed.

(** ** Resolved paths *)

(** Every directory above a resolved path exists. *)
Definition reachable (w : World) (k : path) : Prop :=
  forall i, i < length k -> stored w (firstn i k) = Some Dir.

Lemma reachable_removelast (w : World) (k : path) :
  reachable w k -> reachable w (removelast k).
Proof.
  intros R i Hi. destruct (exists_last_or_nil k) as [->|(l & a & ->)]; [simpl in Hi; lia|].
  rewrite removelast_last in *. specialize (R i).
  rewrite firstn_app, length_app in R. cbn [length] in R.
  replace (i - length l) with 0 in R by lia. cbn [firstn] in R.
  rewrite app_nil_r in R. apply R. lia.
Qed.

Lemma reachable_snoc (w : World) (k : path) (c : string) :
  reachable w k -> stored w k = Some Dir -> reachable w (k ++ [c]).
Proof.
  intros R Hk i Hi. rewrite length_app in Hi. cbn [length] in Hi.
  destruct (Nat.eq_dec i (length k)) as [->|Hne].
  - now rewrite firstn_app, firstn_all, Nat.sub_diag, app_nil_r.
  - rewrite firstn_app. replace (i - length k) with 0 by lia.
    cbn [firstn]. rewrite app_nil_r. apply R. lia.
Qed.

Lemma os_walk_reachable (w : World) (comps : list string) (cur k : path) :
  reachable w cur -> os_walk w cur comps = inl k -> reachable w k.
Proof.
  revert cur. induction comps as [|c rest IH]; intros cur R; cbn [os_walk].
  - now intros [= <-].
  - destruct (stored w cur) as [[d|]|] eqn:E; try discriminate.
    apply IH. unfold step. destruct (String.eqb c "..").
    + now apply reachable_removelast.
    + now apply reachable_snoc.
Qed.

Lemma key_of_reachable (w : World) (p k : path) : key_of w p = inl k -> reachable w k.
Proof. apply os_walk_reachable. intros i Hi. simpl in Hi. lia. Qed.

Lemma os_walk_no_dots (w : World) (comps : list string) (cur k : path) :
  Forall (fun c => c <> "..") cur -> os_walk w cur comps = inl k ->
  Forall (fun c => c <> "..") k.
Proof.
  revert cur. induction comps as [|c rest IH]; intros cur F; cbn [os_walk].
  - now intros [= <-].
  - destruct (stored w cur) as [[d|]|] eqn:E; try discriminate.
    apply IH. unfold step. destruct (String.eqb_spec c "..") as [->|Hc].
    + destruct (exists_last_or_nil cur) as [->|(l & a & ->)]; [exact F|].
      rewrite removelast_last. apply Forall_app in F. tauto.
    + apply Forall_app. split; [exact F|]. now constructor.
Qed.

Lemma key_of_no_dots (w : World) (p k : path) :
  key_of w p = inl k -> Forall (fun c => c <> "..") k.
Proof. apply os_walk_no_dots. constructor. Qed.

Lemma os_walk_self (w : World) (comps : list string) (cur : path) :
  Forall (fun c => c <> "..") comps ->
  (forall i, i < length comps -> stored w (cur ++ firstn i comps) = Some Dir) ->
  os_walk w cur comps = inl (cur ++ comps)%list.
Proof.
  intros F. revert cur. induction F as [|c rest Hc Hrest IH]; intros cur R; cbn [os_walk].
  - now rewrite app_nil_r.
  - pose proof (R 0 ltac:(simpl; lia)) as R0. cbn [firstn] in R0. rewrite app_nil_r in R0.
    rewrite R0. unfold step. destruct (String.eqb_spec c ".."); [contradiction|].
    rewrite IH; [now rewrite <- app_assoc|].
    intros i Hi. specialize (R (S i)). cbn [firstn length] in R.
    rewrite <- app_assoc. apply R. lia.
Qed.

(** A resolved path resolves to itself. *)
Lemma key_of_idem (w : World) (p k : path) : key_of w p = inl k -> key_of w k = inl k.
Proof.
  intros E. unfold key_of. rewrite os_walk_self.
  - reflexivity.
  - exact (key_of_no_dots w p k E).
  - exact (key_of_reachable w p k E).
Qed.

Lemma node_at_key (w : World) (p k : path) : key_of w p = inl k -> node_at w p = stored w k.
Proof. intros E. unfold node_at. now rewrite E. Qed.

(** The last component of a file's path is not [..]. *)
Lemma file_name_no_dots (w : World) (p : path) (d : list byte) :
  node_at w p = Some (File d) -> name p <> "..".
Proof.
  intros Hp Hn.
  assert (Hne : p <> []) by (intros ->; discriminate).
  rewrite (parent_name p Hne), Hn in Hp. unfold node_at in Hp.
  rewrite key_of_snoc in Hp.
  destruct (key_of w (parent p)) as [k|e] eqn:E; [|discriminate].
  destruct (stored w k) as [[dd|]|] eqn:Ek; try discriminate.
  unfold step in Hp. cbn [String.eqb Ascii.eqb Bool.eqb] in Hp.
  pose proof (reachable_removelast w k (key_of_reachable w _ k E)) as R.
  destruct (exists_last_or_nil k) as [->|(l & a & ->)]; [discriminate Hp|].
  rewrite removelast_last in Hp.
  pose proof (key_of_reachable w _ _ E (length l)) as Hl.
  rewrite firstn_app, firstn_all, Nat.sub_diag, app_nil_r, length_app in Hl.
  cbn [length] in Hl. rewrite Hl in Hp by lia. discriminate.
Qed.

(** ** Opening a file for writing *)

Lemma check_writable_None (p : path) (w : World) :
  check_writable p w = None
  <-> exists k, key_of w p = inl k /\ stored w k <> Some Dir.
Proof.
  unfold check_writable. destruct (key_of w p) as [k|e].
  - destruct (stored w k) as [[d|]|] eqn:E; split.
    + intros _. exists k. split; [reflexivity | now rewrite E].
    + reflexivity.
    + discriminate.
    + intros (k' & [= <-] & Hk). congruence.
    + intros _. exists k. split; [reflexivity | now rewrite E].
    + reflexivity.
  - split; [destruct e; discriminate | intros (k & Hk & _); discriminate].
Qed.

Lemma write_bytes_fails (append : bool) (p : path) (data : list byte) (w : World) (e : exn) :
  check_writable p w = Some e -> write_bytes append p data w = Raise e w.
Proof. intros Hc. unfold write_bytes. now rewrite Hc. Qed.

Lemma write_bytes_eq (append : bool) (p : path) (data : list byte) (w : World) (k : path) :
  key_of w p = inl k -> stored w k <> Some Dir ->
  write_bytes append p data w
  = Ret tt (set_fs w (<[k := File ((if append
                                    then match stored w k with Some (File d) => d | _ => [] end
                                    else []) ++ data)]> (fs w))).
Proof.
  intros Hk Hd. unfold write_bytes.
  rewrite (proj2 (check_writable_None p w)) by eauto. rewrite Hk.
  destruct (stored w k) as [[d|]|]; destruct append; reflexivity.
Qed.

(** The file written at the resolved path of [p] is what is found at [p]. *)
Lemma node_at_written_self (w : World) (p k : path) (d : list byte) :
  key_of w p = inl k -> stored w k <> Some Dir ->
  node_at (set_fs w (<[k := File d]> (fs w))) p = Some (File d).
Proof.
  intros Hk Hd. rewrite node_at_written by exact Hd. rewrite Hk.
  now rewrite decide_True.
Qed.

(** What was found elsewhere is still there. *)
Lemma node_at_written_other (w : World) (q k kq : path) (d : list byte) :
  stored w k <> Some Dir -> key_of w q = inl kq -> kq <> k ->
  node_at (set_fs w (<[k := File d]> (fs w))) q = node_at w q.
Proof.
  intros Hd Hq Hne. rewrite node_at_written by exact Hd. unfold node_at. rewrite Hq.
  now rewrite decide_False.
Qed.

End HostFacts.

(** ** The tools *)

Module ToolsFacts.
Import Py Host Tools.

(** Best score first. *)
Fixpoint non_increasing (l : list Candidate) : Prop :=
  match l with
  | [] => True
  | c :: rest =>
      Forall (fun d => (match_score d <= match_score c)%Q) rest /\ non_increasing rest
  end.

Lemma insert_desc_Forall (P : Candidate -> Prop) c l :
  P c -> Forall P l -> Forall P (insert_desc c l).
Proof.
  intros Hc. induction 1 as [|d rest Hd Hrest IH]; simpl.
  - auto.
  - destruct (Qle_bool (match_score d) (match_score c)); auto.
Qed.

Lemma insert_desc_sorted c l : non_increasing l -> non_increasing (insert_desc c l).
Proof.
  induction l as [|d rest IH]; simpl; intros Hs.
  - auto.
  - destruct Hs as [Hd Hrest].
    destruct (Qle_bool (match_score d) (match_score c)) eqn:E.
    + apply Qle_bool_iff in E. simpl. repeat split; auto.
      constructor; [exact E|].
      eapply Forall_impl; [exact Hd|]. intros x Hx. simpl in Hx.
      eapply Qle_trans; eauto.
    + simpl. split; [|auto].
      apply insert_desc_Forall; [|exact Hd].
      destruct (Qlt_le_dec (match_score d) (match_score c)) as [Hlt|Hle]; [|exact Hle].
      apply Qlt_le_weak, Qle_bool_iff in Hlt. congruence.
Qed.

Lemma sort_desc_sorted l : non_increasing (sort_desc l).
Proof. induction l; simpl; [exact I | now apply insert_desc_sorted]. Qed.

Lemma sort_desc_Forall (P : Candidate -> Prop) l : Forall P l -> Forall P (sort_desc l).
Proof. induction 1; simpl; [constructor | now apply insert_desc_Forall]. Qed.

Lemma firstn_sorted n l : non_increasing l -> non_increasing (firstn n l).
Proof.
  revert n. induction l as [|c rest IH]; intros [|n]; simpl; auto.
  intros [Hc Hrest]. split; [|auto]. now apply Forall_take.
Qed.

Lemma py_slice_to_nonneg {A} (n : Z) (l : list A) :
  (0 <= n)%Z -> py_slice_to n l = firstn (Z.to_nat n) l.
Proof. intros Hn. unfold py_slice_to. destruct (Z.leb_spec 0 n); [reflexivity | lia]. Qed.

Lemma py_slice_to_length {A} (n : Z) (l : list A) :
  (0 <= n)%Z -> (Z.of_nat (length (py_slice_to n l)) <= n)%Z.
Proof.
  intros Hn. rewrite py_slice_to_nonneg by exact Hn.
  rewrite length_firstn. lia.
Qed.

Section WithOS.
Context `{OS}.

Lemma scan_paths_ret query threshold root paths acc (w : World) :
  exists acc',
    scan_paths query threshold root paths acc w = Ret acc' w
    /\ (Forall (fun c => (threshold <= match_score c)%Q) acc ->
        Forall (fun c => (threshold <= match_score c)%Q) acc').
Proof.
  revert acc. induction paths as [|p rest IH]; intros acc; simpl.
  - exists acc. auto.
  - destruct (Qle_bool threshold (Fuzzy._fuzzy_match_score query (name p))) eqn:E;
      [|apply IH].
    match goal with
    | |- context [bind ?m _] =>
        assert (Hinfo : exists info, m w = Ret info w)
    end.
    { unfold try_except, bind, path_is_dir, path_is_file, stat_size, ret, is_file.
      destruct (node_at w p) as [[d|]|] eqn:En; rewrite ?En; eauto. }
    destruct Hinfo as [info Hinfo]. unfold bind at 1. rewrite Hinfo.
    match goal with
    | |- context [scan_paths _ _ _ rest ?a w] => destruct (IH a) as (acc' & -> & F)
    end.
    exists acc'. split; [reflexivity|].
    intros Facc. apply F, Forall_app. split; [exact Facc|].
    constructor; [now apply Qle_bool_iff | constructor].
Qed.

Lemma scan_roots_ret query threshold roots acc (w : World) :
  exists acc',
    scan_roots query threshold roots acc w = Ret acc' w
    /\ (Forall (fun c => (threshold <= match_score c)%Q) acc ->
        Forall (fun c => (threshold <= match_score c)%Q) acc').
Proof.
  revert acc. induction roots as [|root rest IH]; intros acc; simpl.
  - exists acc. auto.
  - unfold bind at 1, get. unfold bind at 1.
    destruct (scan_paths_ret query threshold root (fst (rglob w root)) acc w)
      as (acc1 & -> & F1).
    destruct (IH acc1) as (acc2 & -> & F2). exists acc2. auto.
Qed.

Lemma home_roots_ret home subs (w : World) :
  exists roots, home_roots home subs w = Ret roots w.
Proof.
  induction subs as [|sub rest [roots IH]]; simpl; [now eexists|].
  unfold bind, path_exists, ret. rewrite IH. now eexists.
Qed.

(** C3, as amended.  For a name that is empty or white space only,
    [find_item] returns [ok = False] with an error, whatever [max_results]
    is.  For any other name, every result that [find_item] returns has
    [ok = True] and a list of entries, each with a [match_score] of at
    least [fuzzy_threshold], best score first, and of at most [max_results]
    entries when [max_results] is not negative; and it does return when the
    working directory and the home directory of the process can be
    determined. *)
Theorem find_item_results (name : string) (max_results : Z) (fuzzy_threshold : Q)
    (w : World) :
  (PyStr.strip name = "" ->
   find_item name max_results fuzzy_threshold w
   = Ret [("ok", VBool false); ("error", VStr "empty name for find_item")] w)
  /\ (PyStr.strip name <> "" ->
      (cwd w <> None -> home w <> None ->
       returns (find_item name max_results fuzzy_threshold w) = true)
      /\ forall r w',
           find_item name max_results fuzzy_threshold w = Ret r w' ->
           w' = w
           /\ dict_get "ok" r = Some (VBool true)
           /\ exists results,
                dict_get "results" r = Some (VList (map candidate_dict results))
                /\ ((0 <= max_results)%Z ->
                    (Z.of_nat (length results) <= max_results)%Z)
                /\ Forall (fun c => (fuzzy_threshold <= match_score c)%Q) results
                /\ non_increasing results).
Proof.
  split.
  { intros He. unfold find_item. cbv zeta. now rewrite He. }
  intros He.
  assert (Hout :
    ((cwd w = None \/ home w = None)
     /\ returns (find_item name max_results fuzzy_threshold w) = false)
    \/ exists roots cands,
         Forall (fun c => (fuzzy_threshold <= match_score c)%Q) cands
         /\ find_item name max_results fuzzy_threshold w
            = Ret [("ok", VBool true); ("query", VStr (PyStr.strip name));
                   ("roots", VList (map (fun r => VStr (path_str r)) roots));
                   ("results",
                    VList (map candidate_dict
                             (py_slice_to max_results (sort_desc cands))));
                   ("fuzzy_threshold", VFloat fuzzy_threshold)] w).
  { remember (find_item name max_results fuzzy_threshold w) as out eqn:Eout.
    unfold find_item in Eout. cbv zeta in Eout.
    destruct (String.eqb_spec (PyStr.strip name) "") as [|_]; [contradiction|].
    unfold bind at 1, get_cwd in Eout.
    destruct (cwd w) as [c|] eqn:Hc; [|left; subst out; auto].
    unfold bind at 1, get_home in Eout.
    destruct (home w) as [h|] eqn:Hh; [|left; subst out; auto].
    unfold bind at 1 in Eout.
    destruct (home_roots_ret h ["Downloads"; "Documents"; "Desktop"] w) as [subs Hsubs].
    rewrite Hsubs in Eout. unfold bind at 1 in Eout.
    destruct (scan_roots_ret (PyStr.strip name) fuzzy_threshold
                (unique_roots [] (c :: subs)) [] w) as (cands & Hcands & F).
    rewrite Hcands in Eout.
    right. exists (unique_roots [] (c :: subs)), cands. split; [|exact Eout].
    apply F. constructor. }
  destruct Hout as [[Hnone Hr]|(roots & cands & F & ->)].
  - split.
    + intros Hc Hh. destruct Hnone; contradiction.
    + intros r w' E. rewrite E in Hr. discriminate.
  - split; [reflexivity|].
    intros r w' [= <- <-]. split; [reflexivity|]. split; [reflexivity|].
    exists (py_slice_to max_results (sort_desc cands)).
    split; [reflexivity|]. split; [intros Hmax; now apply py_slice_to_length|].
    unfold py_slice_to. destruct (0 <=? max_results)%Z; split;
      solve [now apply Forall_take, sort_desc_Forall
            | apply firstn_sorted, sort_desc_sorted].
Qed.

End WithOS.

Import Demo.

(** Witness of [find_item_results]: the search for "a" with at most one
    result in the example world. *)
Lemma find_item_results_witness :
  (0 <= 1)%Z /\ PyStr.strip "a" <> ""
  /\ exists r,
       find_item "a" 1 (6 # 10) demo_world = Ret r demo_world
       /\ dict_get "ok" r = Some (VBool true)
       /\ exists results,
            dict_get "results" r = Some (VList (map candidate_dict results))
            /\ (Z.of_nat (length results) <= 1)%Z
            /\ Forall (fun c => (6 # 10 <= match_score c)%Q) results
            /\ non_increasing results.
Proof.
  assert (H0 : (0 <= 1)%Z) by lia.
  assert (Hn : PyStr.strip "a" <> "") by (vm_compute; discriminate).
  destruct (find_item_results "a" 1 (6 # 10) demo_world) as [_ Hres].
  destruct (Hres Hn) as [Hret Hall].
  split; [exact H0|]. split; [exact Hn|].
  destruct (find_item "a" 1 (6 # 10) demo_world) as [r w'|e w'] eqn:E.
  - destruct (Hall r w' eq_refl) as (-> & Hok & results & Hres1 & Hlen & Hrest).
    exists r. split; [reflexivity|]. split; [exact Hok|].
    exists results. split; [exact Hres1|]. split; [exact (Hlen H0) | exact Hrest].
  - exfalso. assert (Hf : false = true) by (apply Hret; discriminate).
    discriminate Hf.
Defined.

(** C3 as stated fails for a negative [max_results]: the slice
    [candidates[:-1]] drops the last of the two matches and keeps one, which
    is more than -1 entries. *)
Lemma find_item_negative_max_results :
  find_item "a" (-1) (6 # 10) demo_world
  = Ret [("ok", VBool true); ("query", VStr "a");
         ("roots", VList [VStr "/work"]);
         ("results",
          VList (map candidate_dict
                   [mkCandidate "/work/ab.txt" "/work" false (Some 5%Z) (95 # 100)]));
         ("fuzzy_threshold", VFloat (6 # 10))] demo_world
  /\ ~ (Z.of_nat (length [mkCandidate "/work/ab.txt" "/work" false (Some 5%Z) (95 # 100)])
        <= -1)%Z.
Proof. split; [vm_compute; reflexivity | simpl; lia]. Qed.

(** C6.  The score can exceed 1: for a query that is the stem of the file
    name plus one character, the ratio against the stem is 32/33, and the
    preference factor 1.05 lifts it to 56/55, although the two names differ
    also when case is ignored. *)
Theorem fuzzy_score_above_one :
  PyStr.lower "quarterly_report1" <> PyStr.lower "quarterly_report.pdf"
  /\ (Difflib.ratio "quarterly_report1" "quarterly_report" == 32 # 33)%Q
  /\ (Fuzzy._fuzzy_match_score "quarterly_report1" "quarterly_report.pdf" == 56 # 55)%Q
  /\ (1 < Fuzzy._fuzzy_match_score "quarterly_report1" "quarterly_report.pdf")%Q.
Proof.
  split; [vm_compute; discriminate|].
  split; [vm_compute; reflexivity|].
  split; vm_compute; reflexivity.
Qed.

(** [yields_ok m]: every dictionary that [m] returns has the key ["ok"]. *)
Definition yields_ok (m : M World dict) : Prop :=
  forall w r w', m w = Ret r w' -> dict_has "ok" r = true.

Lemma yields_ok_ret (d : dict) : dict_has "ok" d = true -> yields_ok (ret d).
Proof. intros Hd w r w' [= <- <-]. exact Hd. Qed.

Lemma yields_ok_bind {A} (m : M World A) (k : A -> M World dict) :
  (forall a, yields_ok (k a)) -> yields_ok (bind m k).
Proof.
  intros Hk w r w'. unfold bind. destruct (m w) as [a w1|e w1]; [|discriminate].
  apply Hk.
Qed.

Lemma yields_ok_try (body : M World dict) catches handler :
  yields_ok body -> (forall e, yields_ok (handler e)) ->
  yields_ok (try_except body catches handler).
Proof.
  intros Hb Hh w r w'. unfold try_except.
  destruct (body w) as [a w1|e w1] eqn:E.
  - intros [= <- <-]. exact (Hb _ _ _ E).
  - destruct (catches e); [apply Hh | discriminate].
Qed.

Lemma try_except_any_returns {A} (body : M World A) handler (w : World) :
  (forall e w1, returns (handler e w1) = true) ->
  returns (try_except body any_Exception handler w) = true.
Proof.
  intros Hh. unfold try_except, any_Exception.
  destruct (body w); [reflexivity | apply Hh].
Qed.

Ltac yields_ok_step :=
  first
    [ progress cbv zeta
    | apply yields_ok_ret; reflexivity
    | apply yields_ok_try; [|intros]
    | apply yields_ok_bind; intros
    | match goal with
      | |- yields_ok (if ?b then _ else _) => destruct b
      | |- yields_ok (match ?x with _ => _ end) => destruct x
      end ].

Section Exceptions.
Context `{PyLib} `{OS} `{ToolBodies}.

Lemma modelled_tools_yield_ok :
  (forall command, yields_ok (run_shell command))
  /\ (forall path max_bytes, yields_ok (read_file path max_bytes))
  /\ (forall path content mode, yields_ok (write_file path content mode))
  /\ (forall source destination, yields_ok (copy_file source destination))
  /\ (forall name max_results threshold, yields_ok (find_item name max_results threshold)).
Proof.
  repeat split; intros.
  - unfold run_shell. repeat yields_ok_step.
  - unfold read_file. repeat yields_ok_step.
  - unfold write_file. repeat yields_ok_step.
  - unfold copy_file. repeat yields_ok_step.
  - unfold find_item. cbv zeta. repeat yields_ok_step.
Qed.

(** C7.  The ten tools whose body is one [try ... except Exception] never
    raise: whatever fails inside comes back as a dictionary, and the
    dictionaries that [run_shell], [read_file], [write_file], [copy_file]
    and [find_item] return have the key ["ok"].  But [find_item] asks for
    the working directory before any [try], and [summarize_file] calls
    [find_item] before any [try]: when the working directory of the process
    has been removed, both raise [FileNotFoundError] to the caller instead
    of returning a dictionary with ["ok"] set to [False]. *)
Theorem tools_exceptions_reach_caller_of_find_item :
  (forall command, yields_ok (run_shell command))
  /\ (forall path max_bytes, yields_ok (read_file path max_bytes))
  /\ (forall path content mode, yields_ok (write_file path content mode))
  /\ (forall source destination, yields_ok (copy_file source destination))
  /\ (forall name max_results threshold, yields_ok (find_item name max_results threshold))
  /\ (forall command w, returns (run_shell command w) = true)
  /\ (forall path max_bytes w, returns (read_file path max_bytes w) = true)
  /\ (forall path content mode w, returns (write_file path content mode w) = true)
  /\ (forall source destination w, returns (copy_file source destination w) = true)
  /\ (forall path show_hidden pattern w,
        returns (list_directory path show_hidden pattern w) = true)
  /\ (forall query path file_pattern max_results case_sensitive w,
        returns (search_content query path file_pattern max_results case_sensitive w) = true)
  /\ (forall path w, returns (get_file_info path w) = true)
  /\ (forall source destination w, returns (move_file source destination w) = true)
  /\ (forall file1 file2 context_lines w,
        returns (compare_files file1 file2 context_lines w) = true)
  /\ (forall archive_path destination w,
        returns (extract_archive archive_path destination w) = true)
  /\ find_item "notes" 20 (6 # 10) lost_cwd_world
     = Raise (mkExn FileNotFoundError "[Errno 2] No such file or directory") lost_cwd_world
  /\ summarize_file "notes" 10000 lost_cwd_world
     = Raise (mkExn FileNotFoundError "[Errno 2] No such file or directory") lost_cwd_world.
Proof.
  destruct modelled_tools_yield_ok as (Y1 & Y2 & Y3 & Y4 & Y5).
  repeat match goal with |- _ /\ _ => split end;
    try assumption;
    try (intros; apply try_except_any_returns; intros; reflexivity).
  - reflexivity.
  - reflexivity.
Qed.

End Exceptions.

Import HostFacts PyFacts.

Section Files.
Context `{PyLib} `{OS}.

(** What [read_file] returns once the path is normalized. *)
Lemma read_file_eq (path : string) (max_bytes : Z) (w : World) (p : Host.path) :
  _normalize_path path w = Ret p w ->
  read_file path max_bytes w
  = match node_at w p with
    | Some (File data) =>
        Ret [("ok", VBool true); ("path", VStr (path_str p));
             ("content", VStr (utf8_decode (py_slice_to max_bytes data)));
             ("truncated", VBool (max_bytes <? Z.of_nat (length data))%Z)] w
    | Some Dir =>
        Ret (error_dict
               (exn_msg (errno IsADirectoryError "[Errno 21] Is a directory" p))) w
    | None =>
        Ret (error_dict
               (match key_of w p with
                | inr NotADirectoryError =>
                    exn_msg (errno NotADirectoryError "[Errno 20] Not a directory" p)
                | _ => "file not found: " ++ path
                end)) w
    end.
Proof.
  intros Hnorm. unfold read_file, try_except. unfold bind at 1. rewrite Hnorm.
  unfold bind at 1, read_bytes, lookup_error.
  destruct (node_at w p) as [[data|]|]; [reflexivity | reflexivity |].
  destruct (key_of w p) as [k|[]]; reflexivity.
Qed.


(** The world after the parent directory of [p] was made, if it was
    missing. *)
Definition after_mkdir (w : World) (p : Host.path) : World :=
  if exists_ w (parent p) then w else final_state (mkdir_parents (parent p) w).

Lemma after_mkdir_stored_le (w : World) (p : Host.path) : stored_le w (after_mkdir w p).
Proof.
  unfold after_mkdir. destruct (exists_ w (parent p)); [apply stored_le_refl|].
  apply mkdir_parents_stored_le.
Qed.


Lemma after_mkdir_env (w : World) (p : Host.path) :
  cwd (after_mkdir w p) = cwd w /\ home (after_mkdir w p) = home w.
Proof.
  unfold after_mkdir. destruct (exists_ w (parent p)); [auto|]. apply mkdir_parents_env.
Qed.

Lemma after_mkdir_preserves (w : World) (p q : Host.path) (n : node) :
  node_at w q = Some n -> node_at (after_mkdir w p) q = Some n.
Proof. apply node_at_le, after_mkdir_stored_le. Qed.

(** The bytes of a file that is to be written: none when nothing or a
    directory is there. *)
Definition old_bytes (before : option node) : list byte :=
  match before with Some (File d) => d | _ => [] end.

(** What a write leaves in the file. *)
Definition written_bytes (append : bool) (before : option node) (data : list byte)
  : list byte :=
  ((if append then old_bytes before else []) ++ data)%list.

(** The result of a [write_file] that succeeds, [before] being what was at
    the place written. *)
Definition write_result (append : bool) (mode : string) (p : Host.path)
    (before : option node) (data : list byte) : dict :=
  [("ok", VBool true); ("path", VStr (path_str p));
   ("mode", VStr (if append then mode else "overwrite"));
   ("existed_before", VBool (match before with Some _ => true | None => false end));
   ("bytes_before", VInt (Z.of_nat (length (old_bytes before))));
   ("bytes_after", VInt (Z.of_nat (length (written_bytes append before data))))].

(** What [write_file] does once the path is normalized: it fails with an
    error dictionary, or it writes at the place [k] that the path leads to
    and reports. *)
Lemma write_file_cases (path content mode : string) (w : World) (p : Host.path) :
  _normalize_path path w = Ret p w ->
  let append := String.eqb mode "append" in
  let w1 := after_mkdir w p in
  (exists msg, write_file path content mode w = Ret (error_dict msg) w1
               /\ (exists_ w (parent p) = false \/ check_writable p w1 <> None))
  \/ (exists k,
        key_of w1 p = inl k /\ stored w1 k <> Some Dir
        /\ write_file path content mode w
           = Ret (write_result append mode p (stored w1 k) (utf8_encode content))
               (set_fs w1 (<[k := File (written_bytes append (stored w1 k)
                                          (utf8_encode content))]> (fs w1)))).
Proof.
  intros Hnorm append w1. unfold write_file.
  match goal with
  | |- context [try_except ?b _ ?h] => set (body := b); set (handler := h)
  end.
  assert (Hbody :
    (exists msg, body w = Ret (error_dict msg) w1 /\ exists_ w (parent p) = false)
    \/ (exists e, body w = Raise e w1 /\ check_writable p w1 = Some e)
    \/ (exists k,
          key_of w1 p = inl k /\ stored w1 k <> Some Dir
          /\ body w
             = Ret (write_result append mode p (stored w1 k) (utf8_encode content))
                 (set_fs w1 (<[k := File (written_bytes append (stored w1 k)
                                            (utf8_encode content))]> (fs w1))))).
  { subst body. rewrite (bind_Ret _ _ _ _ _ Hnorm). cbv zeta.
    rewrite (bind_Ret _ _ w w (exists_ w (parent p))) by reflexivity.
    match goal with
    | |- context [bind _ ?k w] => set (rest := k)
    end.
    assert (Hrest :
      (exists e, rest None w1 = Raise e w1 /\ check_writable p w1 = Some e)
      \/ (exists k,
            key_of w1 p = inl k /\ stored w1 k <> Some Dir
            /\ rest None w1
               = Ret (write_result append mode p (stored w1 k) (utf8_encode content))
                   (set_fs w1 (<[k := File (written_bytes append (stored w1 k)
                                              (utf8_encode content))]> (fs w1))))).
    { subst rest. cbv beta iota.
      rewrite (bind_Ret _ _ w1 w1 (exists_ w1 p)) by reflexivity.
      assert (Hsize :
        (if exists_ w1 p then stat_size p else ret 0%Z) w1
        = Ret (match node_at w1 p with
               | Some (File d) => Z.of_nat (length d)
               | Some Dir => dir_st_size
               | None => 0%Z
               end) w1).
      { unfold exists_, stat_size, ret.
        destruct (node_at w1 p) as [[]|] eqn:En; rewrite ?En; reflexivity. }
      rewrite (bind_Ret _ _ _ _ _ Hsize).
      destruct (check_writable p w1) as [e|] eqn:Hcw.
      { left. exists e. split; [|reflexivity].
        apply bind_Raise. now apply write_bytes_fails. }
      right. apply check_writable_None in Hcw. destruct Hcw as (k & Hk & Hnd).
      exists k. split; [exact Hk|]. split; [exact Hnd|].
      rewrite (bind_Ret _ _ _ _ _ (write_bytes_eq append p _ w1 k Hk Hnd)).
      erewrite bind_Ret;
        [|unfold stat_size; rewrite (node_at_written_self w1 p k _ Hk Hnd); reflexivity].
      unfold ret, exists_, write_result, written_bytes, old_bytes.
      rewrite (node_at_key w1 p k Hk).
      destruct (stored w1 k) as [[d|]|]; [reflexivity | congruence | reflexivity]. }
    subst w1. unfold after_mkdir in *.
    destruct (exists_ w (parent p)) eqn:Hpe; cbn [negb].
    - rewrite (bind_Ret _ _ w w None) by reflexivity.
      destruct Hrest as [[e He]|Hok]; eauto.
    - destruct (mkdir_parents (parent p) w) as [[] w1|e w1] eqn:Hmk; cbn [final_state] in *.
      + erewrite bind_Ret;
          [|eapply try_Ret; erewrite bind_Ret; [reflexivity | exact Hmk]].
        destruct Hrest as [[e He]|Hok]; eauto.
      + erewrite bind_Ret;
          [|erewrite try_Raise; [reflexivity | apply bind_Raise; exact Hmk]].
        left. eexists. split; reflexivity. }
  destruct Hbody as [(msg & Hb & Hpe)|[(e & Hb & Hcw)|(k & Hk & Hnd & Hb)]].
  - left. exists msg. split; [now apply try_Ret | now left].
  - left. exists (exn_msg e). split; [now rewrite (try_Raise _ _ _ _ _ _ Hb)|].
    right. congruence.
  - right. exists k. split; [exact Hk|]. split; [exact Hnd|]. now apply try_Ret.
Qed.


(** The destination that [copy_file] settles on: inside [dst] under the
    name of the source when [dst] is an existing directory. *)
Definition copy_target (w : World) (src dst : Host.path) : Host.path :=
  if exists_ w dst && is_dir w dst then join_part dst (name src) else dst.

(** Where [shutil.copy2] writes, in the world [w1] in which it runs: inside
    the destination when that is a directory by then. *)
Definition landing (w1 : World) (src target : Host.path) : Host.path :=
  if is_dir w1 target then joinpath target (name src) else target.

(** What [copy_file] does once both paths are normalized: it refuses and
    leaves the world alone, or the three checks pass and it goes on to make
    the parent directory and to copy to the place [k]. *)
Lemma copy_file_cases (source destination : string) (w : World) (src dst : Host.path) :
  _normalize_path source w = Ret src w ->
  _normalize_path destination w = Ret dst w ->
  let target := copy_target w src dst in
  let w1 := final_state (mkdir_parents (parent target) w) in
  (exists msg, copy_file source destination w = Ret (error_dict msg) w)
  \/ (exists_ w src = true /\ is_dir w src = false /\ exists_ w target = false
      /\ ((exists msg, copy_file source destination w = Ret (error_dict msg) w1)
          \/ exists d k,
               node_at w src = Some (File d)
               /\ key_of w1 (landing w1 src target) = inl k
               /\ stored w1 k <> Some Dir
               /\ copy_file source destination w
                  = Ret [("ok", VBool true); ("source", VStr (path_str src));
                         ("destination", VStr (path_str target));
                         ("size", VInt (if is_dir w1 target then dir_st_size
                                        else Z.of_nat (length d)));
                         ("message", VStr "File copied successfully")]
                        (set_fs w1 (<[k := File d]> (fs w1))))).
Proof.
  intros Hsrc Hdst target w1. unfold copy_file.
  match goal with
  | |- context [try_except ?b _ ?h] => set (body := b); set (handler := h)
  end.
  assert (Hbody :
    (exists msg, body w = Ret (error_dict msg) w)
    \/ (exists_ w src = true /\ is_dir w src = false /\ exists_ w target = false
        /\ ((exists e, body w = Raise e w1)
            \/ exists d k,
                 node_at w src = Some (File d)
                 /\ key_of w1 (landing w1 src target) = inl k
                 /\ stored w1 k <> Some Dir
                 /\ body w
                    = Ret [("ok", VBool true); ("source", VStr (path_str src));
                           ("destination", VStr (path_str target));
                           ("size", VInt (if is_dir w1 target then dir_st_size
                                          else Z.of_nat (length d)));
                           ("message", VStr "File copied successfully")]
                          (set_fs w1 (<[k := File d]> (fs w1)))))).
  { subst body. rewrite (bind_Ret _ _ _ _ _ Hsrc), (bind_Ret _ _ _ _ _ Hdst).
    rewrite (bind_Ret _ _ w w (exists_ w src)) by reflexivity.
    destruct (exists_ w src) eqn:Hse; cbn [negb]; [|left; eexists; reflexivity].
    rewrite (bind_Ret _ _ w w (is_dir w src)) by reflexivity.
    destruct (is_dir w src) eqn:Hsd; [left; eexists; reflexivity|].
    rewrite (bind_Ret _ _ w w (exists_ w dst)) by reflexivity.
    rewrite (bind_Ret _ _ w w (is_dir w dst)) by reflexivity.
    cbv zeta. fold (copy_target w src dst). fold target.
    rewrite (bind_Ret _ _ w w (exists_ w target)) by reflexivity.
    destruct (exists_ w target) eqn:Hte; [left; eexists; reflexivity|].
    right. repeat split.
    assert (Hd : exists d, node_at w src = Some (File d)).
    { unfold exists_ in Hse. unfold is_dir in Hsd.
      destruct (node_at w src) as [[d|]|]; try discriminate. eauto. }
    destruct Hd as [d Hd].
    subst w1. destruct (mkdir_parents (parent target) w) as [[] w1|e w1] eqn:Hmk;
      cbn [final_state].
    2:{ left. exists e. now apply bind_Raise. }
    rewrite (bind_Ret _ _ _ _ _ Hmk).
    assert (Hsrc1 : node_at w1 src = Some (File d)).
    { pose proof (mkdir_parents_preserves (parent target) w src (File d) Hd) as Hp.
      now rewrite Hmk in Hp. }
    assert (Hcopy : exists e,
              copy2 src target w1
              = if samefile w1 src (landing w1 src target) then Raise e w1
                else write_bytes false (landing w1 src target) d w1).
    { eexists. unfold copy2, landing, read_bytes. cbv zeta. now rewrite Hsrc1. }
    destruct Hcopy as [same Hcopy].
    destruct (samefile w1 src (landing w1 src target)).
    { left. eexists. apply bind_Raise. exact Hcopy. }
    destruct (check_writable (landing w1 src target) w1) as [e|] eqn:Hcw.
    { left. exists e. apply bind_Raise. rewrite Hcopy. now apply write_bytes_fails. }
    apply check_writable_None in Hcw. destruct Hcw as (k & Hk & Hnd).
    right. exists d, k. split; [exact Hd|]. split; [exact Hk|]. split; [exact Hnd|].
    rewrite (write_bytes_eq false _ d w1 k Hk Hnd) in Hcopy. cbn [app] in Hcopy.
    rewrite (bind_Ret _ _ _ _ _ Hcopy).
    assert (Hsize : stat_size target (set_fs w1 (<[k := File d]> (fs w1)))
                    = Ret (if is_dir w1 target then dir_st_size else Z.of_nat (length d))
                        (set_fs w1 (<[k := File d]> (fs w1)))).
    { unfold stat_size. unfold landing in Hk. unfold is_dir in *.
      destruct (node_at w1 target) as [[dd|]|] eqn:Et.
      - now rewrite (node_at_written_self w1 target k d Hk Hnd).
      - unfold node_at in Et. destruct (key_of w1 target) as [kt|e] eqn:Ekt; [|discriminate].
        rewrite (node_at_written_other w1 target k kt d Hnd Ekt) by congruence.
        unfold node_at. now rewrite Ekt, Et.
      - now rewrite (node_at_written_self w1 target k d Hk Hnd). }
    rewrite (bind_Ret _ _ _ _ _ Hsize). reflexivity. }
  destruct Hbody as [[msg Hb]|(Hse & Hsd & Hte & [[e Hb]|(d & k & Hd & Hk & Hnd & Hb)])].
  - left. exists msg. now apply try_Ret.
  - right. repeat split; try assumption. left. eexists.
    rewrite (try_Raise _ _ _ _ _ _ Hb). reflexivity.
  - right. repeat split; try assumption. right. exists d, k.
    split; [exact Hd|]. split; [exact Hk|]. split; [exact Hnd | now apply try_Ret].
Qed.

(** What [copy_file] does keep of its promise not to overwrite.  With both
    paths normalized and the destination resolved (the source's name inside
    it when it is a directory): if the resolved destination exists,
    [copy_file] returns [ok = False] with an error and changes nothing; if
    the resolved destination has no [..] in it, then whatever the outcome,
    every file or directory that existed keeps its content; and a reported
    success means that the source existed, was not a directory, the
    resolved destination did not exist, and the bytes of the source are now
    at the destination (or inside it). *)
Lemma copy_file_guarantee (source destination : string) (w : World)
    (src dst : Host.path) :
  _normalize_path source w = Ret src w ->
  _normalize_path destination w = Ret dst w ->
  (exists_ w (copy_target w src dst) = true ->
   exists msg, copy_file source destination w = Ret (error_dict msg) w)
  /\ (Forall (fun c => c <> "..") (copy_target w src dst) ->
      forall q n,
        node_at w q = Some n ->
        node_at (final_state (copy_file source destination w)) q = Some n)
  /\ (forall r w',
        copy_file source destination w = Ret r w' ->
        dict_get "ok" r = Some (VBool true) ->
        exists_ w src = true /\ is_dir w src = false
        /\ exists_ w (copy_target w src dst) = false
        /\ exists d,
             node_at w src = Some (File d)
             /\ (node_at w' (copy_target w src dst) = Some (File d)
                 \/ node_at w' (joinpath (copy_target w src dst) (name src))
                    = Some (File d))).
Proof.
  intros Hsrc Hdst.
  pose proof (copy_file_cases source destination w src dst Hsrc Hdst) as Hc.
  cbv zeta in Hc. set (target := copy_target w src dst) in *.
  set (w1 := final_state (mkdir_parents (parent target) w)) in *.
  assert (Hkeep : forall q n, node_at w q = Some n -> node_at w1 q = Some n).
  { intros q n Hq. now apply mkdir_parents_preserves. }
  split; [|split].
  - intros Hex. destruct Hc as [Hc|(_ & _ & Hte & _)]; [exact Hc | congruence].
  - intros Hplain q n Hq.
    destruct Hc as [[msg ->]|(_ & _ & Hte & [[msg ->]|(d & k & Hd & Hk & Hnd & ->)])];
      cbn [final_state]; auto.
    assert (Hq1 : node_at w1 q = Some n) by auto.
    unfold node_at in Hq. destruct (key_of w q) as [kq|e] eqn:Ekq; [|discriminate].
    assert (Ekq1 : key_of w1 q = inl kq).
    { apply (key_of_dirs_le w w1); [|exact Ekq].
      apply stored_le_dirs, mkdir_parents_stored_le. }
    rewrite (node_at_written_other w1 q k kq d Hnd Ekq1); [exact Hq1|].
    intros ->.
    (* the place written is the landing path itself, which did not exist *)
    assert (Hland : Forall (fun c => c <> "..") (landing w1 src target)).
    { unfold landing. destruct (is_dir w1 target); [|exact Hplain].
      apply Forall_app. split; [exact Hplain|]. constructor; [|constructor].
      exact (file_name_no_dots w src d Hd). }
    pose proof (key_of_plain w1 _ k Hland Hk) as ->.
    pose proof (key_of_idem w q _ Ekq) as Hself.
    assert (Hvis : node_at w (landing w1 src target) = Some n)
      by (now rewrite (node_at_key w _ _ Hself)).
    unfold landing in Hvis. unfold exists_ in Hte.
    destruct (is_dir w1 target).
    + apply node_at_parent in Hvis; [|now destruct target].
      unfold joinpath, parent in Hvis. rewrite removelast_last in Hvis.
      now rewrite Hvis in Hte.
    + now rewrite Hvis in Hte.
  - intros r w' E Hok.
    destruct Hc as [[msg Hm]|(Hse & Hsd & Hte & [[msg Hm]|(d & k & Hd & Hk & Hnd & Hm)])];
      rewrite Hm in E; injection E as <- <-; try discriminate Hok.
    repeat split; try assumption. exists d. split; [exact Hd|].
    pose proof (node_at_written_self w1 _ k d Hk Hnd) as Hw.
    unfold landing in Hw. destruct (is_dir w1 target); [now right | now left].
Qed.

End Files.



(** Nothing exists at [a.txt/x], a path through the regular file [a.txt]:
    [read_bytes] raises [NotADirectoryError], which is no
    [FileNotFoundError], and the error is the text of the system; at
    [missing.txt] it is "file not found". *)
Example read_file_through_a_file :
  exists_ demo_world ["work"; "a.txt"; "x"] = false
  /\ read_file "a.txt/x" 10 demo_world
     = Ret (error_dict "[Errno 20] Not a directory: '/work/a.txt/x'") demo_world
  /\ read_file "missing.txt" 10 demo_world
     = Ret (error_dict "file not found: missing.txt") demo_world.
Proof. repeat split; vm_compute; reflexivity. Qed.


(** The same through [..]: in the home directory, "downloads/../n.txt"
    leads to the existing [/home/u/n.txt] once [Downloads] has been made,
    and [write_file] reports the three bytes that were there. *)
Example write_file_through_dotdot :
  exists w',
    write_file "downloads/../n.txt" "hi" "overwrite" home_world
    = Ret [("ok", VBool true); ("path", VStr "/home/u/Downloads/../n.txt");
           ("mode", VStr "overwrite"); ("existed_before", VBool true);
           ("bytes_before", VInt 3); ("bytes_after", VInt 2)] w'
    /\ node_at w' ["home"; "u"; "n.txt"] = Some (File (bytes "hi")).
Proof. eexists. split; vm_compute; reflexivity. Qed.

(** C8 fails of the code.  [copy_file] asks whether the destination exists
    before it makes the missing directories on the way to it.  With
    [~/Downloads/n.txt] present and no [~/Downloads/x], nothing is found at
    "downloads/x/../n.txt"; [mkdir] then makes [x], the path now leads to
    [n.txt], and the copy replaces its content.  What does hold, for every
    world and every pair of paths: an existing resolved destination is
    refused with the world unchanged; a resolved destination without [..]
    is never overwritten (everything that existed keeps its content); and
    a reported success means that the source was a file, the resolved
    destination did not exist, and the bytes are now at it or inside it. *)
Theorem copy_file_overwrites_behind_a_missing_directory :
  (node_at downloads_world ["home"; "u"; "Downloads"; "n.txt"] = Some (File (bytes "old"))
   /\ _normalize_path "downloads/x/../n.txt" downloads_world
      = Ret ["home"; "u"; "Downloads"; "x"; ".."; "n.txt"] downloads_world
   /\ exists_ downloads_world ["home"; "u"; "Downloads"; "x"; ".."; "n.txt"] = false
   /\ exists w',
        copy_file "a.txt" "downloads/x/../n.txt" downloads_world
        = Ret [("ok", VBool true); ("source", VStr "/work/a.txt");
               ("destination", VStr "/home/u/Downloads/x/../n.txt");
               ("size", VInt 3); ("message", VStr "File copied successfully")] w'
        /\ node_at w' ["home"; "u"; "Downloads"; "n.txt"] = Some (File (bytes "abc")))
  /\ forall (os : OS) (source destination : string) (w : World) (src dst : Host.path),
       _normalize_path source w = Ret src w ->
       _normalize_path destination w = Ret dst w ->
       (exists_ w (copy_target w src dst) = true ->
        exists msg, copy_file source destination w = Ret (error_dict msg) w)
       /\ (Forall (fun c => c <> "..") (copy_target w src dst) ->
           forall q n,
             node_at w q = Some n ->
             node_at (final_state (copy_file source destination w)) q = Some n)
       /\ (forall r w',
             copy_file source destination w = Ret r w' ->
             dict_get "ok" r = Some (VBool true) ->
             exists_ w src = true /\ is_dir w src = false
             /\ exists_ w (copy_target w src dst) = false
             /\ exists d,
                  node_at w src = Some (File d)
                  /\ (node_at w' (copy_target w src dst) = Some (File d)
                      \/ node_at w' (joinpath (copy_target w src dst) (name src))
                         = Some (File d))).
Proof.
  split.
  - split; [vm_compute; reflexivity|]. split; [vm_compute; reflexivity|].
    split; [vm_compute; reflexivity|].
    eexists. split; vm_compute; reflexivity.
  - intros os source destination w src dst. apply copy_file_guarantee.
Qed.

End ToolsFacts.

(** * Further properties of the code *)

(** ** Tools that only read *)

Module ReadOnlyFacts.
Import Py Host Tools PyFacts.

(** [readonly m]: whatever the outcome, [m] leaves the world as it was. *)
Definition readonly {A} (m : M World A) : Prop :=
  forall w, final_state (m w) = w.

Lemma readonly_ret {A} (a : A) : readonly (ret a).
Proof. intros w. reflexivity. Qed.

Lemma readonly_raise {A} e : readonly (raise (A := A) e).
Proof. intros w. reflexivity. Qed.

Lemma readonly_bind {A B} (m : M World A) (k : A -> M World B) :
  readonly m -> (forall a, readonly (k a)) -> readonly (bind m k).
Proof.
  intros Hm Hk w. unfold bind. specialize (Hm w).
  destruct (m w) as [a w1|e w1]; simpl in Hm; subst w1; [apply Hk | reflexivity].
Qed.

Lemma readonly_try {A} (body : M World A) catches handler :
  readonly body -> (forall e, readonly (handler e)) ->
  readonly (try_except body catches handler).
Proof.
  intros Hb Hh w. unfold try_except. specialize (Hb w).
  destruct (body w) as [a w1|e w1]; simpl in Hb; subst w1; [reflexivity|].
  destruct (catches e); [apply Hh | reflexivity].
Qed.

Lemma readonly_get_cwd : readonly get_cwd.
Proof. intros w. unfold get_cwd. now destruct (cwd w). Qed.

Lemma readonly_get_home : readonly get_home.
Proof. intros w. unfold get_home. now destruct (home w). Qed.

Lemma readonly_read_bytes p : readonly (read_bytes p).
Proof. intros w. unfold read_bytes. now destruct (node_at w p) as [[]|]. Qed.

Lemma readonly_stat_size `{OS} p : readonly (stat_size p).
Proof. intros w. unfold stat_size. now destruct (node_at w p) as [[]|]. Qed.

Ltac readonly_step :=
  first
    [ progress cbv zeta
    | apply readonly_ret
    | apply readonly_raise
    | apply readonly_get_cwd
    | apply readonly_get_home
    | apply readonly_read_bytes
    | apply readonly_stat_size
    | apply readonly_try; [|intros]
    | apply readonly_bind; [|intros]
    | match goal with
      | |- readonly (if ?b then _ else _) => destruct b
      | |- readonly (match ?x with _ => _ end) => destruct x
      | |- readonly (path_exists _) => intros ?; reflexivity
      | |- readonly (path_is_dir _) => intros ?; reflexivity
      | |- readonly (path_is_file _) => intros ?; reflexivity
      | |- readonly get => intros ?; reflexivity
      end ].

Section WithHost.
Context `{PyLib} `{OS} `{ToolBodies}.

Lemma readonly_resolve (p : string) : readonly (resolve p).
Proof. unfold resolve. repeat readonly_step. Qed.

Lemma readonly_normalize_path (path : string) : readonly (_normalize_path path).
Proof.
  unfold _normalize_path. cbv zeta.
  apply readonly_bind; [apply readonly_get_home|]. intros home.
  match goal with |- readonly (match ?x with _ => _ end) => destruct x end;
    [apply readonly_ret | apply readonly_resolve].
Qed.

Lemma readonly_home_roots home subs : readonly (home_roots home subs).
Proof. induction subs; simpl; repeat readonly_step. exact IHsubs. Qed.

Lemma readonly_scan_paths query threshold root paths acc :
  readonly (scan_paths query threshold root paths acc).
Proof.
  revert acc. induction paths as [|p rest IH]; intros acc; simpl.
  - apply readonly_ret.
  - destruct (Qle_bool _ _); [|apply IH].
    apply readonly_bind; [repeat readonly_step | intros; apply IH].
Qed.

Lemma readonly_scan_roots query threshold roots acc :
  readonly (scan_roots query threshold roots acc).
Proof.
  revert acc. induction roots as [|r rest IH]; intros acc; simpl.
  - apply readonly_ret.
  - apply readonly_bind; [intros ?; reflexivity | intros w].
    apply readonly_bind; [apply readonly_scan_paths | intros; apply IH].
Qed.

Lemma readonly_find_item name max_results threshold :
  readonly (find_item name max_results threshold).
Proof.
  unfold find_item. cbv zeta. destruct (String.eqb _ _); [apply readonly_ret|].
  apply readonly_bind; [apply readonly_get_cwd | intros c].
  apply readonly_bind; [apply readonly_get_home | intros h].
  apply readonly_bind; [apply readonly_home_roots | intros subs].
  apply readonly_bind; [apply readonly_scan_roots | intros; apply readonly_ret].
Qed.

(** X1.  Normalizing a path, reading a file and searching never change the
    machine: whatever the arguments and whether they succeed, fail or
    raise, the files, the working directory and the home directory are
    afterwards what they were; and [read_file] always returns. *)
Theorem reading_tools_leave_the_world_alone
    (path name : string) (max_bytes max_results : Z) (threshold : Q) (w : World) :
  final_state (_normalize_path path w) = w
  /\ final_state (read_file path max_bytes w) = w
  /\ returns (read_file path max_bytes w) = true
  /\ final_state (find_item name max_results threshold w) = w.
Proof.
  split; [apply readonly_normalize_path|]. split; [|split].
  - unfold read_file.
    apply readonly_try; [apply readonly_try|]; try (intros; apply readonly_ret).
    apply readonly_bind; [apply readonly_normalize_path | intros p].
    apply readonly_bind; [apply readonly_read_bytes | intros; apply readonly_ret].
  - apply ToolsFacts.try_except_any_returns. reflexivity.
  - apply readonly_find_item.
Qed.

End WithHost.

End ReadOnlyFacts.

(** ** Writing, then reading or appending *)

Module FileFacts.
Import Py Host Tools PyFacts HostFacts ToolsFacts Demo.

Section WithHost.
Context `{PyLib} `{OS}.

(** [_normalize_path] looks at the working directory and the home
    directory only, not at the files. *)
Lemma normalize_same_env (s : string) (w w' : World) (p : path) :
  cwd w' = cwd w -> home w' = home w ->
  _normalize_path s w = Ret p w -> _normalize_path s w' = Ret p w'.
Proof.
  intros Hc Hh.
  assert (Hhome : get_home w' = match home w with
                                | Some h => Ret h w'
                                | None => Raise (mkExn RuntimeError
                                            "Could not determine home directory.") w'
                                end)
    by (unfold get_home; now rewrite Hh).
  assert (Hcwd : get_cwd w' = match cwd w with
                              | Some c => Ret c w'
                              | None => Raise (mkExn FileNotFoundError
                                          "[Errno 2] No such file or directory") w'
                              end)
    by (unfold get_cwd; now rewrite Hc).
  assert (Hresolve : forall t, resolve t w = Ret p w -> resolve t w' = Ret p w').
  { intros t. unfold resolve.
    destruct (PyStr.startswith "/" t); [now intros [= <-]|].
    destruct (PyPath.components t) as [|first rest].
    - unfold bind. rewrite Hcwd. unfold get_cwd.
      destruct (cwd w); [now intros [= <-] | discriminate].
    - destruct (PyStr.startswith "~" first).
      + destruct (String.eqb first "~").
        * unfold bind. rewrite Hhome. unfold get_home.
          destruct (home w); [now intros [= <-] | discriminate].
        * destruct (user_home _); [now intros [= <-] | discriminate].
      + unfold bind. rewrite Hcwd. unfold get_cwd.
        destruct (cwd w); [now intros [= <-] | discriminate]. }
  unfold _normalize_path. cbv zeta. unfold bind. rewrite Hhome. unfold get_home.
  destruct (home w) as [h|]; [|discriminate].
  match goal with
  | |- context [match ?x with Some _ => _ | None => _ end] => destruct x
  end; [now intros [= <-] | apply Hresolve].
Qed.

(** X2.  [write_file] touches one file: once the path is normalized to
    [p], whatever the outcome, every file or directory that existed and is
    not the one that [p] leads to after the call keeps its content (the
    only other change is the making of missing parent directories), and
    the working directory and the home directory stay the same.  Two paths
    lead to the same file when they resolve, [..] followed, to the same
    place; for paths without [..] that is when they are equal. *)
Theorem write_file_changes_only_its_target (path content mode : string)
    (w : World) (p q : Host.path) (n : node) :
  _normalize_path path w = Ret p w ->
  key_of (final_state (write_file path content mode w)) q
  <> key_of (final_state (write_file path content mode w)) p ->
  node_at w q = Some n ->
  node_at (final_state (write_file path content mode w)) q = Some n
  /\ cwd (final_state (write_file path content mode w)) = cwd w
  /\ home (final_state (write_file path content mode w)) = home w.
Proof.
  intros Hnorm.
  pose proof (write_file_cases path content mode w p Hnorm) as Hc. cbv zeta in Hc.
  destruct (after_mkdir_env w p) as [Hcwd Hhome].
  destruct Hc as [(msg & -> & _)|(k & Hk & Hnd & ->)]; cbn [final_state]; intros Hne Hq.
  - split; [now apply after_mkdir_preserves | auto].
  - split; [|auto].
    pose proof (after_mkdir_preserves w p q n Hq) as Hq1.
    unfold node_at in Hq1.
    destruct (key_of (after_mkdir w p) q) as [kq|e] eqn:Ekq; [|discriminate].
    rewrite (proj2 (key_of_written _ k _ q kq Hnd) Ekq) in Hne.
    rewrite (proj2 (key_of_written _ k _ p k Hnd) Hk) in Hne.
    rewrite (node_at_written_other _ q k kq _ Hnd Ekq) by congruence.
    unfold node_at. now rewrite Ekq.
Qed.

(** For paths without [..], other files are those at other paths. *)
Lemma write_file_plain_frame (path content mode : string)
    (w : World) (p q : Host.path) (n : node) :
  _normalize_path path w = Ret p w ->
  Forall (fun c => c <> "..") p -> Forall (fun c => c <> "..") q ->
  q <> p ->
  node_at w q = Some n ->
  node_at (final_state (write_file path content mode w)) q = Some n.
Proof.
  intros Hnorm Fp Fq Hne Hq.
  pose proof (write_file_cases path content mode w p Hnorm) as Hc. cbv zeta in Hc.
  destruct Hc as [(msg & -> & _)|(k & Hk & Hnd & ->)]; cbn [final_state].
  - now apply after_mkdir_preserves.
  - pose proof (after_mkdir_preserves w p q n Hq) as Hq1.
    unfold node_at in Hq1.
    destruct (key_of (after_mkdir w p) q) as [kq|e] eqn:Ekq; [|discriminate].
    rewrite (node_at_written_other _ q k kq _ Hnd Ekq).
    + unfold node_at. now rewrite Ekq.
    + rewrite (key_of_plain _ q kq Fq Ekq), (key_of_plain _ p k Fp Hk). exact Hne.
Qed.

(** X3.  What was written can be read back: after a successful
    [write_file] in a mode other than "append", [read_file] of the same
    path with a [max_bytes] that is not negative returns the encoded
    content cut at [max_bytes] and decoded; with [max_bytes] at least the
    size that [write_file] reported, it is the whole content and
    [truncated] is [False]. *)
Theorem write_then_read (path content mode : string) (max_bytes : Z)
    (w w' : World) (p : Host.path) (r : dict) :
  _normalize_path path w = Ret p w ->
  mode <> "append" ->
  write_file path content mode w = Ret r w' ->
  dict_get "ok" r = Some (VBool true) ->
  (0 <= max_bytes)%Z ->
  read_file path max_bytes w'
  = Ret [("ok", VBool true); ("path", VStr (path_str p));
         ("content",
          VStr (utf8_decode (firstn (Z.to_nat max_bytes) (utf8_encode content))));
         ("truncated", VBool (max_bytes <? Z.of_nat (length (utf8_encode content)))%Z)] w'
  /\ (dict_get "bytes_after" r = Some (VInt (Z.of_nat (length (utf8_encode content)))))
  /\ ((Z.of_nat (length (utf8_encode content)) <= max_bytes)%Z ->
      firstn (Z.to_nat max_bytes) (utf8_encode content) = utf8_encode content
      /\ (max_bytes <? Z.of_nat (length (utf8_encode content)))%Z = false).
Proof.
  intros Hnorm Hmode Hw Hok Hmax.
  pose proof (write_file_cases path content mode w p Hnorm) as Hc. cbv zeta in Hc.
  destruct (after_mkdir_env w p) as [Hcwd Hhome].
  destruct Hc as [(msg & Hm & _)|(k & Hk & Hnd & Hres)].
  { rewrite Hm in Hw. injection Hw as <- <-. discriminate Hok. }
  rewrite Hres in Hw. injection Hw as <- <-.
  destruct (String.eqb_spec mode "append") as [|_]; [contradiction|].
  unfold write_result, written_bytes in *. cbn [app] in *.
  set (w2 := set_fs (after_mkdir w p) _).
  assert (Hnorm2 : _normalize_path path w2 = Ret p w2).
  { apply (normalize_same_env path w w2 p); [exact Hcwd | exact Hhome | exact Hnorm]. }
  rewrite (read_file_eq path max_bytes w2 p Hnorm2).
  subst w2. rewrite (node_at_written_self _ p k _ Hk Hnd).
  rewrite py_slice_to_nonneg by exact Hmax.
  split; [reflexivity|]. split; [reflexivity|].
  intros Hlen. split; [apply firstn_all2; lia | apply Z.ltb_ge; lia].
Qed.

(** X4.  Appending continues what was written: after a successful
    [write_file] of [content1] in a mode other than "append", a
    [write_file] of [content2] to the same path in mode "append" succeeds,
    the file then holds the bytes of [content1] followed by those of
    [content2], and the result reports that the file existed, with the size
    of [content1] before and the sum of both sizes after. *)
Theorem write_then_append (path content1 content2 mode : string)
    (w w1 : World) (p : Host.path) (r1 : dict) :
  _normalize_path path w = Ret p w ->
  mode <> "append" ->
  write_file path content1 mode w = Ret r1 w1 ->
  dict_get "ok" r1 = Some (VBool true) ->
  exists r2 w2,
    write_file path content2 "append" w1 = Ret r2 w2
    /\ dict_get "ok" r2 = Some (VBool true)
    /\ node_at w2 p = Some (File (utf8_encode content1 ++ utf8_encode content2)%list)
    /\ dict_get "mode" r2 = Some (VStr "append")
    /\ dict_get "existed_before" r2 = Some (VBool true)
    /\ dict_get "bytes_before" r2 = Some (VInt (Z.of_nat (length (utf8_encode content1))))
    /\ dict_get "bytes_after" r2
       = Some (VInt (Z.of_nat (length (utf8_encode content1 ++ utf8_encode content2)%list))).
Proof.
  intros Hnorm Hmode Hw Hok.
  pose proof (write_file_cases path content1 mode w p Hnorm) as Hc. cbv zeta in Hc.
  destruct (after_mkdir_env w p) as [Hcwd Hhome].
  destruct Hc as [(msg & Hm & _)|(k & Hk & Hnd & Hres)].
  { rewrite Hm in Hw. injection Hw as <- <-. discriminate Hok. }
  rewrite Hres in Hw. injection Hw as <- <-.
  destruct (String.eqb_spec mode "append") as [|_]; [contradiction|].
  unfold written_bytes in *. cbn [app] in *.
  set (w0 := after_mkdir w p) in *.
  set (w1 := set_fs w0 (<[k := File (utf8_encode content1)]> (fs w0))).
  assert (Hp : p <> []).
  { intros ->. injection Hk as <-. now apply Hnd. }
  assert (Hk1 : key_of w1 p = inl k) by (now apply key_of_written).
  assert (Hk0 : k <> []) by (intros ->; now apply Hnd).
  assert (Hst : stored w1 k = Some (File (utf8_encode content1)))
    by (now apply stored_insert_eq).
  assert (Hpar : exists_ w1 (parent p) = true).
  { unfold exists_.
    rewrite (node_at_parent w1 p (File (utf8_encode content1)) Hp); [reflexivity|].
    now rewrite (node_at_key w1 p k Hk1). }
  assert (Hnorm1 : _normalize_path path w1 = Ret p w1).
  { apply (normalize_same_env path w w1 p); [exact Hcwd | exact Hhome | exact Hnorm]. }
  assert (Hsame : after_mkdir w1 p = w1) by (unfold after_mkdir; now rewrite Hpar).
  pose proof (write_file_cases path content2 "append" w1 p Hnorm1) as Hc2.
  cbv zeta in Hc2. rewrite Hsame in Hc2.
  destruct Hc2 as [(msg & _ & [Hex|Hcw2])|(k2 & Hk2 & Hnd2 & Hres2)].
  - congruence.
  - exfalso. apply Hcw2. apply check_writable_None. exists k. split; [exact Hk1|].
    rewrite Hst. discriminate.
  - rewrite Hk1 in Hk2. injection Hk2 as <-. rewrite Hst in Hres2.
    eexists _, _. split; [exact Hres2|].
    rewrite (node_at_written_self w1 p k _ Hk1 Hnd2).
    unfold write_result, written_bytes, old_bytes. cbn. repeat split; reflexivity.
Qed.

(** X5.  A negative [max_bytes] cuts from the end: for an existing file,
    [read_file] then returns [ok = True] with the content decoded from the
    file without its last [-max_bytes] bytes (nothing when the file is that
    short), and [truncated] is [True] whatever the size of the file. *)
Theorem read_file_below_zero (path : string) (max_bytes : Z) (w : World)
    (p : Host.path) (data : list byte) :
  _normalize_path path w = Ret p w ->
  node_at w p = Some (File data) ->
  (max_bytes < 0)%Z ->
  read_file path max_bytes w
  = Ret [("ok", VBool true); ("path", VStr (path_str p));
         ("content",
          VStr (utf8_decode (firstn (length data - Z.to_nat (- max_bytes)) data)));
         ("truncated", VBool true)] w.
Proof.
  intros Hnorm Hnode Hneg. rewrite (read_file_eq path max_bytes w p Hnorm), Hnode.
  unfold py_slice_to. destruct (Z.leb_spec 0 max_bytes); [lia|].
  destruct (Z.ltb_spec max_bytes (Z.of_nat (length data))); [reflexivity | lia].
Qed.

End WithHost.

(** Witness of [write_file_changes_only_its_target]: overwriting [a.txt]
    leaves [ab.txt] alone. *)
Lemma write_file_changes_only_its_target_witness :
  node_at (final_state (write_file "a.txt" "hi" "overwrite" demo_world)) ["work"; "ab.txt"]
  = Some (File (bytes "hello"))
  /\ cwd (final_state (write_file "a.txt" "hi" "overwrite" demo_world)) = Some ["work"].
Proof.
  assert (Hn : _normalize_path "a.txt" demo_world = Ret ["work"; "a.txt"] demo_world)
    by (vm_compute; reflexivity).
  assert (Hne : key_of (final_state (write_file "a.txt" "hi" "overwrite" demo_world))
                  ["work"; "ab.txt"]
                <> key_of (final_state (write_file "a.txt" "hi" "overwrite" demo_world))
                     ["work"; "a.txt"]).
  { assert (E1 : key_of (final_state (write_file "a.txt" "hi" "overwrite" demo_world))
                   ["work"; "ab.txt"] = inl ["work"; "ab.txt"])
      by (vm_compute; reflexivity).
    assert (E2 : key_of (final_state (write_file "a.txt" "hi" "overwrite" demo_world))
                   ["work"; "a.txt"] = inl ["work"; "a.txt"])
      by (vm_compute; reflexivity).
    rewrite E1, E2. discriminate. }
  assert (Hq : node_at demo_world ["work"; "ab.txt"] = Some (File (bytes "hello")))
    by (vm_compute; reflexivity).
  destruct (write_file_changes_only_its_target "a.txt" "hi" "overwrite" demo_world
              _ _ _ Hn Hne Hq) as (T1 & T2 & _).
  split; [exact T1 | exact T2].
Defined.

(** Two paths to one file: in the home directory, a write to
    "downloads/../n.txt" replaces [/home/u/n.txt]. *)
Example write_file_reaches_a_file_by_another_path :
  node_at home_world ["home"; "u"; "n.txt"] = Some (File (bytes "old"))
  /\ _normalize_path "downloads/../n.txt" home_world
     = Ret ["home"; "u"; "Downloads"; ".."; "n.txt"] home_world
  /\ node_at (final_state (write_file "downloads/../n.txt" "hi" "overwrite" home_world))
       ["home"; "u"; "n.txt"]
     = Some (File (bytes "hi")).
Proof. repeat split; vm_compute; reflexivity. Qed.

(** Witness of [write_then_read]: "hi" written to [a.txt] and read back. *)
Lemma write_then_read_witness :
  exists w',
    final_state (write_file "a.txt" "hi" "overwrite" demo_world) = w'
    /\ read_file "a.txt" 10 w'
       = Ret [("ok", VBool true); ("path", VStr "/work/a.txt");
              ("content", VStr "hi"); ("truncated", VBool false)] w'.
Proof.
  assert (Hn : _normalize_path "a.txt" demo_world = Ret ["work"; "a.txt"] demo_world)
    by (vm_compute; reflexivity).
  assert (Hm : "overwrite" <> "append") by discriminate.
  destruct (write_file "a.txt" "hi" "overwrite" demo_world) as [r w'|e w'] eqn:E;
    [|vm_compute in E; discriminate E].
  assert (Hok : dict_get "ok" r = Some (VBool true)).
  { vm_compute in E. injection E as <- _. reflexivity. }
  assert (H10 : (0 <= 10)%Z) by lia.
  destruct (write_then_read "a.txt" "hi" "overwrite" 10 demo_world w' _ r Hn Hm E Hok H10)
    as (T & _ & _).
  exists w'. split; [reflexivity|]. rewrite T. reflexivity.
Defined.

(** Witness of [write_then_append]: "hi" and then "!!" in [a.txt]. *)
Lemma write_then_append_witness :
  exists r1 w1 r2 w2,
    write_file "a.txt" "hi" "overwrite" demo_world = Ret r1 w1
    /\ write_file "a.txt" "!!" "append" w1 = Ret r2 w2
    /\ node_at w2 ["work"; "a.txt"] = Some (File (bytes "hi!!"))
    /\ dict_get "bytes_before" r2 = Some (VInt 2)
    /\ dict_get "bytes_after" r2 = Some (VInt 4).
Proof.
  assert (Hn : _normalize_path "a.txt" demo_world = Ret ["work"; "a.txt"] demo_world)
    by (vm_compute; reflexivity).
  assert (Hm : "overwrite" <> "append") by discriminate.
  destruct (write_file "a.txt" "hi" "overwrite" demo_world) as [r1 w1|e w1] eqn:E;
    [|vm_compute in E; discriminate E].
  assert (Hok : dict_get "ok" r1 = Some (VBool true)).
  { vm_compute in E. injection E as <- _. reflexivity. }
  destruct (write_then_append "a.txt" "hi" "!!" "overwrite" demo_world w1 _ r1 Hn Hm E Hok)
    as (r2 & w2 & E2 & _ & N & _ & _ & Hb & Ha).
  exists r1, w1, r2, w2. repeat split; assumption.
Defined.

(** Witness of [read_file_below_zero]: [max_bytes = -1] on the three bytes
    of [a.txt]. *)
Lemma read_file_below_zero_witness :
  read_file "a.txt" (-1) demo_world
  = Ret [("ok", VBool true); ("path", VStr "/work/a.txt");
         ("content", VStr "ab"); ("truncated", VBool true)] demo_world.
Proof.
  assert (Hn : _normalize_path "a.txt" demo_world = Ret ["work"; "a.txt"] demo_world)
    by (vm_compute; reflexivity).
  assert (Hq : node_at demo_world ["work"; "a.txt"] = Some (File (bytes "abc")))
    by (vm_compute; reflexivity).
  assert (Hneg : (-1 < 0)%Z) by lia.
  rewrite (read_file_below_zero "a.txt" (-1) demo_world _ _ Hn Hq Hneg). reflexivity.
Defined.

End FileFacts.

(** ** What [find_item] finds *)

Module SearchFacts.
Import Py Host Tools PyFacts ToolsFacts Demo.

(** The entry that [find_item] builds for the path [p] met in the walk of
    [root]. *)
Definition entry (w : World) (query : string) (root p : path) : Candidate :=
  mkCandidate (path_str p) (path_str root) (is_dir w p)
    (match node_at w p with
     | Some (File d) => Some (Z.of_nat (length d))
     | _ => None
     end)
    (Fuzzy._fuzzy_match_score query (name p)).

(** The paths of a walk whose name scores at least the threshold. *)
Definition matching (query : string) (threshold : Q) (paths : list path) : list path :=
  filter (fun p => Qle_bool threshold (Fuzzy._fuzzy_match_score query (name p))) paths.

Lemma insert_desc_In (c x : Candidate) (l : list Candidate) :
  In x (insert_desc c l) <-> x = c \/ In x l.
Proof.
  induction l as [|d rest IH]; simpl.
  - intuition.
  - destruct (Qle_bool (match_score d) (match_score c)); simpl; [intuition|].
    rewrite IH. intuition.
Qed.

Lemma sort_desc_In (x : Candidate) (l : list Candidate) :
  In x (sort_desc l) <-> In x l.
Proof.
  induction l as [|c rest IH]; simpl; [reflexivity|].
  rewrite insert_desc_In, IH. intuition.
Qed.

Lemma firstn_In {A} (k : nat) (l : list A) (x : A) : In x (firstn k l) -> In x l.
Proof.
  revert k. induction l as [|a l IH]; intros [|k]; simpl; try tauto.
  intros [->|Hin]; [now left | right; eauto].
Qed.

Lemma py_slice_to_In {A} (n : Z) (l : list A) (x : A) :
  In x (py_slice_to n l) -> In x l.
Proof. unfold py_slice_to. destruct (0 <=? n)%Z; apply firstn_In. Qed.

Lemma unique_roots_spec (roots seen : list path) :
  NoDup (unique_roots seen roots)
  /\ forall r, In r (unique_roots seen roots) <-> In r roots /\ ~ In r seen.
Proof.
  revert seen. induction roots as [|r rest IH]; intros seen; simpl.
  - split; [constructor | intuition].
  - destruct (bool_decide_reflect (r ∈ seen)) as [Hin|Hnin].
    + destruct (IH seen) as [ND Hiff]. split; [exact ND|].
      intros x. rewrite Hiff. apply list_elem_of_In in Hin.
      split; [intuition|]. intros [[->|Hx] Hs]; [contradiction | auto].
    + destruct (IH (r :: seen)) as [ND Hiff]. rewrite list_elem_of_In in Hnin.
      split.
      * constructor; [|exact ND]. rewrite list_elem_of_In, Hiff. simpl. intuition.
      * intros x. simpl. rewrite Hiff. simpl.
        destruct (decide (r = x)) as [->|Hne]; intuition.
Qed.

Section WithOS.
Context `{OS}.

Lemma scan_paths_eq query threshold root paths acc (w : World) :
  scan_paths query threshold root paths acc w
  = Ret (acc ++ map (entry w query root) (matching query threshold paths))%list w.
Proof.
  revert acc. induction paths as [|p rest IH]; intros acc; simpl.
  - now rewrite app_nil_r.
  - unfold matching in *. rewrite filter_cons.
    destruct (Qle_bool threshold (Fuzzy._fuzzy_match_score query (name p))) eqn:E;
      [rewrite decide_True by exact I | rewrite decide_False by (intros []); apply IH].
    rewrite (bind_Ret _ _ w w
               (is_dir w p,
                match node_at w p with
                | Some (File d) => Some (Z.of_nat (length d))
                | _ => None
                end)).
    + rewrite IH, <- app_assoc. reflexivity.
    + unfold try_except, bind, path_is_dir, path_is_file, stat_size, ret, is_file, is_dir.
      destruct (node_at w p) as [[d|]|] eqn:En; rewrite ?En; reflexivity.
Qed.

(** All the entries of the walks of [roots], in the order of the search. *)
Definition all_entries (w : World) (query : string) (threshold : Q) (roots : list path)
  : list Candidate :=
  flat_map (fun root => map (entry w query root)
                          (matching query threshold (fst (rglob w root)))) roots.

Lemma scan_roots_eq query threshold roots acc (w : World) :
  scan_roots query threshold roots acc w
  = Ret (acc ++ all_entries w query threshold roots)%list w.
Proof.
  revert acc. induction roots as [|root rest IH]; intros acc; simpl.
  - now rewrite app_nil_r.
  - rewrite (bind_Ret _ _ w w w) by reflexivity.
    rewrite (bind_Ret _ _ _ _ _ (scan_paths_eq _ _ _ _ _ _)).
    now rewrite IH, <- app_assoc.
Qed.

Lemma home_roots_eq home subs (w : World) :
  home_roots home subs w
  = Ret (filter (fun r => exists_ w r) (map (joinpath home) subs)) w.
Proof.
  induction subs as [|sub rest IH]; simpl; [reflexivity|].
  rewrite (bind_Ret _ _ w w (exists_ w (joinpath home sub))) by reflexivity.
  rewrite (bind_Ret _ _ _ _ _ IH). unfold ret. rewrite filter_cons.
  destruct (exists_ w (joinpath home sub));
    [rewrite decide_True by exact I | rewrite decide_False by (intros [])]; reflexivity.
Qed.

(** The roots that [find_item] searches. *)
Definition search_roots (w : World) (c h : path) : list path :=
  unique_roots []
    (c :: filter (fun r => exists_ w r)
            (map (joinpath h) ["Downloads"; "Documents"; "Desktop"])).

Lemma find_item_eq (name : string) (max_results : Z) (threshold : Q) (w : World)
    (c h : path) :
  PyStr.strip name <> "" -> cwd w = Some c -> home w = Some h ->
  find_item name max_results threshold w
  = Ret [("ok", VBool true); ("query", VStr (PyStr.strip name));
         ("roots", VList (map (fun r => VStr (path_str r)) (search_roots w c h)));
         ("results",
          VList (map candidate_dict
                   (py_slice_to max_results
                      (sort_desc (all_entries w (PyStr.strip name) threshold
                                    (search_roots w c h))))));
         ("fuzzy_threshold", VFloat threshold)] w.
Proof.
  intros Hq Hc Hh. unfold find_item. cbv zeta.
  destruct (String.eqb_spec (PyStr.strip name) "") as [|_]; [contradiction|].
  rewrite (bind_Ret _ _ w w c) by (unfold get_cwd; now rewrite Hc).
  rewrite (bind_Ret _ _ w w h) by (unfold get_home; now rewrite Hh).
  rewrite (bind_Ret _ _ _ _ _ (home_roots_eq _ _ _)).
  rewrite (bind_Ret _ _ _ _ _ (scan_roots_eq _ _ _ _ _)).
  reflexivity.
Qed.

Lemma find_item_ok_inv (name : string) (max_results : Z) (threshold : Q) (w w' : World)
    (r : dict) :
  find_item name max_results threshold w = Ret r w' ->
  dict_get "ok" r = Some (VBool true) ->
  PyStr.strip name <> "" /\ exists c h, cwd w = Some c /\ home w = Some h.
Proof.
  intros E Hok. unfold find_item in E. cbv zeta in E.
  destruct (String.eqb_spec (PyStr.strip name) "") as [He|Hne].
  { injection E as <- <-. discriminate Hok. }
  split; [exact Hne|].
  unfold bind at 1, get_cwd in E. destruct (cwd w) as [c|]; [|discriminate E].
  unfold bind at 1, get_home in E. destruct (home w) as [h|]; [|discriminate E].
  eauto.
Qed.

Lemma In_matching query threshold paths p :
  In p (matching query threshold paths)
  <-> In p paths /\ (threshold <= Fuzzy._fuzzy_match_score query (name p))%Q.
Proof.
  unfold matching. rewrite <- !list_elem_of_In, list_elem_of_filter.
  rewrite <- Qle_bool_iff. unfold Is_true.
  destruct (Qle_bool _ _); intuition congruence.
Qed.

Lemma In_all_entries w query threshold roots e :
  In e (all_entries w query threshold roots)
  <-> exists root p,
        In root roots /\ In p (fst (rglob w root))
        /\ (threshold <= Fuzzy._fuzzy_match_score query (name p))%Q
        /\ e = entry w query root p.
Proof.
  unfold all_entries. rewrite in_flat_map. split.
  - intros (root & Hroot & Hin). apply in_map_iff in Hin.
    destruct Hin as (p & <- & Hp). apply In_matching in Hp. destruct Hp.
    exists root, p. auto.
  - intros (root & p & Hroot & Hp & Hs & ->). exists root. split; [exact Hroot|].
    apply in_map_iff. exists p. split; [reflexivity|]. apply In_matching. auto.
Qed.

Lemma In_search_roots (w : World) (c h root : path) :
  In root (search_roots w c h)
  <-> root = c
      \/ exists sub, In sub ["Downloads"; "Documents"; "Desktop"]
                     /\ root = joinpath h sub /\ exists_ w root = true.
Proof.
  unfold search_roots.
  destruct (unique_roots_spec
              (c :: filter (fun r => exists_ w r)
                      (map (joinpath h) ["Downloads"; "Documents"; "Desktop"])) [])
    as [_ Hiff].
  rewrite Hiff. cbn [In]. rewrite <- list_elem_of_In, list_elem_of_filter.
  rewrite list_elem_of_In, in_map_iff. unfold Is_true. split.
  - intros [[->|[Hex (sub & <- & Hsub)]] _]; [now left | right].
    exists sub. destruct (exists_ w (joinpath h sub)); [auto | contradiction].
  - intros [->|(sub & Hsub & -> & Hex)]; (split; [|tauto]); [now left | right].
    rewrite Hex. split; [exact I | eauto].
Qed.

(** X6.  [find_item] invents nothing.  When it reports [ok = True], the
    roots it names are without repetition, the working directory comes
    first and the others are existing directories among Downloads,
    Documents and Desktop of the home directory; and every result is the
    entry of a path that the walk of one of these roots yielded: its
    [path], [root], [is_dir] and [size] describe that path in the file
    system, and its [match_score] is the score of the path's name, which
    reaches the threshold. *)
Theorem find_item_results_come_from_the_walk (name : string) (max_results : Z)
    (threshold : Q) (w w' : World) (r : dict) :
  find_item name max_results threshold w = Ret r w' ->
  dict_get "ok" r = Some (VBool true) ->
  exists c h roots results,
    cwd w = Some c /\ home w = Some h
    /\ dict_get "roots" r = Some (VList (map (fun root => VStr (path_str root)) roots))
    /\ dict_get "results" r = Some (VList (map candidate_dict results))
    /\ NoDup roots
    /\ hd_error roots = Some c
    /\ (forall root, In root roots ->
          root = c
          \/ exists sub, In sub ["Downloads"; "Documents"; "Desktop"]
                         /\ root = joinpath h sub /\ exists_ w root = true)
    /\ Forall (fun e =>
                 exists root p,
                   In root roots /\ In p (fst (rglob w root))
                   /\ (threshold <= Fuzzy._fuzzy_match_score (PyStr.strip name) (Host.name p))%Q
                   /\ e = entry w (PyStr.strip name) root p) results.
Proof.
  intros E Hok.
  destruct (find_item_ok_inv _ _ _ _ _ _ E Hok) as (Hq & c & h & Hc & Hh).
  rewrite (find_item_eq name max_results threshold w c h Hq Hc Hh) in E.
  injection E as <- <-.
  exists c, h, (search_roots w c h),
    (py_slice_to max_results
       (sort_desc (all_entries w (PyStr.strip name) threshold (search_roots w c h)))).
  split; [exact Hc|]. split; [exact Hh|]. split; [reflexivity|]. split; [reflexivity|].
  split; [apply unique_roots_spec|]. split; [reflexivity|]. split.
  - intros root. apply In_search_roots.
  - apply List.Forall_forall. intros e He.
    apply py_slice_to_In, sort_desc_In, In_all_entries in He. exact He.
Qed.

Lemma substring_scores_high (query target : string) :
  PyStr.contains (PyStr.lower query) (PyStr.lower target) = true ->
  (85 # 100 <= Fuzzy._fuzzy_match_score query target)%Q.
Proof.
  intros Hc. unfold Fuzzy._fuzzy_match_score. cbv zeta.
  destruct (String.eqb _ _); [discriminate|]. rewrite Hc.
  destruct (PyStr.startswith _ _); discriminate.
Qed.

(** X7.  The best match comes first.  When [max_results] is positive and
    the walk of a searched root (the working directory, or an existing
    Downloads, Documents or Desktop of the home directory) yields a path
    whose name scores at least the threshold, [find_item] returns a list
    that is not empty and whose first entry scores at least as much as that
    path; so when the name of the path contains the query, in any letter
    case, the first entry scores at least 0.85. *)
Theorem find_item_best_match_first (name : string) (max_results : Z) (threshold : Q)
    (w : World) (c h root p : path) :
  PyStr.strip name <> "" -> cwd w = Some c -> home w = Some h ->
  (0 < max_results)%Z ->
  (root = c
   \/ exists sub, In sub ["Downloads"; "Documents"; "Desktop"]
                  /\ root = joinpath h sub /\ exists_ w root = true) ->
  In p (fst (rglob w root)) ->
  (threshold <= Fuzzy._fuzzy_match_score (PyStr.strip name) (Host.name p))%Q ->
  exists r best rest,
    find_item name max_results threshold w = Ret r w
    /\ dict_get "results" r = Some (VList (map candidate_dict (best :: rest)))
    /\ (Fuzzy._fuzzy_match_score (PyStr.strip name) (Host.name p) <= match_score best)%Q
    /\ (PyStr.contains (PyStr.lower (PyStr.strip name)) (PyStr.lower (Host.name p)) = true ->
        (85 # 100 <= match_score best)%Q).
Proof.
  intros Hq Hc Hh Hmax Hroot Hp Hs.
  rewrite (find_item_eq name max_results threshold w c h Hq Hc Hh).
  set (l := all_entries w (PyStr.strip name) threshold (search_roots w c h)).
  assert (Hin : In (entry w (PyStr.strip name) root p) (sort_desc l)).
  { apply sort_desc_In, In_all_entries. exists root, p.
    repeat split; try assumption. now apply In_search_roots. }
  pose proof (sort_desc_sorted l) as Hsorted.
  destruct (sort_desc l) as [|best rest]; [contradiction|].
  assert (Hbest : (Fuzzy._fuzzy_match_score (PyStr.strip name) (Host.name p)
                   <= match_score best)%Q).
  { destruct Hsorted as [Hle _]. destruct Hin as [->|Hin]; [apply Qle_refl|].
    rewrite List.Forall_forall in Hle. apply (Hle _ Hin). }
  eexists _, best, (firstn (Z.to_nat max_results - 1) rest).
  split; [reflexivity|]. split; [|split; [exact Hbest|]].
  - cbn [dict_get String.eqb Ascii.eqb Bool.eqb]. unfold py_slice_to.
    destruct (Z.leb_spec 0 max_results); [|lia].
    destruct (Z.to_nat max_results) as [|k] eqn:Ek; [lia|].
    replace (S k - 1) with k by lia. reflexivity.
  - intros Hsub. eapply Qle_trans; [|exact Hbest]. now apply substring_scores_high.
Qed.

End WithOS.

(** Witness of [find_item_results_come_from_the_walk]: the search for "a"
    in the example world. *)
Lemma find_item_results_come_from_the_walk_witness :
  exists r roots results,
    find_item "a" 5 (6 # 10) demo_world = Ret r demo_world
    /\ dict_get "results" r = Some (VList (map candidate_dict results))
    /\ NoDup roots /\ hd_error roots = Some ["work"]
    /\ Forall (fun e => exists root p,
                 In root roots /\ In p (fst (rglob demo_world root))
                 /\ e = entry demo_world "a" root p) results.
Proof.
  destruct (find_item "a" 5 (6 # 10) demo_world) as [r w'|e w'] eqn:E;
    [|vm_compute in E; discriminate E].
  assert (Hw : w' = demo_world) by (vm_compute in E; now injection E as _ <-).
  subst w'.
  assert (Hok : dict_get "ok" r = Some (VBool true))
    by (vm_compute in E; injection E as <-; reflexivity).
  destruct (find_item_results_come_from_the_walk "a" 5 (6 # 10) demo_world demo_world r
              E Hok) as (c & h & roots & results & Hc & _ & _ & Hres & ND & Hhd & _ & F).
  injection Hc as <-.
  exists r, roots, results. repeat split; try assumption; try reflexivity.
  eapply Forall_impl; [exact F|].
  intros e (root & p & Hr & Hp & _ & He). eauto.
Defined.

(** Witness of [find_item_best_match_first]: [a.txt] under the working
    directory contains the query "a". *)
Lemma find_item_best_match_first_witness :
  exists r best rest,
    find_item "a" 1 (6 # 10) demo_world = Ret r demo_world
    /\ dict_get "results" r = Some (VList (map candidate_dict (best :: rest)))
    /\ (85 # 100 <= match_score best)%Q.
Proof.
  assert (Hq : PyStr.strip "a" <> "") by (vm_compute; discriminate).
  assert (Hc : cwd demo_world = Some ["work"]) by reflexivity.
  assert (Hh : home demo_world = Some ["home"; "u"]) by reflexivity.
  assert (Hmax : (0 < 1)%Z) by lia.
  assert (Hroot : ["work"] = ["work"]
                  \/ exists sub, In sub ["Downloads"; "Documents"; "Desktop"]
                                 /\ ["work"] = joinpath ["home"; "u"] sub
                                 /\ exists_ demo_world ["work"] = true)
    by (left; reflexivity).
  assert (Hp : In ["work"; "a.txt"] (fst (rglob demo_world ["work"])))
    by (vm_compute; auto).
  assert (Hs : (6 # 10 <= Fuzzy._fuzzy_match_score (PyStr.strip "a") (name ["work"; "a.txt"]))%Q)
    by (vm_compute; discriminate).
  destruct (find_item_best_match_first "a" 1 (6 # 10) demo_world _ _ _ _
              Hq Hc Hh Hmax Hroot Hp Hs) as (r & best & rest & E & Hres & _ & Hsub).
  exists r, best, rest. split; [exact E|]. split; [exact Hres|].
  apply Hsub. vm_compute. reflexivity.
Defined.

End SearchFacts.

(** ** Copying twice *)

Module CopyFacts.
Import Py Host Tools PyFacts HostFacts ToolsFacts FileFacts Demo.

Section WithHost.
Context `{PyLib} `{OS}.

(** X8.  A copy cannot be repeated: after a successful [copy_file], the same
    call (same source, same destination) returns [ok = False] with an error
    and leaves the file system as the first call left it, because the
    destination that the first call wrote now exists. *)
Theorem copy_file_twice (source destination : string) (w w1 : World)
    (src dst : path) (r1 : dict) :
  _normalize_path source w = Ret src w ->
  _normalize_path destination w = Ret dst w ->
  copy_file source destination w = Ret r1 w1 ->
  dict_get "ok" r1 = Some (VBool true) ->
  exists msg, copy_file source destination w1 = Ret (error_dict msg) w1.
Proof.
  intros Hsrc Hdst E Hok.
  pose proof (copy_file_cases source destination w src dst Hsrc Hdst) as Hc.
  cbv zeta in Hc. set (target := copy_target w src dst) in *.
  destruct Hc as [[msg Hm]|(Hse & Hsd & Hte & [[msg Hm]|(d & k & Hd & Hk & Hnd & Hm)])];
    rewrite Hm in E; injection E as <- <-; try discriminate Hok.
  set (w0 := final_state (mkdir_parents (parent target) w)) in *.
  set (w1 := set_fs w0 (<[k := File d]> (fs w0))).
  destruct (mkdir_parents_env (parent target) w) as [Hcwd Hhome].
  assert (Hsrc1 : _normalize_path source w1 = Ret src w1)
    by (apply (normalize_same_env source w w1 src); assumption).
  assert (Hdst1 : _normalize_path destination w1 = Ret dst w1)
    by (apply (normalize_same_env destination w w1 dst); assumption).
  assert (Hland : node_at w1 (landing w0 src target) = Some (File d))
    by (now apply node_at_written_self).
  (* a directory of [w0] is one of [w1] *)
  assert (Hdir : forall q, node_at w0 q = Some Dir -> node_at w1 q = Some Dir).
  { intros q Hq. unfold node_at in Hq.
    destruct (key_of w0 q) as [kq|e] eqn:Ekq; [|discriminate].
    unfold w1. rewrite (node_at_written_other w0 q k kq d Hnd Ekq) by congruence.
    unfold node_at. now rewrite Ekq. }
  assert (Hex : exists_ w1 (copy_target w1 src dst) = true).
  { unfold copy_target in *. unfold exists_, is_dir in *.
    destruct (node_at w dst) as [[dd|]|] eqn:En; cbn [andb] in *.
    - (* a file at dst would have been the target *)
      subst target. rewrite En in Hte. discriminate.
    - (* dst is a directory, and stays one *)
      unfold join_part in *.
      destruct (String.eqb (name src) ".").
      { subst target. rewrite En in Hte. discriminate. }
      assert (Hw0 : w0 = w).
      { unfold w0, target, joinpath, parent. rewrite removelast_last.
        now rewrite (mkdir_parents_noop dst w En). }
      rewrite (Hdir dst) by (now rewrite Hw0). cbn [andb].
      unfold landing, is_dir in Hland. fold target.
      rewrite Hw0 in Hland at 1.
      destruct (node_at w target) as [[]|]; try discriminate.
      now rewrite Hland.
    - (* nothing at dst: the copy is there now, or inside it *)
      fold target in Hland |- *. unfold landing, is_dir in Hland.
      destruct (node_at w0 target) as [[dd|]|] eqn:E0.
      + rewrite Hland. cbn [andb]. now rewrite Hland.
      + rewrite (Hdir target E0). cbn [andb]. unfold join_part.
        destruct (String.eqb (name src) "."); [now rewrite (Hdir target E0)|].
        now rewrite Hland.
      + rewrite Hland. cbn [andb]. now rewrite Hland. }
  pose proof (copy_file_cases source destination w1 src dst Hsrc1 Hdst1) as Hc1.
  cbv zeta in Hc1.
  destruct Hc1 as [Hc1|(_ & _ & Hte1 & _)]; [exact Hc1 | congruence].
Qed.

End WithHost.

(** Witness of [copy_file_twice]: [a.txt] copied to [b.txt], twice. *)
Lemma copy_file_twice_witness :
  exists r1 w1 msg,
    copy_file "a.txt" "b.txt" demo_world = Ret r1 w1
    /\ dict_get "ok" r1 = Some (VBool true)
    /\ copy_file "a.txt" "b.txt" w1 = Ret (error_dict msg) w1.
Proof.
  assert (Hs : _normalize_path "a.txt" demo_world = Ret ["work"; "a.txt"] demo_world)
    by (vm_compute; reflexivity).
  assert (Hd : _normalize_path "b.txt" demo_world = Ret ["work"; "b.txt"] demo_world)
    by (vm_compute; reflexivity).
  destruct (copy_file "a.txt" "b.txt" demo_world) as [r1 w1|e w1] eqn:E;
    [|vm_compute in E; discriminate E].
  assert (Hok : dict_get "ok" r1 = Some (VBool true)).
  { vm_compute in E. injection E as <- _. reflexivity. }
  destruct (copy_file_twice "a.txt" "b.txt" demo_world w1 _ _ r1 Hs Hd E Hok) as [msg Hm].
  exists r1, w1, msg. auto.
Defined.

End CopyFacts.

(** ** The executor: what an action can and cannot do *)

Module ActionFacts.
Import Py Host Models Tools Executor PyFacts ExecutorFacts ReadOnlyFacts Demo.

(** [keeps_world m]: whatever the outcome, [m] leaves the machine as it
    was; it may print and ask. *)
Definition keeps_world {A} (m : M State A) : Prop :=
  forall st, world (final_state (m st)) = world st.

Lemma keeps_world_ret {A} (a : A) : keeps_world (ret a).
Proof. intros st. reflexivity. Qed.

Lemma keeps_world_raise {A} e : keeps_world (raise (A := A) e).
Proof. intros st. reflexivity. Qed.

Lemma keeps_world_bind {A B} (m : M State A) (k : A -> M State B) :
  keeps_world m -> (forall a, keeps_world (k a)) -> keeps_world (bind m k).
Proof.
  intros Hm Hk st. unfold bind. specialize (Hm st).
  destruct (m st) as [a st1|e st1]; cbn [final_state] in *; [|exact Hm].
  now rewrite Hk.
Qed.

Lemma keeps_world_emit e : keeps_world (emit e).
Proof. intros st. reflexivity. Qed.

Lemma keeps_world_ask prompt default : keeps_world (ask prompt default).
Proof. intros st. unfold ask. now destruct (replies st). Qed.

Lemma keeps_world_py_int `{PyLib} v : keeps_world (py_int (S := State) v).
Proof.
  destruct v; simpl; try apply keeps_world_ret; try apply keeps_world_raise.
  destruct (int_of_str s); [apply keeps_world_ret | apply keeps_world_raise].
Qed.

Lemma keeps_world_lift {A} (m : M World A) : readonly m -> keeps_world (lift m).
Proof.
  intros Hm st. unfold lift. specialize (Hm (world st)).
  destruct (m (world st)); exact Hm.
Qed.

Lemma keeps_world_call {A} t call_args (m : M World A) :
  readonly m -> keeps_world (call t call_args m).
Proof.
  intros Hm. unfold call. apply keeps_world_bind; [apply keeps_world_emit|].
  intros _. now apply keeps_world_lift.
Qed.

(** A computation that leaves the world alone, run by the executor, leaves
    the whole state alone. *)
Lemma lift_readonly {A} (m : M World A) (st : State) :
  readonly m ->
  (exists a, lift m st = Ret a st) \/ (exists e, lift m st = Raise e st).
Proof.
  intros Hm. unfold lift. specialize (Hm (world st)).
  destruct (m (world st)) as [a w|e w]; cbn [final_state] in Hm; subst w;
    destruct st; [left | right]; eexists; reflexivity.
Qed.

(** An event that is no call of a tool. *)
Definition no_call (e : event) : Prop :=
  match e with ECall _ _ => False | _ => True end.

(** The names that the chain of tests in [execute_plan] knows. *)
Definition tool_names : list string :=
  ["run_shell"; "read_file"; "write_file"; "find_item"; "summarize_file";
   "list_directory"; "search_content"; "get_file_info"; "copy_file"; "move_file";
   "compare_files"; "extract_archive"].

Section WithHost.
Context `{PyLib} `{OS} `{ToolBodies}.
Context (default_llm : Planner.LLMClient).

Lemma readonly_read_file (path : string) (max_bytes : Z) :
  readonly (read_file path max_bytes).
Proof.
  unfold read_file.
  apply readonly_try; [apply readonly_try|]; try (intros; apply readonly_ret).
  apply readonly_bind; [apply readonly_normalize_path | intros p].
  apply readonly_bind; [apply readonly_read_bytes | intros; apply readonly_ret].
Qed.

Lemma keeps_world_exec_read_file (action : Action) : keeps_world (_exec_read_file action).
Proof.
  unfold _exec_read_file, _print_result. cbv zeta.
  apply keeps_world_bind; [apply keeps_world_py_int | intros max_bytes].
  destruct (is_empty _); [apply keeps_world_emit|].
  apply keeps_world_bind; [|intros; apply keeps_world_emit].
  apply keeps_world_call, readonly_read_file.
Qed.

Lemma keeps_world_exec_find_item (action : Action) : keeps_world (_exec_find_item action).
Proof.
  unfold _exec_find_item, _print_result. cbv zeta.
  apply keeps_world_bind; [apply keeps_world_py_int | intros max_results].
  destruct (is_empty _); [apply keeps_world_emit|].
  apply keeps_world_bind; [apply keeps_world_call, readonly_find_item | intros result].
  apply keeps_world_bind; [apply keeps_world_emit | intros _].
  destruct (best_file_of result) as [best_file|]; [|apply keeps_world_ret].
  apply keeps_world_bind; [apply keeps_world_emit | intros _].
  apply keeps_world_bind; [apply keeps_world_ask | intros read_file].
  destruct read_file; [|apply keeps_world_ret].
  apply keeps_world_bind; [apply keeps_world_emit | intros _].
  apply keeps_world_bind; [apply keeps_world_emit | intros _].
  apply keeps_world_bind; [|intros; apply keeps_world_emit].
  apply keeps_world_call, readonly_read_file.
Qed.

Lemma dispatch_unknown (action : Action) :
  ~ In (tool action) tool_names ->
  dispatch default_llm action
  = emit (EPrint ("[yellow]Unknown tool:[/yellow] " ++ py_repr (VStr (tool action))
                  ++ ", skipping.")).
Proof.
  intros Hnot. unfold dispatch. cbv zeta.
  repeat match goal with
         | |- (if String.eqb ?a ?b then _ else _) = _ =>
             destruct (String.eqb_spec a b) as [Heq|_];
             [exfalso; apply Hnot; rewrite Heq; simpl; tauto|]
         end.
  reflexivity.
Qed.

(** X9.  A plan that only reads and searches changes nothing.  When every
    action of the plan names [read_file] or [find_item], or a tool that the
    executor does not know, then whatever the arguments and whatever the
    user answers, the files, the working directory and the home directory
    are after [execute_plan] what they were before, also when the run ends
    in an exception. *)
Theorem reading_plans_change_nothing (p : Plan) (st : State) :
  Forall (fun a => tool a = "read_file" \/ tool a = "find_item"
                   \/ ~ In (tool a) tool_names) (actions p) ->
  world (final_state (execute_plan default_llm p st)) = world st.
Proof.
  intros Hall.
  assert (Hrun : forall acts i,
            Forall (fun a => tool a = "read_file" \/ tool a = "find_item"
                             \/ ~ In (tool a) tool_names) acts ->
            keeps_world (run_actions default_llm i acts)).
  { induction acts as [|a rest IH]; intros i F; cbn [run_actions].
    - apply keeps_world_ret.
    - inversion F as [|? ? Ha Hrest]; subst.
      apply keeps_world_bind; [apply keeps_world_emit | intros _].
      apply keeps_world_bind; [apply keeps_world_emit | intros _].
      apply keeps_world_bind; [|intros _; now apply IH].
      destruct Ha as [Ha|[Ha|Ha]].
      + replace (dispatch default_llm a) with (_exec_read_file a)
          by (unfold dispatch; now rewrite Ha).
        apply keeps_world_exec_read_file.
      + replace (dispatch default_llm a) with (_exec_find_item a)
          by (unfold dispatch; now rewrite Ha).
        apply keeps_world_exec_find_item.
      + rewrite (dispatch_unknown a Ha). apply keeps_world_emit. }
  revert st. change (keeps_world (execute_plan default_llm p)).
  unfold execute_plan, show_plan.
  apply keeps_world_bind; [apply keeps_world_emit | intros _].
  apply keeps_world_bind; [apply keeps_world_emit | intros _].
  apply keeps_world_bind; [apply keeps_world_ask | intros proceed].
  destruct (negb proceed); [apply keeps_world_emit|].
  destruct (actions p) as [|a acts] eqn:Ea; [apply keeps_world_emit|].
  apply (Hrun (a :: acts) 1%nat Hall).
Qed.

(** X10.  [write_file] needs its own yes.  Unless the next answer of the
    user is a yes, [_exec_write_file] calls no tool and leaves the machine
    as it was: it prints at most the preview, the question and the line
    that the write was skipped. *)
Theorem write_file_needs_its_own_yes (action : Action) (st : State) :
  (forall rest, replies st <> true :: rest) ->
  world (final_state (_exec_write_file action st)) = world st
  /\ exists evs,
       trace (final_state (_exec_write_file action st)) = (trace st ++ evs)%list
       /\ Forall no_call evs.
Proof.
  intros Hno. unfold _exec_write_file, _print_result. cbv zeta.
  destruct (is_empty _).
  { split; [reflexivity|]. eexists [_]. split; [reflexivity|]. repeat constructor. }
  match goal with
  | |- context [bind (lift ?m) _] =>
      destruct (lift_readonly m st (readonly_normalize_path _)) as [[p Hp]|[e He]]
  end.
  2:{ rewrite (bind_Raise _ _ _ _ _ He). cbn [final_state]. split; [reflexivity|].
      exists []. now rewrite app_nil_r. }
  rewrite (bind_Ret _ _ _ _ _ Hp).
  match goal with
  | |- context [bind (lift ?m) _] =>
      assert (Hro : readonly m) by (repeat readonly_step);
      destruct (lift_readonly m st Hro) as [[t Ht]|[e He]]
  end.
  2:{ rewrite (bind_Raise _ _ _ _ _ He). cbn [final_state]. split; [reflexivity|].
      exists []. now rewrite app_nil_r. }
  rewrite (bind_Ret _ _ _ _ _ Ht).
  unfold bind, emit, ask. cbn [replies trace world].
  destruct (replies st) as [|r rest] eqn:Hr; [|destruct r].
  - cbn [final_state world trace]. split; [reflexivity|].
    eexists [_]. split; [reflexivity|]. repeat constructor.
  - now destruct (Hno rest).
  - cbn [negb final_state world trace]. split; [reflexivity|].
    eexists [_; _; _]. rewrite <- !app_assoc. split; [reflexivity|]. repeat constructor.
Qed.

(** The integer arguments that the executor converts with [int], by
    tool. *)
Definition integer_arguments : list (string * string) :=
  [("read_file", "max_bytes"); ("find_item", "max_results");
   ("summarize_file", "max_bytes"); ("search_content", "max_results");
   ("compare_files", "context_lines")].

Ltac bad_int Hget Hnone :=
  cbv zeta; unfold dict_get_default; rewrite Hget; cbn [py_int]; rewrite Hnone;
  reflexivity.

(** X11.  A malformed number stops the run.  When an action gives one of
    the integer arguments as a text that [int] does not accept, the loop of
    [execute_plan] leaves with [ValueError] right after the rule line of
    that action: its tool is not called, nothing is printed for it, and the
    actions behind it are not run. *)
Theorem malformed_integer_stops_the_run (i : nat) (a : Action) (rest : list Action)
    (st : State) (key s : string) :
  In (tool a, key) integer_arguments ->
  dict_get key (args a) = Some (VStr s) ->
  int_of_str s = None ->
  run_actions default_llm i (a :: rest) st
  = Raise (mkExn ValueError "invalid literal for int() with base 10")
      (mkState (world st) (replies st) (trace st ++ [EPrint ""; ERule i (tool a)])%list).
Proof.
  intros Hin Hget Hnone. rewrite run_actions_cons.
  set (st2 := mkState _ _ _).
  assert (Hd : dispatch default_llm a st2
               = Raise (mkExn ValueError "invalid literal for int() with base 10") st2).
  { unfold integer_arguments in Hin. cbn [In] in Hin.
    destruct Hin as [E|[E|[E|[E|[E|[]]]]]]; injection E as Ht Hk; subst key.
    - replace (dispatch default_llm a) with (_exec_read_file a)
        by (unfold dispatch; now rewrite <- Ht).
      unfold _exec_read_file. bad_int Hget Hnone.
    - replace (dispatch default_llm a) with (_exec_find_item a)
        by (unfold dispatch; now rewrite <- Ht).
      unfold _exec_find_item. bad_int Hget Hnone.
    - replace (dispatch default_llm a) with (_exec_summarize_file default_llm a)
        by (unfold dispatch; now rewrite <- Ht).
      unfold _exec_summarize_file. bad_int Hget Hnone.
    - replace (dispatch default_llm a) with (_exec_search_content a)
        by (unfold dispatch; now rewrite <- Ht).
      unfold _exec_search_content. bad_int Hget Hnone.
    - replace (dispatch default_llm a) with (_exec_compare_files a)
        by (unfold dispatch; now rewrite <- Ht).
      unfold _exec_compare_files. bad_int Hget Hnone. }
  now rewrite Hd.
Qed.

(** [str(action.args.get(key, ""))] *)
Definition arg (key : string) (a : Action) : string :=
  py_str (dict_get_default key (VStr "") (args a)).

(** The actions that the executor passes over with one printed line: a
    tool it does not know, or a required text argument that is missing or
    empty. *)
Inductive skipped : Action -> Prop :=
| skipped_unknown a : ~ In (tool a) tool_names -> skipped a
| skipped_run_shell a : tool a = "run_shell" -> arg "command" a = "" -> skipped a
| skipped_write_file a :
    tool a = "write_file" -> PyStr.strip (arg "path" a) = "" -> skipped a
| skipped_get_file_info a : tool a = "get_file_info" -> arg "path" a = "" -> skipped a
| skipped_copy_file a :
    tool a = "copy_file" -> arg "source" a = "" \/ arg "destination" a = "" -> skipped a
| skipped_move_file a :
    tool a = "move_file" -> arg "source" a = "" \/ arg "destination" a = "" -> skipped a
| skipped_extract_archive a :
    tool a = "extract_archive" -> arg "archive_path" a = "" -> skipped a.

Lemma is_empty_or (s1 s2 : string) :
  s1 = "" \/ s2 = "" -> is_empty s1 || is_empty s2 = true.
Proof. intros [->| ->]; [reflexivity | apply orb_true_r]. Qed.

(** X12.  A skipped action does not stop the run.  For an action whose
    tool is unknown, or whose required text argument is missing or empty
    ([run_shell], [write_file], [get_file_info], [copy_file], [move_file],
    [extract_archive]), the loop prints the rule line and one more line,
    calls nothing, asks nothing, leaves the machine as it was, and goes on
    with the next action. *)
Theorem skipped_actions_do_not_stop_the_run (i : nat) (a : Action)
    (rest : list Action) (st : State) :
  skipped a ->
  exists text,
    run_actions default_llm i (a :: rest) st
    = run_actions default_llm (S i) rest
        (mkState (world st) (replies st)
           (trace st ++ [EPrint ""; ERule i (tool a); EPrint text])%list).
Proof.
  intros Hs. rewrite run_actions_cons.
  set (st2 := mkState _ _ _).
  assert (Hd : exists text,
            dispatch default_llm a st2
            = Ret tt (mkState (world st2) (replies st2) (trace st2 ++ [EPrint text])%list)).
  { destruct Hs as [a Hu|a Ht He|a Ht He|a Ht He|a Ht He|a Ht He|a Ht He].
    - rewrite (dispatch_unknown a Hu). eexists. reflexivity.
    - replace (dispatch default_llm a) with (_exec_run_shell a)
        by (unfold dispatch; now rewrite Ht).
      unfold _exec_run_shell. cbv zeta. fold (arg "command" a). rewrite He.
      eexists. reflexivity.
    - replace (dispatch default_llm a) with (_exec_write_file a)
        by (unfold dispatch; now rewrite Ht).
      unfold _exec_write_file. cbv zeta. fold (arg "path" a). rewrite He.
      eexists. reflexivity.
    - replace (dispatch default_llm a) with (_exec_get_file_info a)
        by (unfold dispatch; now rewrite Ht).
      unfold _exec_get_file_info. cbv zeta. fold (arg "path" a). rewrite He.
      eexists. reflexivity.
    - replace (dispatch default_llm a) with (_exec_copy_file a)
        by (unfold dispatch; now rewrite Ht).
      unfold _exec_copy_file. cbv zeta.
      fold (arg "source" a). fold (arg "destination" a). rewrite (is_empty_or _ _ He).
      eexists. reflexivity.
    - replace (dispatch default_llm a) with (_exec_move_file a)
        by (unfold dispatch; now rewrite Ht).
      unfold _exec_move_file. cbv zeta.
      fold (arg "source" a). fold (arg "destination" a). rewrite (is_empty_or _ _ He).
      eexists. reflexivity.
    - replace (dispatch default_llm a) with (_exec_extract_archive a)
        by (unfold dispatch; now rewrite Ht).
      unfold _exec_extract_archive. cbv zeta. fold (arg "archive_path" a). rewrite He.
      eexists. reflexivity. }
  destruct Hd as [text Hd]. exists text. rewrite Hd. subst st2.
  cbn [world replies trace]. now rewrite <- app_assoc.
Qed.

(** X13.  The file that [_exec_find_item] offers to read is one of the
    results, is no directory and scores at least 0.7; and it is the only
    candidate: every other file among the results scores below 0.85. *)
Theorem offered_file_is_a_confident_match (result : dict) (f : value) :
  best_file_of result = Some f ->
  exists results,
    dict_get "results" result = Some (VList results)
    /\ In f results
    /\ result_is_dir f = false
    /\ (7 # 10 <= result_score f)%Q
    /\ (forall g, In g results -> result_is_dir g = false -> g <> f ->
        (result_score g < 85 # 100)%Q).
Proof.
  intros Hb. unfold best_file_of in Hb.
  destruct (py_bool (dict_get_default "ok" VNone result)
            && py_bool (dict_get_default "results" VNone result)); [|discriminate].
  unfold dict_get_default in Hb.
  destruct (dict_get "results" result) as [[| | | | |results|]|]; try discriminate.
  exists results. split; [reflexivity|].
  remember (filter (fun r => negb (result_is_dir r)) results) as files eqn:Efiles.
  remember (filter (fun f => Qle_bool (85 # 100) (result_score f)) files) as high eqn:Ehigh.
  assert (Hfiles : forall g, In g files <-> In g results /\ result_is_dir g = false).
  { intros g. subst files. rewrite <- !list_elem_of_In, list_elem_of_filter.
    unfold Is_true. destruct (result_is_dir g); simpl; intuition discriminate. }
  assert (Hhigh : forall g, In g high <-> In g files /\ (85 # 100 <= result_score g)%Q).
  { intros g. subst high. rewrite <- !list_elem_of_In, list_elem_of_filter.
    rewrite <- Qle_bool_iff. unfold Is_true.
    destruct (Qle_bool _ _); intuition congruence. }
  assert (Honly : forall f1, files = [f1] ->
            Qle_bool (7 # 10) (result_score f1) = true -> f = f1 ->
            In f results /\ result_is_dir f = false /\ (7 # 10 <= result_score f)%Q
            /\ (forall g, In g results -> result_is_dir g = false -> g <> f ->
                (result_score g < 85 # 100)%Q)).
  { intros f1 Ef Hq ->. rewrite Ef in Hfiles.
    destruct (proj1 (Hfiles f1) (or_introl eq_refl)) as [Hin Hdir].
    repeat split; [exact Hin | exact Hdir | now apply Qle_bool_iff |].
    intros g Hg Hgd Hne. destruct (proj2 (Hfiles g) (conj Hg Hgd)) as [<-|[]].
    now destruct Hne. }
  destruct high as [|h [|h2 high']].
  - destruct files as [|f1 [|]]; try discriminate.
    destruct (Qle_bool (7 # 10) (result_score f1)) eqn:Hq; [|discriminate].
    injection Hb as <-. now apply (Honly f1).
  - injection Hb as <-.
    destruct (proj1 (Hhigh h) (or_introl eq_refl)) as [Hf Hs].
    apply Hfiles in Hf. destruct Hf as [Hin Hdir].
    repeat split; [exact Hin | exact Hdir | |].
    + eapply Qle_trans; [|exact Hs]. discriminate.
    + intros g Hg Hgd Hne. apply Qnot_le_lt. intros Hle.
      destruct (proj2 (Hhigh g) (conj (proj2 (Hfiles g) (conj Hg Hgd)) Hle)) as [<-|[]].
      now destruct Hne.
  - destruct files as [|f1 [|]]; try discriminate.
    destruct (Qle_bool (7 # 10) (result_score f1)) eqn:Hq; [|discriminate].
    injection Hb as <-. now apply (Honly f1).
Qed.

End WithHost.

(** Witness of [reading_plans_change_nothing]: a plan that reads [a.txt]. *)
Lemma reading_plans_change_nothing_witness :
  world (final_state
           (execute_plan (H1 := demo_bodies) demo_llm
              (mkPlan "read" [mkAction "read_file" [("path", VStr "a.txt")]])
              (mkState demo_world [true] [])))
  = demo_world.
Proof.
  apply (reading_plans_change_nothing (H1 := demo_bodies) demo_llm
           (mkPlan "read" [mkAction "read_file" [("path", VStr "a.txt")]])
           (mkState demo_world [true] [])).
  repeat constructor.
Defined.

(** Witness of [write_file_needs_its_own_yes]: the user answers no. *)
Lemma write_file_needs_its_own_yes_witness :
  world (final_state
           (_exec_write_file
              (mkAction "write_file" [("path", VStr "a.txt"); ("content", VStr "hi")])
              (mkState demo_world [false] [])))
  = demo_world.
Proof.
  apply (write_file_needs_its_own_yes
           (mkAction "write_file" [("path", VStr "a.txt"); ("content", VStr "hi")])
           (mkState demo_world [false] [])).
  intros rest. discriminate.
Defined.

(** Witness of [malformed_integer_stops_the_run]: [max_bytes] is "many",
    and the write behind it is not run. *)
Lemma malformed_integer_stops_the_run_witness :
  run_actions (H1 := demo_bodies) demo_llm 1
    [mkAction "read_file" [("path", VStr "a.txt"); ("max_bytes", VStr "many")];
     mkAction "write_file" [("path", VStr "a.txt"); ("content", VStr "hi")]]
    (mkState demo_world [true] [])
  = Raise (mkExn ValueError "invalid literal for int() with base 10")
      (mkState demo_world [true] [EPrint ""; ERule 1 "read_file"]).
Proof.
  apply (malformed_integer_stops_the_run (H1 := demo_bodies) demo_llm 1
           (mkAction "read_file" [("path", VStr "a.txt"); ("max_bytes", VStr "many")])
           [mkAction "write_file" [("path", VStr "a.txt"); ("content", VStr "hi")]]
           (mkState demo_world [true] []) "max_bytes" "many").
  - left. reflexivity.
  - reflexivity.
  - reflexivity.
Defined.

(** Witness of [skipped_actions_do_not_stop_the_run]: an unknown tool in
    front of a reading. *)
Lemma skipped_actions_do_not_stop_the_run_witness :
  exists text,
    run_actions (H1 := demo_bodies) demo_llm 1
      [mkAction "format_disk" []; mkAction "read_file" [("path", VStr "a.txt")]]
      (mkState demo_world [] [])
    = run_actions (H1 := demo_bodies) demo_llm 2
        [mkAction "read_file" [("path", VStr "a.txt")]]
        (mkState demo_world [] [EPrint ""; ERule 1 "format_disk"; EPrint text]).
Proof.
  apply (skipped_actions_do_not_stop_the_run (H1 := demo_bodies) demo_llm 1
           (mkAction "format_disk" []) [mkAction "read_file" [("path", VStr "a.txt")]]
           (mkState demo_world [] [])).
  apply skipped_unknown. cbn. intuition discriminate.
Defined.

(** Witness of [offered_file_is_a_confident_match]: one file found, with
    score 0.95. *)
Lemma offered_file_is_a_confident_match_witness :
  exists results,
    dict_get "results"
      [("ok", VBool true);
       ("results",
        VList [candidate_dict (mkCandidate "/work/a.txt" "/work" false (Some 3%Z) (95 # 100))])]
    = Some (VList results)
    /\ In (candidate_dict (mkCandidate "/work/a.txt" "/work" false (Some 3%Z) (95 # 100)))
         results.
Proof.
  destruct (offered_file_is_a_confident_match
              [("ok", VBool true);
               ("results",
                VList [candidate_dict
                         (mkCandidate "/work/a.txt" "/work" false (Some 3%Z) (95 # 100))])]
              (candidate_dict (mkCandidate "/work/a.txt" "/work" false (Some 3%Z) (95 # 100)))
              eq_refl) as (results & Hres & Hin & _).
  exists results. split; [exact Hres | exact Hin].
Defined.

End ActionFacts.

(** ** agent_cli.py: the runs that execute nothing *)

Module CliFacts.
Import Py Host Models Executor Cli PyFacts Demo.


Section WithHost.
Context `{PyLib} `{OS} `{Tools.ToolBodies}.
Context (llm : Planner.LLMClient) (tool_specs : string).
Context (parse_args : list string -> Args + Z).


End WithHost.


(** A command that the parser does not know, and a planner that raises
    (the answer is a number of 4301 digits, and [main] ends with the
    [ValueError] of [json.loads]). *)
Example main_ends_early :
  main (H1 := demo_bodies) demo_llm "" demo_parse_args ["run"; "tidy"; "up"]
    (mkState demo_world [true] [])
  = Ret 2%Z (mkState demo_world [true] [])
  /\ main (H1 := demo_bodies) {| Planner.chat := fun _ _ _ => ones 4301 |} ""
       demo_parse_args ["do"; "tidy"; "up"] (mkState demo_world [true] [])
     = Raise too_many_digits (mkState demo_world [true] [EChat "tidy up" "action"]).
Proof. split; vm_compute; reflexivity. Qed.

End CliFacts.

(** ** Which panel shows the result of which tool *)

Module RenderFacts.
Import Py Host Tools Render PyFacts.

(** [yields P m]: every dictionary that [m] returns satisfies [P]. *)
Definition yields (P : dict -> Prop) (m : M World dict) : Prop :=
  forall w r w', m w = Ret r w' -> P r.

Lemma yields_ret (P : dict -> Prop) (d : dict) : P d -> yields P (ret d).
Proof. intros Hd w r w' [= <- _]. exact Hd. Qed.

Lemma yields_bind {A} (P : dict -> Prop) (m : M World A) (k : A -> M World dict) :
  (forall a, yields P (k a)) -> yields P (bind m k).
Proof.
  intros Hk w r w' E. unfold bind in E.
  destruct (m w) as [a w1|e w1]; [|discriminate]. exact (Hk a w1 r w' E).
Qed.

Lemma yields_try (P : dict -> Prop) (body : M World dict) catches handler :
  yields P body -> (forall e, yields P (handler e)) ->
  yields P (try_except body catches handler).
Proof.
  intros Hb Hh w r w' E. unfold try_except in E.
  destruct (body w) as [a w1|e w1] eqn:Eb.
  - injection E as <- <-. exact (Hb w a w1 Eb).
  - destruct (catches e); [|discriminate]. exact (Hh e w1 r w' E).
Qed.

Section WithHost.
Context `{PyLib} `{OS}.

(** A result is drawn as [p]: a success by the panel [p], a failure by the
    error panel with its message. *)
Definition drawn_as (p : panel) (r : dict) : Prop :=
  (dict_get "ok" r = Some (VBool true) /\ _print_result_panel r = p)
  \/ (dict_get "ok" r = Some (VBool false)
      /\ exists msg, dict_get "error" r = Some (VStr msg)
                     /\ _print_result_panel r = PError msg).

Lemma drawn_error (p : panel) (msg : string) : drawn_as p (error_dict msg).
Proof. right. split; [reflexivity|]. exists msg. split; reflexivity. Qed.

Ltac yields_step :=
  first
    [ progress cbv zeta
    | apply yields_ret; first [apply drawn_error | left; split; reflexivity]
    | apply yields_try; [|intros]
    | apply yields_bind; intros
    | match goal with
      | |- yields _ (if ?b then _ else _) => destruct b
      | |- yields _ (match ?x with _ => _ end) => destruct x
      end ].

(** X15.  Every result of the five modelled tools is drawn by the panel
    meant for it.  [_print_result] picks the panel by the keys it finds, in
    a fixed order; whatever [run_shell], [read_file], [write_file],
    [find_item] and [copy_file] return, a success is drawn by the panel of
    that tool (a shell command also when its return code is not 0) and a
    failure by the error panel with the tool's message. *)
Theorem results_are_drawn_by_their_own_panel (w w' : World) (r : dict) :
  (forall command, run_shell command w = Ret r w' -> drawn_as PCommand r)
  /\ (forall path max_bytes,
        read_file path max_bytes w = Ret r w' -> drawn_as PFileContent r)
  /\ (forall path content mode,
        write_file path content mode w = Ret r w' -> drawn_as PFileWritten r)
  /\ (forall name max_results threshold,
        find_item name max_results threshold w = Ret r w' -> drawn_as PSearchResults r)
  /\ (forall source destination,
        copy_file source destination w = Ret r w' ->
        drawn_as (PCopiedOrMoved "Copied") r).
Proof.
  split; [|split; [|split; [|split]]].
  - intros command. revert w r w'. change (yields (drawn_as PCommand) (run_shell command)).
    unfold run_shell. repeat yields_step.
  - intros path max_bytes. revert w r w'.
    change (yields (drawn_as PFileContent) (read_file path max_bytes)).
    unfold read_file. repeat yields_step.
  - intros path content mode. revert w r w'.
    change (yields (drawn_as PFileWritten) (write_file path content mode)).
    unfold write_file. repeat yields_step.
  - intros name max_results threshold. revert w r w'.
    change (yields (drawn_as PSearchResults) (find_item name max_results threshold)).
    unfold find_item. repeat yields_step.
  - intros source destination. revert w r w'.
    change (yields (drawn_as (PCopiedOrMoved "Copied")) (copy_file source destination)).
    unfold copy_file. repeat yields_step.
Qed.

End WithHost.

End RenderFacts.

(** ** [_normalize_path] and the folder names *)

Module NormalizeFacts.
Import Py Host Tools Executor PyFacts HostFacts ToolsFacts FileFacts Demo.

Fixpoint has_char (ch : ascii) (s : string) : bool :=
  match s with
  | EmptyString => false
  | String c t => Ascii.eqb c ch || has_char ch t
  end.

(** A component of a path as [str(p)] prints it: not empty, not a single
    dot, without a slash or a backslash. *)
Definition plain (c : string) : Prop :=
  c <> "" /\ c <> "." /\ has_char "/" c = false /\ has_char "\" c = false.

(** [str(p)] of a path that is not the root. *)
Fixpoint glue (cs : list string) : string :=
  match cs with
  | [] => ""
  | c :: rest => "/" ++ c ++ glue rest
  end.

Lemma append_cons (a : ascii) (s t : string) : String a s ++ t = String a (s ++ t).
Proof. reflexivity. Qed.

Lemma append_nil_r (s : string) : s ++ "" = s.
Proof. induction s as [|a s IH]; [reflexivity|]. now rewrite append_cons, IH. Qed.

Lemma append_assoc (a b c : string) : (a ++ b) ++ c = a ++ (b ++ c).
Proof. induction a as [|x a IH]; [reflexivity|]. now rewrite !append_cons, IH. Qed.

Lemma path_str_glue (p : path) : p <> [] -> path_str p = glue p.
Proof.
  destruct p as [|c rest]; [congruence|]. intros _. unfold path_str.
  revert c. induction rest as [|c2 rest IH]; intros c.
  - cbn [map String.concat glue]. now rewrite append_nil_r.
  - change (String.concat "" (map (fun c => "/" ++ c) (c :: c2 :: rest)))
      with (("/" ++ c) ++ "" ++ String.concat "" (map (fun c => "/" ++ c) (c2 :: rest))).
    rewrite IH. reflexivity.
Qed.

Lemma has_char_app ch (a b : string) :
  has_char ch (a ++ b) = has_char ch a || has_char ch b.
Proof.
  induction a as [|x a IH]; [reflexivity|].
  rewrite append_cons. cbn [has_char]. now rewrite IH, orb_assoc.
Qed.

Lemma has_char_glue (cs : list string) :
  Forall (fun c => has_char "\" c = false) cs -> has_char "\" (glue cs) = false.
Proof.
  induction 1 as [|c rest Hc Hrest IH]; [reflexivity|].
  cbn [glue]. change ("/" ++ c ++ glue rest) with (String "/" (c ++ glue rest)).
  cbn [has_char]. rewrite has_char_app, Hc, IH. reflexivity.
Qed.

Lemma replace_backslash_id (s : string) :
  has_char "\" s = false -> replace_backslash s = s.
Proof.
  unfold replace_backslash. induction s as [|a s IH]; [reflexivity|].
  cbn [has_char list_ascii_of_string map string_of_list_ascii].
  intros Hs. apply orb_false_elim in Hs. destruct Hs as [Ha Hs].
  now rewrite Ha, IH.
Qed.

Lemma split_aux_plain sep (c : string) :
  has_char sep c = false ->
  forall cur rest,
    PyPath.split_aux sep cur (c ++ rest) = PyPath.split_aux sep (cur ++ c) rest.
Proof.
  induction c as [|a c IH]; intros Hc cur rest.
  - now rewrite append_nil_r.
  - cbn [has_char] in Hc. apply orb_false_elim in Hc. destruct Hc as [Ha Hc].
    rewrite append_cons. cbn [PyPath.split_aux].
    rewrite Ha, (IH Hc), append_assoc. reflexivity.
Qed.

Lemma split_aux_glue (cs : list string) :
  Forall (fun c => has_char "/" c = false) cs ->
  forall cur, PyPath.split_aux "/" cur (glue cs) = cur :: cs.
Proof.
  induction 1 as [|c rest Hc Hrest IH]; intros cur; [reflexivity|].
  cbn [glue]. change ("/" ++ c ++ glue rest) with (String "/" (c ++ glue rest)).
  cbn [PyPath.split_aux]. change (Ascii.eqb "/" "/") with true. cbv iota.
  now rewrite (split_aux_plain _ c Hc), IH.
Qed.

Lemma filter_nonempty (cs : list string) :
  Forall (fun c => c <> "") cs ->
  filter (fun part => negb (String.eqb part "")) cs = cs.
Proof.
  induction 1 as [|c rest Hc Hrest IH]; [reflexivity|].
  rewrite filter_cons, decide_True, IH; [reflexivity|].
  destruct (String.eqb_spec c ""); [contradiction | exact I].
Qed.

Lemma fold_join (cs : list string) (base : path) :
  Forall (fun c => c <> ".") cs -> fold_left join_part cs base = (base ++ cs)%list.
Proof.
  intros F. revert base. induction F as [|c rest Hc Hrest IH]; intros base; simpl.
  - now rewrite app_nil_r.
  - rewrite IH. unfold join_part, joinpath.
    destruct (String.eqb_spec c "."); [contradiction|]. now rewrite <- app_assoc.
Qed.

Lemma find_mapped_cut (h : path) (pre : list string) (kw : string) (rest : list string)
    (base : path) :
  Forall (fun c => folder_mapping h (PyStr.lower c) = None) pre ->
  folder_mapping h (PyStr.lower kw) = Some base ->
  Forall (fun c => c <> ".") rest ->
  find_mapped h (pre ++ kw :: rest) = Some (base ++ rest)%list.
Proof.
  intros Hpre Hkw Hrest. induction Hpre as [|c pre Hc Hpre IH]; simpl.
  - now rewrite Hkw, fold_join.
  - now rewrite Hc.
Qed.

Section WithHost.
Context `{PyLib} `{OS}.

(** What is in front of a folder name is dropped. *)
Lemma normalize_cut (w : World) (h : path) (pre : list string) (kw : string)
    (rest : list string) (base : path) :
  home w = Some h ->
  Forall plain (pre ++ kw :: rest) ->
  PyStr.strip (path_str (pre ++ kw :: rest)) = path_str (pre ++ kw :: rest) ->
  Forall (fun c => folder_mapping h (PyStr.lower c) = None) pre ->
  folder_mapping h (PyStr.lower kw) = Some base ->
  _normalize_path (path_str (pre ++ kw :: rest)) w = Ret (base ++ rest)%list w.
Proof.
  intros Hh Hplain Hstrip Hpre Hkw.
  assert (Hne : (pre ++ kw :: rest)%list <> []) by (now destruct pre).
  unfold _normalize_path. cbv zeta. rewrite Hstrip.
  rewrite (bind_Ret _ _ w w h) by (unfold get_home; now rewrite Hh).
  rewrite (path_str_glue _ Hne).
  rewrite replace_backslash_id.
  2:{ apply has_char_glue. eapply Forall_impl; [exact Hplain|]. intros c Hc. apply Hc. }
  unfold PyPath.split. rewrite split_aux_glue.
  2:{ eapply Forall_impl; [exact Hplain|]. intros c Hc. apply Hc. }
  rewrite filter_cons, decide_False by (intros []).
  rewrite filter_nonempty.
  2:{ eapply Forall_impl; [exact Hplain|]. intros c Hc. apply Hc. }
  assert (Hfm : find_mapped h (pre ++ kw :: rest) = Some (base ++ rest)%list).
  { apply find_mapped_cut; [exact Hpre | exact Hkw |].
    apply Forall_app in Hplain. destruct Hplain as [_ Hk].
    inversion Hk as [|? ? _ Hr]; subst.
    eapply Forall_impl; [exact Hr|]. intros c Hc. apply Hc. }
  destruct (pre ++ kw :: rest)%list as [|first others] eqn:E; [congruence|].
  cbn [find_mapped] in Hfm.
  rewrite Hfm. reflexivity.
Qed.

(** X16.  A folder name anywhere in an absolute path cuts the path there.
    For the text of an absolute path whose components are plain, and in
    which [kw] is the first component that is one of the folder names
    (downloads, documents, desktop, home and their variants, in any letter
    case), [_normalize_path] returns the mapped folder followed by the
    components behind [kw]: what stands in front of [kw], the leading slash
    included, is dropped. *)
Theorem normalize_path_cuts_at_folder_names (w : World) (h : path)
    (pre : list string) (kw : string) (rest : list string) (base : path) :
  home w = Some h ->
  Forall plain (pre ++ kw :: rest) ->
  PyStr.strip (path_str (pre ++ kw :: rest)) = path_str (pre ++ kw :: rest) ->
  Forall (fun c => folder_mapping h (PyStr.lower c) = None) pre ->
  folder_mapping h (PyStr.lower kw) = Some base ->
  _normalize_path (path_str (pre ++ kw :: rest)) w = Ret (base ++ rest)%list w.
Proof. apply normalize_cut. Qed.

Lemma plain_home : plain "home".
Proof. repeat split; discriminate. Qed.

(** The text of a path below [/home/u] is normalized to a path one [u]
    deeper when [/home/u] is the home directory. *)
Lemma normalize_below_home (w : World) (u comps : list string) :
  home w = Some ("home" :: u) ->
  Forall plain (u ++ comps) ->
  PyStr.strip (path_str ("home" :: u ++ comps)) = path_str ("home" :: u ++ comps) ->
  _normalize_path (path_str ("home" :: u ++ comps)) w
  = Ret ("home" :: u ++ u ++ comps)%list w.
Proof.
  intros Hh Hplain Hstrip.
  apply (normalize_cut w ("home" :: u) [] "home" (u ++ comps) ("home" :: u) Hh).
  - constructor; [exact plain_home | exact Hplain].
  - exact Hstrip.
  - constructor.
  - reflexivity.
Qed.

Lemma deeper_is_different (u comps : list string) :
  u <> [] -> ("home" :: u ++ comps)%list <> ("home" :: u ++ u ++ comps)%list.
Proof.
  intros Hu E. injection E as E. apply app_inv_head in E.
  apply (f_equal (@length string)) in E. rewrite length_app in E.
  destruct u; [congruence | simpl in E; lia].
Qed.


Lemma lift_Ret {A} (m : M World A) (st : State) (a : A) :
  m (world st) = Ret a (world st) -> lift m st = Ret a st.
Proof. intros Hm. unfold lift. rewrite Hm. now destruct st. Qed.

(** X18.  A confirmed write misses the file that was asked about.
    [_exec_write_file] normalizes the path, shows and asks about the
    result [p], and then passes the text of [p] to [write_file], which
    normalizes it again.  When the home directory is [/home/u...] and [p]
    is an existing file or directory below it, given without [..], the
    user's yes leaves [p] as it was: the call returns, and a successful
    write has put the content one [u] deeper.  (Through enough [..] both
    paths can lead to the same file.) *)
Theorem confirmed_write_misses_the_file_asked_about (action : Models.Action)
    (st : State) (path content mode : string) (u comps : list string)
    (rest : list bool) (n : node) :
  PyStr.strip (py_str (dict_get_default "path" (VStr "") (Models.args action))) = path ->
  py_str (dict_get_default "content" (VStr "") (Models.args action)) = content ->
  py_str (dict_get_default "mode" (VStr "overwrite") (Models.args action)) = mode ->
  path <> "" ->
  home (world st) = Some ("home" :: u) ->
  u <> [] ->
  _normalize_path path (world st) = Ret ("home" :: u ++ comps)%list (world st) ->
  Forall plain (u ++ comps) ->
  Forall (fun c => c <> "..") (u ++ comps) ->
  PyStr.strip (path_str ("home" :: u ++ comps)) = path_str ("home" :: u ++ comps) ->
  node_at (world st) ("home" :: u ++ comps) = Some n ->
  replies st = true :: rest ->
  exists preview r w',
    _exec_write_file action st
    = Ret tt (mkState w' rest
                (trace st
                 ++ [EPanel "File Write Preview" preview;
                     EAsk ("[bold white]Write to file[/bold white] [italic]"
                           ++ path_str ("home" :: u ++ comps) ++ "[/italic]?") false true;
                     ECall "write_file"
                       [VStr (path_str ("home" :: u ++ comps)); VStr content; VStr mode];
                     EResult r])%list)
    /\ node_at w' ("home" :: u ++ comps) = Some n
    /\ (dict_get "ok" r = Some (VBool true) ->
        exists d, node_at w' ("home" :: u ++ u ++ comps) = Some (File d)).
Proof.
  intros Hpath Hcontent Hmode Hne Hh Hu Hnorm Hplain Hdots Hstrip Hn Hr.
  set (p := ("home" :: u ++ comps)%list) in *.
  set (p' := ("home" :: u ++ u ++ comps)%list).
  pose proof (normalize_below_home (world st) u comps Hh Hplain Hstrip) as Hnorm2.
  fold p p' in Hnorm2.
  assert (Hdiff : p <> p') by (now apply deeper_is_different).
  assert (Fp : Forall (fun c => c <> "..") p) by (constructor; [discriminate | exact Hdots]).
  assert (Fp' : Forall (fun c => c <> "..") p').
  { constructor; [discriminate|]. apply Forall_app. split; [|exact Hdots].
    apply Forall_app in Hdots. tauto. }
  (* what the call of [write_file] does *)
  assert (Hcall : exists r w',
            write_file (path_str p) content mode (world st) = Ret r w'
            /\ node_at w' p = Some n
            /\ (dict_get "ok" r = Some (VBool true) ->
                exists d, node_at w' p' = Some (File d))).
  { pose proof (write_file_plain_frame (path_str p) content mode (world st) p' p n
                  Hnorm2 Fp' Fp Hdiff Hn) as Hframe.
    pose proof (write_file_cases (path_str p) content mode (world st) p' Hnorm2) as Hc.
    cbv zeta in Hc. destruct Hc as [(msg & Hm & _)|(k & Hk & Hnd & Hm)];
      rewrite Hm in Hframe; cbn [final_state] in Hframe.
    - eexists _, _. split; [exact Hm|]. split; [exact Hframe | discriminate].
    - eexists _, _. split; [exact Hm|]. split; [exact Hframe|].
      intros _. eexists. now apply node_at_written_self. }
  destruct Hcall as (r & w' & Hw & Hkeep & Hland).
  unfold _exec_write_file, _print_result. cbv zeta. rewrite Hpath, Hcontent, Hmode.
  unfold is_empty. destruct (String.eqb_spec path "") as [|_]; [contradiction|].
  rewrite (bind_Ret _ _ st st p) by (apply lift_Ret; exact Hnorm).
  match goal with
  | |- context [bind (lift ?m) _] =>
      assert (Hb : exists t, m (world st) = Ret t (world st))
  end.
  { unfold bind, path_exists, exists_, try_except, read_bytes.
    rewrite Hn. cbv beta iota. rewrite Hn. destruct n; eexists; reflexivity. }
  destruct Hb as [t Hb].
  rewrite (bind_Ret _ _ st st t) by (apply lift_Ret; exact Hb).
  unfold bind, emit, ask, call, lift, bind, emit. cbn [world replies trace].
  rewrite Hr. cbn [negb world replies trace]. rewrite Hw.
  cbn [world replies trace]. rewrite <- !app_assoc. cbn [app].
  eexists _, r, w'.
  split; [reflexivity|]. split; [exact Hkeep | exact Hland].
Qed.

End WithHost.

Ltac plain_components :=
  repeat constructor; try discriminate; reflexivity.

(** Witness of [normalize_path_cuts_at_folder_names]: [/srv/Documents/x.txt]
    becomes [/home/u/Documents/x.txt]. *)
Lemma normalize_path_cuts_at_folder_names_witness :
  _normalize_path "/srv/Documents/x.txt" demo_world
  = Ret ["home"; "u"; "Documents"; "x.txt"] demo_world.
Proof.
  assert (Hh : home demo_world = Some ["home"; "u"]) by reflexivity.
  assert (Hplain : Forall plain (["srv"] ++ "Documents" :: ["x.txt"]))
    by plain_components.
  assert (Hstrip : PyStr.strip (path_str (["srv"] ++ "Documents" :: ["x.txt"]))
                   = path_str (["srv"] ++ "Documents" :: ["x.txt"]))
    by (vm_compute; reflexivity).
  assert (Hpre : Forall (fun c => folder_mapping ["home"; "u"] (PyStr.lower c) = None)
                   ["srv"])
    by (repeat constructor).
  assert (Hkw : folder_mapping ["home"; "u"] (PyStr.lower "Documents")
                = Some ["home"; "u"; "Documents"])
    by reflexivity.
  exact (normalize_path_cuts_at_folder_names demo_world ["home"; "u"] ["srv"] "Documents"
           ["x.txt"] ["home"; "u"; "Documents"] Hh Hplain Hstrip Hpre Hkw).
Defined.


(** The other answer: with a regular file [/home/u/u] on the way. *)
Example read_file_below_home_through_a_file :
  let w := set_fs home_world (<[ ["home"; "u"; "u"] := File [] ]> (fs home_world)) in
  read_file "/home/u/n.txt" 10 w
  = Ret (error_dict "[Errno 20] Not a directory: '/home/u/u/n.txt'") w.
Proof. vm_compute. reflexivity. Qed.

(** Through enough [..] the path shown and the path written lead to the
    same file: with the home directory [/home/u], "home/../../../f" is
    shown as [/home/u/../../../f], which is [/f]; its text is normalized
    again to [/home/u/u/../../../f], which is [/f] too once [u/u] has been
    made, and the file asked about is replaced. *)
Example confirmed_write_through_dotdot :
  let w := mkWorld (<[ ["home"] := Dir ]>
                    (<[ ["home"; "u"] := Dir ]>
                    (<[ ["f"] := File (bytes "old") ]> ∅)))
             (Some ["home"; "u"]) (Some ["home"; "u"]) in
  _normalize_path "home/../../../f" w = Ret ["home"; "u"; ".."; ".."; ".."; "f"] w
  /\ node_at w ["home"; "u"; ".."; ".."; ".."; "f"] = Some (File (bytes "old"))
  /\ world (final_state
              (_exec_write_file
                 (Models.mkAction "write_file"
                    [("path", VStr "home/../../../f"); ("content", VStr "new")])
                 (mkState w [true] [])))
     = set_fs (set_fs w (<[ ["home"; "u"; "u"] := Dir ]> (fs w)))
         (<[ ["f"] := File (bytes "new") ]> (<[ ["home"; "u"; "u"] := Dir ]> (fs w))).
Proof. repeat split; vm_compute; reflexivity. Qed.

(** Witness of [confirmed_write_misses_the_file_asked_about]: the user
    agrees to overwrite [n.txt] in the home directory, and it keeps its
    old content. *)
Lemma confirmed_write_misses_the_file_asked_about_witness :
  exists preview r w',
    _exec_write_file
      (Models.mkAction "write_file" [("path", VStr "n.txt"); ("content", VStr "new")])
      (mkState home_world [true] [])
    = Ret tt (mkState w' []
                [EPanel "File Write Preview" preview;
                 EAsk "[bold white]Write to file[/bold white] [italic]/home/u/n.txt[/italic]?"
                   false true;
                 ECall "write_file" [VStr "/home/u/n.txt"; VStr "new"; VStr "overwrite"];
                 EResult r])
    /\ node_at w' ["home"; "u"; "n.txt"] = Some (File (bytes "old")).
Proof.
  assert (Hh : home home_world = Some ("home" :: ["u"])) by reflexivity.
  assert (Hu : ["u"] <> []) by discriminate.
  assert (Hne : "n.txt" <> "") by discriminate.
  assert (Hnorm : _normalize_path "n.txt" home_world
                  = Ret ("home" :: ["u"] ++ ["n.txt"])%list home_world)
    by (vm_compute; reflexivity).
  assert (Hplain : Forall plain (["u"] ++ ["n.txt"])) by plain_components.
  assert (Hdots : Forall (fun c => c <> "..") (["u"] ++ ["n.txt"]))
    by (repeat constructor; discriminate).
  assert (Hstrip : PyStr.strip (path_str ("home" :: ["u"] ++ ["n.txt"]))
                   = path_str ("home" :: ["u"] ++ ["n.txt"]))
    by (vm_compute; reflexivity).
  assert (Hn : node_at home_world ("home" :: ["u"] ++ ["n.txt"])
               = Some (File (bytes "old")))
    by (vm_compute; reflexivity).
  destruct (confirmed_write_misses_the_file_asked_about
              (Models.mkAction "write_file" [("path", VStr "n.txt"); ("content", VStr "new")])
              (mkState home_world [true] []) "n.txt" "new" "overwrite" ["u"] ["n.txt"] []
              (File (bytes "old"))
              eq_refl eq_refl eq_refl Hne Hh Hu Hnorm Hplain Hdots Hstrip Hn eq_refl)
    as (preview & r & w' & E & Hkeep & _).
  exists preview, r, w'. split; [exact E | exact Hkeep].
Defined.

End NormalizeFacts.

(** ** The range of the similarity score *)

Module ScoreFacts.
Import Difflib Fuzzy.

(** The entries of a row of [j2len] from column [j] on: a block that ends
    in row [n - 1] and column [j] is no longer than [n] and than [j + 1],
    and the row does not reach beyond the [lb] columns. *)
Fixpoint row_ok (n j lb : nat) (row : list nat) : Prop :=
  match row with
  | [] => True
  | k :: rest => (k <= n /\ k <= S j /\ j < lb)%nat /\ row_ok n (S j) lb rest
  end.

(** A block that lies inside both sequences. *)
Definition block_ok (la lb : nat) (m : nat * nat * nat) : Prop :=
  let '(i, j, k) := m in (i + k <= la /\ j + k <= lb)%nat.

Lemma row_ok_zero (lb j len : nat) :
  (j + len <= lb)%nat -> row_ok O j lb (repeat O len).
Proof.
  revert j. induction len as [|len IH]; intros j Hj; simpl; [exact I|].
  split; [lia|]. apply IH. lia.
Qed.

Lemma next_row_ok pop ai (b : list ascii) (prev : list nat) (diag n j lb : nat) :
  row_ok n j lb prev -> (diag <= n)%nat -> (diag <= j)%nat ->
  row_ok (S n) j lb (next_row pop ai b prev diag).
Proof.
  revert prev diag j. induction b as [|bj b IH]; intros prev diag j Hprev Hd Hj.
  - exact I.
  - destruct prev as [|pj prev]; [exact I|].
    destruct Hprev as [(Hp1 & Hp2 & Hlb) Hprev]. cbn [next_row row_ok]. split.
    + destruct (Ascii.eqb ai bj && negb (pop bj)); lia.
    + apply IH; [exact Hprev | exact Hp1 | exact Hp2].
Qed.

Lemma scan_row_ok (i la lb : nat) (row : list nat) (j : nat) (best : nat * nat * nat) :
  (i < la)%nat -> row_ok (S i) j lb row -> block_ok la lb best ->
  block_ok la lb (scan_row i row j best).
Proof.
  intros Hi. revert j best. induction row as [|k row IH]; intros j best Hrow Hbest.
  - exact Hbest.
  - destruct Hrow as [(Hk1 & Hk2 & Hlb) Hrow]. cbn [scan_row]. apply IH; [exact Hrow|].
    destruct (snd best <? k)%nat; [|exact Hbest].
    unfold block_ok. lia.
Qed.

Lemma longest_rows_ok pop (a : list ascii) (i : nat) (b : list ascii) (prev : list nat)
    (best : nat * nat * nat) (la lb : nat) :
  (i + length a = la)%nat -> row_ok i O lb prev -> block_ok la lb best ->
  block_ok la lb (longest_rows pop a i b prev best).
Proof.
  revert i prev best. induction a as [|ai a IH]; intros i prev best Hla Hprev Hbest.
  - exact Hbest.
  - cbn [longest_rows]. cbn [length] in Hla.
    assert (Hrow : row_ok (S i) O lb (next_row pop ai b prev O))
      by (apply next_row_ok; [exact Hprev | lia | lia]).
    apply IH; [lia | exact Hrow |].
    apply scan_row_ok; [lia | exact Hrow | exact Hbest].
Qed.

Lemma extend_left_ok (fuel : nat) (a b : list ascii) (m : nat * nat * nat) (la lb : nat) :
  block_ok la lb m -> block_ok la lb (extend_left fuel a b m).
Proof.
  revert m. induction fuel as [|fuel IH]; intros [[i j] k] Hm; [exact Hm|].
  cbn [extend_left].
  destruct ((0 <? i)%nat && (0 <? j)%nat
            && Ascii.eqb (char_at a (i - 1)) (char_at b (j - 1))) eqn:E; [|exact Hm].
  apply IH. apply andb_prop in E. destruct E as [E _].
  apply andb_prop in E. destruct E as [Ei Ej].
  apply Nat.ltb_lt in Ei, Ej. unfold block_ok in *. lia.
Qed.

Lemma extend_right_ok (fuel : nat) (a b : list ascii) (m : nat * nat * nat) :
  block_ok (length a) (length b) m ->
  block_ok (length a) (length b) (extend_right fuel a b m).
Proof.
  revert m. induction fuel as [|fuel IH]; intros [[i j] k] Hm; [exact Hm|].
  cbn [extend_right].
  destruct ((i + k <? length a)%nat && (j + k <? length b)%nat
            && Ascii.eqb (char_at a (i + k)) (char_at b (j + k))) eqn:E; [|exact Hm].
  apply IH. apply andb_prop in E. destruct E as [E _].
  apply andb_prop in E. destruct E as [Ei Ej].
  apply Nat.ltb_lt in Ei, Ej. unfold block_ok in *. lia.
Qed.

Lemma find_longest_match_ok pop (a b : list ascii) :
  block_ok (length a) (length b) (find_longest_match pop a b).
Proof.
  unfold find_longest_match. cbv zeta.
  apply extend_right_ok, extend_left_ok.
  apply longest_rows_ok; [reflexivity | apply row_ok_zero; lia | unfold block_ok; lia].
Qed.

(** The matching blocks do not overlap: together they are no longer than
    either sequence. *)
Lemma matches_le (fuel : nat) pop (a b : list ascii) :
  (matches fuel pop a b <= length a /\ matches fuel pop a b <= length b)%nat.
Proof.
  revert a b. induction fuel as [|fuel IH]; intros a b; [simpl; lia|].
  cbn [matches]. pose proof (find_longest_match_ok pop a b) as Hm.
  destruct (find_longest_match pop a b) as [[i j] k]. unfold block_ok in Hm.
  destruct (k =? 0)%nat; [lia|].
  destruct (IH (firstn i a) (firstn j b)) as [L1 L2].
  destruct (IH (skipn (i + k) a) (skipn (j + k) b)) as [R1 R2].
  rewrite length_firstn in L1, L2. rewrite length_skipn in R1, R2.
  destruct ((0 <? i)%nat && (0 <? j)%nat);
    destruct ((i + k <? length a)%nat && (j + k <? length b)%nat); lia.
Qed.

Lemma ratio_bounds (sa sb : string) : (0 <= ratio sa sb <= 1)%Q.
Proof.
  unfold ratio. cbv zeta.
  set (a := list_ascii_of_string sa). set (b := list_ascii_of_string sb).
  destruct (Nat.eqb_spec (length a + length b) 0) as [|Hne].
  { split; discriminate. }
  destruct (matches_le (S (length a)) (popular b) a b) as [Ha Hb].
  unfold Qle. cbn [Qnum Qden].
  rewrite <- Znat.positive_nat_Z, Nat2Pos.id by exact Hne. split; lia.
Qed.

(** X19.  The score lies between 0 and 1.05.  Whatever the query and the
    target, [_fuzzy_match_score] returns a number that is not negative and
    not above 1.05, the preference factor for stem matches. *)
Theorem fuzzy_score_bounds (query target : string) :
  (0 <= _fuzzy_match_score query target <= 105 # 100)%Q.
Proof.
  unfold _fuzzy_match_score. cbv zeta.
  destruct (String.eqb _ _); [split; discriminate|].
  destruct (PyStr.contains (PyStr.lower query) (PyStr.lower target)).
  { destruct (PyStr.startswith _ _); split; discriminate. }
  match goal with
  | |- context [match ?x with Some _ => _ | None => _ end] =>
      assert (Hs : forall s, x = Some s -> (0 <= s <= 105 # 100)%Q);
      [|destruct x as [s|]; [now apply Hs|]]
  end.
  { intros s. destruct (negb _); [|discriminate].
    destruct (String.eqb _ _); [intros [= <-]; split; discriminate|].
    destruct (PyStr.contains _ _); [|discriminate].
    destruct (PyStr.startswith _ _); intros [= <-]; split; discriminate. }
  pose proof (ratio_bounds (PyStr.lower query) (PyStr.lower target)) as [F0 F1].
  pose proof (ratio_bounds (PyStr.lower query)
                (PyStr.lower (PyPath.path_stem target))) as [S0 S1].
  assert (Hstem : (0 <= Difflib.ratio (PyStr.lower query)
                          (PyStr.lower (PyPath.path_stem target)) * (105 # 100)
                   <= 105 # 100)%Q).
  { split.
    - apply Qmult_le_0_compat; [exact S0 | discriminate].
    - eapply Qle_trans; [apply Qmult_le_compat_r; [exact S1 | discriminate]|].
      discriminate. }
  unfold py_max. destruct (Qle_bool _ _).
  - split; [exact F0|]. eapply Qle_trans; [exact F1 | discriminate].
  - exact Hstem.
Qed.

End ScoreFacts.

(** ** Moving a file *)

Module MoveFacts.
Import Py Host Tools MoveFile PyFacts HostFacts ToolsFacts FileFacts Demo.

(** Where [shutil.move] puts the file: under the name of the source when
    the destination that [move_file] settled on is a directory once its
    parent has been made. *)
Definition move_target (w : World) (src dst : path) : path :=
  let target := copy_target w src dst in
  landing (final_state (mkdir_parents (parent target) w)) src target.

(** The world after the file at the place [ks] was renamed to the place
    [kd]. *)
Definition renamed (w : World) (ks kd : path) (d : list byte) : World :=
  set_fs w (<[kd := File d]> (delete ks (fs w))).

Lemma stored_renamed (w : World) (ks kd k : path) (d : list byte) :
  ks <> [] -> kd <> [] ->
  stored (renamed w ks kd d) k
  = if decide (k = kd) then Some (File d)
    else if decide (k = ks) then None else stored w k.
Proof.
  intros Hs Hd. unfold renamed.
  destruct (decide (k = kd)) as [->|Hkd].
  - destruct kd; [congruence|]. simpl. apply lookup_insert_eq.
  - destruct (decide (k = ks)) as [->|Hks].
    + destruct ks; [congruence|]. simpl.
      rewrite lookup_insert_ne by congruence. apply lookup_delete_eq.
    + destruct k; [reflexivity|]. simpl.
      rewrite lookup_insert_ne by congruence. now rewrite lookup_delete_ne by congruence.
Qed.

(** A rename of a file onto a file or onto nothing leaves the directories
    as they are, so every path leads where it led. *)
Lemma key_of_renamed (w : World) (ks kd : path) (d d0 : list byte) (q kq : path) :
  stored w ks = Some (File d0) -> stored w kd <> Some Dir ->
  (key_of (renamed w ks kd d) q = inl kq <-> key_of w q = inl kq).
Proof.
  intros Hs Hd.
  assert (Hs0 : ks <> []) by (intros ->; discriminate).
  assert (Hd0 : kd <> []) by (intros ->; now apply Hd).
  split; apply key_of_dirs_le; intros k Hk.
  - rewrite stored_renamed in Hk by assumption.
    destruct (decide (k = kd)); [discriminate|].
    destruct (decide (k = ks)); [discriminate | exact Hk].
  - rewrite stored_renamed by assumption.
    destruct (decide (k = kd)) as [->|_]; [contradiction|].
    destruct (decide (k = ks)) as [->|_]; [congruence | exact Hk].
Qed.

Lemma node_at_renamed (w : World) (ks kd : path) (d d0 : list byte) (q : path) :
  stored w ks = Some (File d0) -> stored w kd <> Some Dir ->
  node_at (renamed w ks kd d) q
  = match key_of w q with
    | inl kq => if decide (kq = kd) then Some (File d)
                else if decide (kq = ks) then None else stored w kq
    | inr _ => None
    end.
Proof.
  intros Hs Hd.
  assert (Hs0 : ks <> []) by (intros ->; discriminate).
  assert (Hd0 : kd <> []) by (intros ->; now apply Hd).
  unfold node_at. destruct (key_of w q) as [kq|e] eqn:E.
  - rewrite (proj2 (key_of_renamed w ks kd d d0 q kq Hs Hd) E).
    now apply stored_renamed.
  - destruct (key_of (renamed w ks kd d) q) as [kq|e'] eqn:E'; [|reflexivity].
    apply (key_of_renamed w ks kd d d0 q kq Hs Hd) in E'. congruence.
Qed.

Section WithHost.
Context `{OS} `{ToolBodies}.
Hypothesis Hbody : Tools.move_file_body = MoveFile.move_file_body.

Definition moved_dict (src target : path) : dict :=
  [("ok", VBool true); ("source", VStr (path_str src));
   ("destination", VStr (path_str target));
   ("operation",
    VStr (if bool_decide (parent src = parent target) then "renamed" else "moved"));
   ("message", VStr "File moved successfully")].

(** What [move_file] does once both paths are normalized; [ks] and [kd]
    are the places that the source and the landing path lead to. *)
Lemma move_file_cases (source destination : string) (w : World) (src dst : path) :
  _normalize_path source w = Ret src w ->
  _normalize_path destination w = Ret dst w ->
  let target := copy_target w src dst in
  let w1 := final_state (mkdir_parents (parent target) w) in
  let real := move_target w src dst in
  (exists msg, move_file source destination w = Ret (error_dict msg) w)
  \/ (exists msg, move_file source destination w = Ret (error_dict msg) w1)
  \/ (exists d ks kd,
        node_at w src = Some (File d)
        /\ key_of w1 src = inl ks /\ stored w1 ks = Some (File d)
        /\ key_of w1 real = inl kd /\ stored w1 kd <> Some Dir
        /\ move_file source destination w
           = Ret (moved_dict src target)
               (if bool_decide (ks = kd) then w1 else renamed w1 ks kd d)).
Proof.
  intros Hsrc Hdst target w1 real. unfold move_file. rewrite Hbody.
  match goal with
  | |- context [try_except ?b _ ?h] => set (body := b); set (handler := h)
  end.
  assert (Hbody' :
    (exists msg, body w = Ret (error_dict msg) w)
    \/ (exists e, body w = Raise e w1)
    \/ (exists d ks kd,
          node_at w src = Some (File d)
          /\ key_of w1 src = inl ks /\ stored w1 ks = Some (File d)
          /\ key_of w1 real = inl kd /\ stored w1 kd <> Some Dir
          /\ body w
             = Ret (moved_dict src target)
                 (if bool_decide (ks = kd) then w1 else renamed w1 ks kd d))).
  { subst body. unfold MoveFile.move_file_body.
    rewrite (bind_Ret _ _ _ _ _ Hsrc), (bind_Ret _ _ _ _ _ Hdst).
    rewrite (bind_Ret _ _ w w (exists_ w src)) by reflexivity.
    destruct (exists_ w src) eqn:Hse; cbn [negb]; [|left; eexists; reflexivity].
    rewrite (bind_Ret _ _ w w (is_dir w src)) by reflexivity.
    destruct (is_dir w src) eqn:Hsd; [left; eexists; reflexivity|].
    rewrite (bind_Ret _ _ w w (exists_ w dst)) by reflexivity.
    rewrite (bind_Ret _ _ w w (is_dir w dst)) by reflexivity.
    cbv zeta. fold (copy_target w src dst). fold target.
    assert (Hd : exists d, node_at w src = Some (File d)).
    { unfold exists_ in Hse. unfold is_dir in Hsd.
      destruct (node_at w src) as [[d|]|]; try discriminate. eauto. }
    destruct Hd as [d Hd]. right.
    assert (Hreal : real = landing w1 src target) by reflexivity.
    clearbody real.
    subst w1. destruct (mkdir_parents (parent target) w) as [[] w1|e w1] eqn:Hmk;
      cbn [final_state] in *.
    2:{ left. exists e. now apply bind_Raise. }
    rewrite (bind_Ret _ _ _ _ _ Hmk).
    assert (Hsrc1 : node_at w1 src = Some (File d)).
    { pose proof (mkdir_parents_preserves (parent target) w src (File d) Hd) as Hp.
      now rewrite Hmk in Hp. }
    assert (Hks : exists ks, key_of w1 src = inl ks /\ stored w1 ks = Some (File d)).
    { unfold node_at in Hsrc1. destruct (key_of w1 src) as [ks|e]; [eauto | discriminate]. }
    destruct Hks as (ks & Hks & Hst).
    assert (Hmove : shutil_move src target w1
                    = if is_dir w1 target && exists_ w1 real then
                        Raise (mkExn OSError
                                 ("Destination path '" ++ path_str real
                                  ++ "' already exists")) w1
                      else match check_writable real w1 with
                           | Some e => Raise e w1
                           | None =>
                               match key_of w1 real with
                               | inl kd =>
                                   if bool_decide (ks = kd) then Ret tt w1
                                   else Ret tt (renamed w1 ks kd d)
                               | inr _ => Ret tt w1
                               end
                           end).
    { unfold shutil_move. cbv zeta. rewrite Hreal. unfold landing, read_bytes.
      rewrite Hsrc1, Hks. reflexivity. }
    destruct (is_dir w1 target && exists_ w1 real) eqn:Hfull.
    { left. eexists. apply bind_Raise. exact Hmove. }
    destruct (check_writable real w1) as [e|] eqn:Hcw.
    { left. exists e. apply bind_Raise. exact Hmove. }
    apply check_writable_None in Hcw. destruct Hcw as (kd & Hkd & Hnd).
    rewrite Hkd in Hmove.
    right. exists d, ks, kd. repeat (split; [assumption|]).
    destruct (bool_decide (ks = kd));
      rewrite (bind_Ret _ _ _ _ _ Hmove); reflexivity. }
  destruct Hbody' as [[msg Hb]|[[e Hb]|(d & ks & kd & Hd & Hks & Hst & Hkd & Hnd & Hb)]].
  - left. exists msg. now apply try_Ret.
  - right. left. eexists. rewrite (try_Raise _ _ _ _ _ _ Hb). reflexivity.
  - right. right. exists d, ks, kd. repeat (split; [assumption|]). now apply try_Ret.
Qed.

(** X20.  [move_file] replaces an existing file without asking.  When the
    source is a file and the destination another existing file (the two
    paths do not lead to the same place), [move_file] reports success, the
    destination then holds the bytes of the source, its former content is
    gone, the source no longer exists, and nothing has changed at the
    paths that lead elsewhere ([copy_file] refuses in this situation). *)
Theorem move_file_replaces_an_existing_file (source destination : string) (w : World)
    (src dst : path) (d old : list byte) :
  _normalize_path source w = Ret src w ->
  _normalize_path destination w = Ret dst w ->
  node_at w src = Some (File d) ->
  node_at w dst = Some (File old) ->
  key_of w src <> key_of w dst ->
  exists w',
    move_file source destination w
    = Ret [("ok", VBool true); ("source", VStr (path_str src));
           ("destination", VStr (path_str dst));
           ("operation",
            VStr (if bool_decide (parent src = parent dst) then "renamed" else "moved"));
           ("message", VStr "File moved successfully")] w'
    /\ node_at w' dst = Some (File d)
    /\ node_at w' src = None
    /\ forall q, key_of w q <> key_of w src -> key_of w q <> key_of w dst ->
                 node_at w' q = node_at w q.
Proof.
  intros Hsrc Hdst Hd Hold Hne.
  assert (Hd0 : dst <> []) by (intros ->; discriminate Hold).
  assert (Hpar : node_at w (parent dst) = Some Dir)
    by (exact (node_at_parent w dst (File old) Hd0 Hold)).
  assert (Hks : exists ks, key_of w src = inl ks /\ stored w ks = Some (File d)).
  { unfold node_at in Hd. destruct (key_of w src) as [ks|e]; [eauto | discriminate]. }
  destruct Hks as (ks & Hks & Hsts).
  assert (Hkd : exists kd, key_of w dst = inl kd /\ stored w kd = Some (File old)).
  { unfold node_at in Hold. destruct (key_of w dst) as [kd|e]; [eauto | discriminate]. }
  destruct Hkd as (kd & Hkd & Hstd).
  assert (Hkne : ks <> kd) by (rewrite Hks, Hkd in Hne; congruence).
  assert (Hnd : stored w kd <> Some Dir) by (rewrite Hstd; discriminate).
  exists (renamed w ks kd d).
  split; [|split; [|split]].
  - unfold move_file. rewrite Hbody. apply try_Ret. unfold MoveFile.move_file_body.
    rewrite (bind_Ret _ _ _ _ _ Hsrc), (bind_Ret _ _ _ _ _ Hdst).
    rewrite (bind_Ret _ _ w w true)
      by (unfold path_exists, exists_; now rewrite Hd).
    cbn [negb].
    rewrite (bind_Ret _ _ w w false)
      by (unfold path_is_dir, is_dir; now rewrite Hd).
    rewrite (bind_Ret _ _ w w true)
      by (unfold path_exists, exists_; now rewrite Hold).
    rewrite (bind_Ret _ _ w w false)
      by (unfold path_is_dir, is_dir; now rewrite Hold).
    cbn [andb]. cbv zeta.
    rewrite (bind_Ret _ _ w w tt) by (now apply mkdir_parents_noop).
    rewrite (bind_Ret _ _ w (renamed w ks kd d) tt).
    + reflexivity.
    + unfold shutil_move, is_dir, read_bytes. rewrite Hold, Hd.
      cbn [andb]. rewrite (proj2 (check_writable_None dst w)) by eauto.
      rewrite Hks, Hkd. now rewrite bool_decide_eq_false_2 by exact Hkne.
  - rewrite (node_at_renamed w ks kd d d dst Hsts Hnd), Hkd. now rewrite decide_True.
  - rewrite (node_at_renamed w ks kd d d src Hsts Hnd), Hks.
    rewrite decide_False by exact Hkne. now rewrite decide_True.
  - intros q Hq1 Hq2. rewrite (node_at_renamed w ks kd d d q Hsts Hnd).
    unfold node_at. destruct (key_of w q) as [kq|e]; [|reflexivity].
    rewrite decide_False by congruence. now rewrite decide_False by congruence.
Qed.

(** X21.  [move_file] touches the source and the place where the file
    lands, nothing else.  Once both paths are normalized: whatever the
    outcome, every file or directory that existed keeps its content unless
    its path leads, after the call, to where the source or the landing
    path leads; a reported failure leaves the source in place; and a
    reported success means that the source was a file whose bytes are now
    at the place where it landed (inside the destination when that is a
    directory), and that the source is gone unless it landed on itself. *)
Theorem move_file_touches_source_and_target_only (source destination : string)
    (w : World) (src dst : path) :
  _normalize_path source w = Ret src w ->
  _normalize_path destination w = Ret dst w ->
  (forall q n,
     key_of (final_state (move_file source destination w)) q
     <> key_of (final_state (move_file source destination w)) src ->
     key_of (final_state (move_file source destination w)) q
     <> key_of (final_state (move_file source destination w)) (move_target w src dst) ->
     node_at w q = Some n ->
     node_at (final_state (move_file source destination w)) q = Some n)
  /\ (forall r w' n,
        move_file source destination w = Ret r w' ->
        dict_get "ok" r = Some (VBool false) ->
        node_at w src = Some n -> node_at w' src = Some n)
  /\ (forall r w',
        move_file source destination w = Ret r w' ->
        dict_get "ok" r = Some (VBool true) ->
        exists d,
          node_at w src = Some (File d)
          /\ node_at w' (move_target w src dst) = Some (File d)
          /\ (key_of w' src <> key_of w' (move_target w src dst) ->
              node_at w' src = None)).
Proof.
  intros Hsrc Hdst.
  pose proof (move_file_cases source destination w src dst Hsrc Hdst) as Hc.
  cbv zeta in Hc. set (target := copy_target w src dst) in *.
  set (real := move_target w src dst) in *.
  set (w1 := final_state (mkdir_parents (parent target) w)) in *.
  assert (Hkeep : forall q n, node_at w q = Some n -> node_at w1 q = Some n).
  { intros q n Hq. now apply mkdir_parents_preserves. }
  split; [|split].
  - intros q n.
    destruct Hc as [[msg ->]|[[msg ->]
                   |(d & ks & kd & Hd & Hks & Hst & Hkd & Hnd & ->)]];
      cbn [final_state]; auto.
    destruct (bool_decide (ks = kd)); [auto|].
    intros Hq1 Hq2 Hq. apply Hkeep in Hq. unfold node_at in Hq.
    destruct (key_of w1 q) as [kq|e] eqn:Ekq; [|discriminate].
    rewrite (proj2 (key_of_renamed w1 ks kd d d q kq Hst Hnd) Ekq) in Hq1, Hq2.
    rewrite (proj2 (key_of_renamed w1 ks kd d d src ks Hst Hnd) Hks) in Hq1.
    rewrite (proj2 (key_of_renamed w1 ks kd d d real kd Hst Hnd) Hkd) in Hq2.
    rewrite (node_at_renamed w1 ks kd d d q Hst Hnd), Ekq.
    rewrite decide_False by congruence. now rewrite decide_False by congruence.
  - intros r w' n E Hok Hn.
    destruct Hc as [[msg Hm]|[[msg Hm]|(d & ks & kd & _ & _ & _ & _ & _ & Hm)]];
      rewrite Hm in E; injection E as <- <-; try discriminate Hok; auto.
  - intros r w' E Hok.
    destruct Hc as [[msg Hm]|[[msg Hm]|(d & ks & kd & Hd & Hks & Hst & Hkd & Hnd & Hm)]];
      rewrite Hm in E; injection E as <- <-; try discriminate Hok.
    exists d. split; [exact Hd|].
    destruct (bool_decide_reflect (ks = kd)) as [Heq|Hneq].
    + split.
      * rewrite (node_at_key w1 real kd Hkd). now rewrite <- Heq.
      * rewrite Hks, Hkd, Heq. congruence.
    + rewrite !(node_at_renamed w1 ks kd d d _ Hst Hnd), Hkd, Hks.
      split; [now rewrite decide_True|]. intros _.
      rewrite decide_False by exact Hneq. now rewrite decide_True.
Qed.

End WithHost.

(** Witness of [move_file_replaces_an_existing_file]: [a.txt] moved onto
    [ab.txt]. *)
Lemma move_file_replaces_an_existing_file_witness :
  exists r w',
    move_file (H := fs_bodies) "a.txt" "ab.txt" demo_world = Ret r w'
    /\ dict_get "ok" r = Some (VBool true)
    /\ node_at w' ["work"; "ab.txt"] = Some (File (bytes "abc"))
    /\ node_at w' ["work"; "a.txt"] = None.
Proof.
  assert (Hs : _normalize_path "a.txt" demo_world = Ret ["work"; "a.txt"] demo_world)
    by (vm_compute; reflexivity).
  assert (Hd : _normalize_path "ab.txt" demo_world = Ret ["work"; "ab.txt"] demo_world)
    by (vm_compute; reflexivity).
  assert (Hne : key_of demo_world ["work"; "a.txt"] <> key_of demo_world ["work"; "ab.txt"]).
  { assert (E1 : key_of demo_world ["work"; "a.txt"] = inl ["work"; "a.txt"])
      by (vm_compute; reflexivity).
    assert (E2 : key_of demo_world ["work"; "ab.txt"] = inl ["work"; "ab.txt"])
      by (vm_compute; reflexivity).
    rewrite E1, E2. discriminate. }
  destruct (@move_file_replaces_an_existing_file demo_os fs_bodies eq_refl
              "a.txt" "ab.txt" demo_world _ _ (bytes "abc") (bytes "hello")
              Hs Hd eq_refl eq_refl Hne)
    as (w' & E & Hdst & Hsrc & _).
  eexists _, w'. split; [exact E|]. split; [reflexivity|]. split; assumption.
Defined.

(** Two paths to one file: moved onto itself by another path, the file
    stays. *)
Example move_file_onto_itself :
  _normalize_path "home/n.txt" home_world = Ret ["home"; "u"; "n.txt"] home_world
  /\ _normalize_path "home/../u/n.txt" home_world
     = Ret ["home"; "u"; ".."; "u"; "n.txt"] home_world
  /\ exists r w',
       move_file (H := fs_bodies) "home/n.txt" "home/../u/n.txt" home_world = Ret r w'
       /\ dict_get "ok" r = Some (VBool true)
       /\ node_at w' ["home"; "u"; "n.txt"] = Some (File (bytes "old")).
Proof.
  split; [vm_compute; reflexivity|]. split; [vm_compute; reflexivity|].
  eexists _, _. split; [vm_compute; reflexivity|]. split; vm_compute; reflexivity.
Qed.

(** Witness of [move_file_touches_source_and_target_only]: moving [a.txt]
    to [b.txt] leaves [ab.txt] alone. *)
Lemma move_file_touches_source_and_target_only_witness :
  node_at (final_state (move_file (H := fs_bodies) "a.txt" "b.txt" demo_world))
    ["work"; "ab.txt"]
  = Some (File (bytes "hello")).
Proof.
  assert (Hs : _normalize_path "a.txt" demo_world = Ret ["work"; "a.txt"] demo_world)
    by (vm_compute; reflexivity).
  assert (Hd : _normalize_path "b.txt" demo_world = Ret ["work"; "b.txt"] demo_world)
    by (vm_compute; reflexivity).
  assert (Eq : key_of (final_state (move_file (H := fs_bodies) "a.txt" "b.txt" demo_world))
                 ["work"; "ab.txt"] = inl ["work"; "ab.txt"])
    by (vm_compute; reflexivity).
  assert (Es : key_of (final_state (move_file (H := fs_bodies) "a.txt" "b.txt" demo_world))
                 ["work"; "a.txt"] = inl ["work"; "a.txt"])
    by (vm_compute; reflexivity).
  assert (Et : key_of (final_state (move_file (H := fs_bodies) "a.txt" "b.txt" demo_world))
                 (move_target demo_world ["work"; "a.txt"] ["work"; "b.txt"])
               = inl ["work"; "b.txt"])
    by (vm_compute; reflexivity).
  destruct (@move_file_touches_source_and_target_only demo_os fs_bodies eq_refl
              "a.txt" "b.txt" demo_world _ _ Hs Hd) as (Hframe & _ & _).
  apply Hframe.
  - rewrite Eq, Es. discriminate.
  - rewrite Eq, Et. discriminate.
  - vm_compute. reflexivity.
Defined.

End MoveFacts.

(** ** [summarize_file] when there is nothing to summarize *)

Module SummarizeFacts.
Import Py Host Tools PyFacts ToolsFacts SearchFacts Demo.

Section WithHost.
Context `{OS} `{ToolBodies}.

(** X22.  [summarize_file] without a match.  For a name that is empty or
    white space only it returns the error of [find_item], "empty name for
    find_item".  For any other name, when the working directory and the
    home directory are known and no path under the searched roots has a
    name that scores 0.6 or more, it returns [ok = False] with "No files
    found matching '<name>'. Try a different search term.".  In both cases
    no file is opened and the machine stays as it was. *)
Theorem summarize_file_without_a_match (name : string) (max_bytes : Z) (w : World) :
  (PyStr.strip name = "" ->
   summarize_file name max_bytes w = Ret (error_dict "empty name for find_item") w)
  /\ (forall c h,
        PyStr.strip name <> "" -> cwd w = Some c -> home w = Some h ->
        (forall root p,
           In root (search_roots w c h) -> In p (fst (rglob w root)) ->
           (Fuzzy._fuzzy_match_score (PyStr.strip name) (Host.name p) < 6 # 10)%Q) ->
        summarize_file name max_bytes w
        = Ret (error_dict ("No files found matching '" ++ name
                           ++ "'. Try a different search term.")) w).
Proof.
  split.
  - intros He. unfold summarize_file.
    rewrite (bind_Ret _ _ w w (error_dict "empty name for find_item")).
    + reflexivity.
    + unfold find_item. cbv zeta. now rewrite He.
  - intros c h Hq Hc Hh Hnone. unfold summarize_file.
    rewrite (bind_Ret _ _ _ _ _ (find_item_eq name 5 (6 # 10) w c h Hq Hc Hh)).
    assert (Hempty : all_entries w (PyStr.strip name) (6 # 10) (search_roots w c h) = []).
    { destruct (all_entries w (PyStr.strip name) (6 # 10) (search_roots w c h))
        as [|e l] eqn:E; [reflexivity|].
      assert (He : In e (all_entries w (PyStr.strip name) (6 # 10) (search_roots w c h)))
        by (rewrite E; now left).
      apply In_all_entries in He. destruct He as (root & p & Hroot & Hp & Hs & _).
      exfalso. apply (Qlt_not_le _ _ (Hnone root p Hroot Hp)). exact Hs. }
    rewrite Hempty. reflexivity.
Qed.

End WithHost.

(** An example of [summarize_file_without_a_match]: nothing in the example
    world is named like "zzz". *)
Lemma summarize_file_without_a_match_witness :
  summarize_file (H0 := demo_bodies) "zzz" 100 demo_world
  = Ret (error_dict "No files found matching 'zzz'. Try a different search term.")
      demo_world.
Proof.
  destruct (summarize_file_without_a_match (H0 := demo_bodies) "zzz" 100 demo_world)
    as [_ Hnone].
  apply (Hnone ["work"] ["home"; "u"]).
  - vm_compute. discriminate.
  - reflexivity.
  - reflexivity.
  - assert (Hroots : search_roots demo_world ["work"] ["home"; "u"] = [["work"]])
      by (vm_compute; reflexivity).
    assert (Hwalk : fst (rglob demo_world ["work"])
                    = [["work"; "ab.txt"]; ["work"; "a.txt"]])
      by (vm_compute; reflexivity).
    intros root p Hroot Hp. rewrite Hroots in Hroot. destruct Hroot as [<-|[]].
    rewrite Hwalk in Hp.
    destruct Hp as [<-|[<-|[]]]; unfold Qlt; vm_compute; reflexivity.
Defined.

End SummarizeFacts.
